(** * hx: a hex editor for the terminal -- the editing engine of [main.c]

    A shallow embedding of the cursor/offset arithmetic, the byte buffer
    operations, the key decoder [read_key], the key dispatcher
    [editor_process_keypress], the option parser [str2int], the redraw of
    the screen ([editor_refresh_screen] and the functions it calls) and the
    loop of [main] of [src/main.c], followed by the properties proved about
    them.

    Conventions of the embedding.
    - A C [int] is a [Z]; every arithmetic operator of the source is the
      corresponding operator on [Z] followed by the two's-complement
      reduction [CInt.wrap] to 32 bits.  Division and remainder truncate
      towards zero ([Z.quot], [Z.rem]).  Signed overflow and division by
      zero are undefined in C: the theorems that depend on their absence
      say so in their hypotheses.
    - A C [char] is a signed 8-bit value (gcc on x86 Linux), a [Z] in
      [-128, 127]; [(unsigned char) c] is [CChar.uchar c].
    - [e->contents] is the list of the [char]s of the allocation; the field
      [content_length] is kept beside it, as in the struct.
    - A function that only updates [*e] maps an [editor] to an [editor];
      one that indexes [e->contents] returns an [option] ([None]: access
      outside the allocation); one that reads the terminal returns an
      [outcome].
    - A function that draws returns the calls of [charbuf_append] it makes,
      in order, as a [drawn] list of [chunk]s.
    - Allocation failure ([realloc] returning [NULL] for want of memory) is
      not modelled. *)

From Stdlib Require Import ZArith Lia Bool Ascii String.
From stdpp Require Import base tactics option list.

Local Open Scope Z_scope.

(** ** C integers *)

Module CInt.

Definition INT_MIN : Z := - 2 ^ 31.
Definition INT_MAX : Z := 2 ^ 31 - 1.

(** Reduction of a mathematical integer to the [int] with the same low
    32 bits. *)
Definition wrap (z : Z) : Z := (z + 2 ^ 31) mod 2 ^ 32 - 2 ^ 31.

(** [z] is the value of some [int]. *)
Definition in_int (z : Z) : Prop := INT_MIN <= z <= INT_MAX.
Definition is_int (z : Z) : bool := (INT_MIN <=? z) && (z <=? INT_MAX).

Definition add (a b : Z) : Z := wrap (a + b).
Definition sub (a b : Z) : Z := wrap (a - b).
Definition mul (a b : Z) : Z := wrap (a * b).
Definition div (a b : Z) : Z := wrap (Z.quot a b).
Definition rem (a b : Z) : Z := wrap (Z.rem a b).
Definition neg (a : Z) : Z := wrap (- a).

End CInt.

Arguments CInt.wrap : simpl never.
Arguments CInt.add : simpl never.
Arguments CInt.sub : simpl never.
Arguments CInt.mul : simpl never.
Arguments CInt.div : simpl never.
Arguments CInt.rem : simpl never.
Arguments CInt.neg : simpl never.

Infix "+i" := CInt.add (at level 50, left associativity).
Infix "-i" := CInt.sub (at level 50, left associativity).
Infix "*i" := CInt.mul (at level 40, left associativity).
Infix "/i" := CInt.div (at level 40, left associativity).
Infix "%i" := CInt.rem (at level 40, left associativity).

(** ** C characters *)

Module CChar.

(** Conversion of an [int] (or of a byte read from a file descriptor) to
    [char]: the low 8 bits, read as a signed value. *)
Definition of_int (z : Z) : Z := (z + 2 ^ 7) mod 2 ^ 8 - 2 ^ 7.

(** [(unsigned char) c]. *)
Definition uchar (c : Z) : Z := c mod 2 ^ 8.

(** [c] is the value of some [char]. *)
Definition in_char (c : Z) : Prop := - 2 ^ 7 <= c <= 2 ^ 7 - 1.
Definition is_char (c : Z) : bool := (- 2 ^ 7 <=? c) && (c <=? 2 ^ 7 - 1).

End CChar.

Arguments CChar.of_int : simpl never.
Arguments CChar.uchar : simpl never.

(** The arithmetic is unfolded last when two terms are compared: the
    functions of the editor are compared operation by operation. *)
Strategy 1000 [CInt.wrap CInt.add CInt.sub CInt.mul CInt.div CInt.rem CInt.neg
               CChar.of_int CChar.uchar].

(** A character constant ['a'] of the source. *)
Definition ch (a : ascii) : Z := Z.of_N (N_of_ascii a).
Arguments ch a%_char.

(** ** Declarations of [main.c] *)

Inductive editor_mode : Set :=
  | MODE_NORMAL
  | MODE_INSERT
  | MODE_REPLACE
  | MODE_COMMAND.

Inductive status_severity : Set :=
  | STATUS_INFO
  | STATUS_WARNING
  | STATUS_ERROR.

(** The arguments of a [printf]-style call.  The status message is kept as
    the format and its arguments; rendering them is the C library's
    [vsnprintf]. *)
Inductive fmt_arg : Set :=
  | AInt (z : Z)
  | AStr (s : string).

Record message : Set := Message { msg_fmt : string; msg_args : list fmt_arg }.

Record editor : Set := Editor {
  octets_per_line : Z;
  grouping : Z;
  hex_line_width : Z;
  line : Z;
  cursor_x : Z;
  cursor_y : Z;
  screen_rows : Z;
  screen_cols : Z;
  mode : editor_mode;
  dirty : bool;
  filename : option string;
  contents : list Z;
  content_length : Z;
  status_sev : status_severity;
  status_message : message
}.

Definition KEY_NULL : Z := 0.
Definition KEY_CTRL_Q : Z := 0x11.
Definition KEY_CTRL_S : Z := 0x13.
Definition KEY_ESC : Z := 0x1b.
Definition KEY_UP : Z := 1000.
Definition KEY_DOWN : Z := 1001.
Definition KEY_RIGHT : Z := 1002.
Definition KEY_LEFT : Z := 1003.
Definition KEY_HOME : Z := 1004.
Definition KEY_END : Z := 1005.
Definition KEY_PAGEUP : Z := 1006.
Definition KEY_PAGEDOWN : Z := 1007.

(** ** Utility functions *)

(** [bool ishex(const char c)]. *)
Definition ishex (c : Z) : bool :=
  ((ch "0" <=? c) && (c <=? ch "9")) ||
  ((ch "A" <=? c) && (c <=? ch "F")) ||
  ((ch "a" <=? c) && (c <=? ch "f")).

(** The body of the loop of [hex2bin] on the character [c]. *)
Definition hex2bin_step (ret c : Z) : Z :=
  let n :=
    if (ch "0" <=? c) && (c <=? ch "9") then c -i ch "0"
    else if (ch "a" <=? c) && (c <=? ch "f") then 10 +i c -i ch "a"
    else if (ch "A" <=? c) && (c <=? ch "F") then 10 +i c -i ch "A"
    else 0 in
  n +i ret *i 16.

(** [for (int i = 0; i < 2; i++) { char c = *s++; ... }]: [i] counts the
    iterations left, [s] is the string from the current position. *)
Fixpoint hex2bin_loop (i : nat) (s : list Z) (ret : Z) : Z :=
  match i, s with
  | S i', c :: s' => hex2bin_loop i' s' (hex2bin_step ret c)
  | _, _ => ret
  end.

Definition hex2bin (s : list Z) : Z := hex2bin_loop 2 s 0.

(** [str2int(s, min, max, def)].  [strtoimax] belongs to the C library:
    the value it returns for [s] is [parsed] (an [intmax_t]) and [erange]
    tells whether [errno] is [ERANGE] after the call.  [x] is a
    [uintmax_t], so both comparisons are made on 64 unsigned bits, and the
    result goes back to [int]. *)
Definition str2int (parsed : Z) (erange : bool) (min max def : Z) : Z :=
  let x := parsed mod 2 ^ 64 in
  if erange then def
  else if (x <? min mod 2 ^ 64) || (x >? max mod 2 ^ 64) then def
  else CInt.wrap x.

(** ** The terminal as seen by [read(STDIN_FILENO, buf, 1)]

    With [VMIN = 0] and [VTIME = 1] a call returns 1 and stores a byte,
    returns 0 when the timeout expires, or returns -1 ([eintr] tells
    whether [errno] is [EINTR]).  The terminal is the list of the results
    of the calls to come; after its end every call times out. *)

Inductive read_result : Set :=
  | RByte (b : Z)
  | RNone
  | RError (eintr : bool).

Definition stdin := list read_result.

(** What a call of the program ends in: a value and the terminal left, the
    end of the process ([exit], or [abort] as [Exit 134]), a wait on the
    terminal that never ends, or an access outside [e->contents] (in the
    loop of [main], also what else C leaves undefined in the redraw). *)
Inductive outcome (A : Type) : Type :=
  | Ret (a : A) (rest : stdin)
  | Exit (code : Z)
  | Blocked
  | Fault.
Arguments Ret {A} a rest.
Arguments Exit {A} code.
Arguments Blocked {A}.
Arguments Fault {A}.

(** The collaborators the engine does not own: the indeterminate bytes of
    the automatic array [seq] of [read_key], the byte [realloc] leaves in
    the part it adds, and the file system behind [editor_writefile]; for
    [editor_refresh_screen], [isprint] of the C library, the indeterminate
    bytes of the automatic array [asc], the characters the [printf] family
    writes for a format and its arguments, and the value of
    [(float) a / (float) b * 100] converted to [int] (the arithmetic of
    [float] is not modelled). *)
Inductive sink_result : Set :=
  | OpenFailed (err : string)
  | Written (bw : Z) (err : string).

Record world : Type := World {
  seq_uninit : nat -> Z;
  heap_fill : Z;
  file_sink : string -> list Z -> Z -> sink_result;
  ctype_isprint : Z -> bool;
  stack_fill : nat -> Z;
  printed : string -> list fmt_arg -> list Z;
  float_percent : Z -> Z -> Z
}.

(** [while ((nread = read(STDIN_FILENO, &c, 1)) == 0);] *)
Fixpoint read_retry (inp : stdin) : option (read_result * stdin) :=
  match inp with
  | [] => None
  | RNone :: rest => read_retry rest
  | r :: rest => Some (r, rest)
  end.

(** [read(STDIN_FILENO, seq + i, 1)]: the value returned, the content of
    [seq[i]] after the call ([old] before it), and the terminal left. *)
Definition read_into (old : Z) (inp : stdin) : Z * Z * stdin :=
  match inp with
  | [] => (0, old, [])
  | RByte b :: rest => (1, CChar.of_int b, rest)
  | RNone :: rest => (0, old, rest)
  | RError _ :: rest => (-1, old, rest)
  end.

(** The first inner [switch (seq[1])], under [seq[2] == '~']. *)
Definition tilde_key (s1 : Z) : option Z :=
  if s1 =? ch "1" then Some KEY_HOME
  else if s1 =? ch "4" then Some KEY_END
  else if s1 =? ch "5" then Some KEY_PAGEUP
  else if s1 =? ch "6" then Some KEY_PAGEDOWN
  else None.

(** The second [switch (seq[1])]. *)
Definition letter_key (s1 : Z) : option Z :=
  if s1 =? ch "A" then Some KEY_UP
  else if s1 =? ch "B" then Some KEY_DOWN
  else if s1 =? ch "C" then Some KEY_RIGHT
  else if s1 =? ch "D" then Some KEY_LEFT
  else if s1 =? ch "H" then Some KEY_HOME
  else if s1 =? ch "F" then Some KEY_END
  else None.

Definition read_key (w : world) (inp : stdin) : outcome Z :=
  match read_retry inp with
  | None => Blocked
  | Some (RNone, _) => Blocked
  | Some (RError true, rest) => Ret (-1) rest
  | Some (RError false, _) => Exit 2
  | Some (RByte b, rest) =>
      let c := CChar.of_int b in
      if c =? KEY_ESC then
        let '(n0, s0, inp1) := read_into (seq_uninit w 0) rest in
        if n0 =? 0 then Ret KEY_ESC inp1 else
        let '(n1, s1, inp2) := read_into (seq_uninit w 1) inp1 in
        if n1 =? 0 then Ret KEY_ESC inp2 else
        if s0 =? ch "[" then
          let letters (inp' : stdin) :=
            match letter_key s1 with
            | Some k => Ret k inp'
            | None => Ret c inp'
            end in
          if (ch "0" <=? s1) && (s1 <=? ch "9") then
            let '(n2, s2, inp3) := read_into (seq_uninit w 2) inp2 in
            if n2 =? 0 then Ret KEY_ESC inp3 else
            match (if s2 =? ch "~" then tilde_key s1 else None) with
            | Some k => Ret k inp3
            | None => letters inp3
            end
          else letters inp2
        else Ret c inp2
      else Ret c rest
  end.

(** ** Assignments to the fields of [struct editor] *)

Definition set_line (v : Z) (e : editor) : editor :=
  Editor (octets_per_line e) (grouping e) (hex_line_width e) v
    (cursor_x e) (cursor_y e) (screen_rows e) (screen_cols e) (mode e)
    (dirty e) (filename e) (contents e) (content_length e) (status_sev e)
    (status_message e).

Definition set_cursor_x (v : Z) (e : editor) : editor :=
  Editor (octets_per_line e) (grouping e) (hex_line_width e) (line e)
    v (cursor_y e) (screen_rows e) (screen_cols e) (mode e)
    (dirty e) (filename e) (contents e) (content_length e) (status_sev e)
    (status_message e).

Definition set_cursor_y (v : Z) (e : editor) : editor :=
  Editor (octets_per_line e) (grouping e) (hex_line_width e) (line e)
    (cursor_x e) v (screen_rows e) (screen_cols e) (mode e)
    (dirty e) (filename e) (contents e) (content_length e) (status_sev e)
    (status_message e).

Definition set_mode (v : editor_mode) (e : editor) : editor :=
  Editor (octets_per_line e) (grouping e) (hex_line_width e) (line e)
    (cursor_x e) (cursor_y e) (screen_rows e) (screen_cols e) v
    (dirty e) (filename e) (contents e) (content_length e) (status_sev e)
    (status_message e).

Definition set_contents (v : list Z) (e : editor) : editor :=
  Editor (octets_per_line e) (grouping e) (hex_line_width e) (line e)
    (cursor_x e) (cursor_y e) (screen_rows e) (screen_cols e) (mode e)
    (dirty e) (filename e) v (content_length e) (status_sev e)
    (status_message e).

Definition set_content_length (v : Z) (e : editor) : editor :=
  Editor (octets_per_line e) (grouping e) (hex_line_width e) (line e)
    (cursor_x e) (cursor_y e) (screen_rows e) (screen_cols e) (mode e)
    (dirty e) (filename e) (contents e) v (status_sev e)
    (status_message e).

Definition set_status (s : status_severity) (m : message) (e : editor) : editor :=
  Editor (octets_per_line e) (grouping e) (hex_line_width e) (line e)
    (cursor_x e) (cursor_y e) (screen_rows e) (screen_cols e) (mode e)
    (dirty e) (filename e) (contents e) (content_length e) s m.

(** ** The allocation behind [e->contents] *)

(** [p[i]] *)
Definition load (p : list Z) (i : Z) : option Z :=
  if (0 <=? i) && (i <? Z.of_nat (length p)) then p !! Z.to_nat i else None.

(** [p[i] = v] *)
Definition store (p : list Z) (i v : Z) : option (list Z) :=
  if (0 <=? i) && (i <? Z.of_nat (length p))
  then Some (<[Z.to_nat i := v]> p) else None.

(** [memmove(p + dst, p + src, n)], both ranges inside the allocation. *)
Definition memmove (p : list Z) (dst src n : Z) : option (list Z) :=
  if (0 <=? dst) && (0 <=? src) && (0 <=? n)
     && (dst + n <=? Z.of_nat (length p)) && (src + n <=? Z.of_nat (length p))
  then Some (take (Z.to_nat dst) p
             ++ take (Z.to_nat n) (drop (Z.to_nat src) p)
             ++ drop (Z.to_nat (dst + n)) p)
  else None.

(** [realloc(p, n)]: the first [n] bytes are kept, a longer allocation
    ends in bytes of no determined value.  A negative [n] is a request for
    more memory than there is. *)
Definition realloc (w : world) (p : list Z) (n : Z) : option (list Z) :=
  if n <? 0 then None
  else Some (take (Z.to_nat n) p
             ++ replicate (Z.to_nat n - length p)%nat (heap_fill w)).

(** ** Functions operating on the editor *)

(** [editor_statusmessage(e, sev, fmt, ...)] *)
Definition editor_statusmessage (e : editor) (sev : status_severity)
    (fmt : string) (args : list fmt_arg) : editor :=
  set_status sev (Message fmt args) e.

Definition editor_setmode (e : editor) (m : editor_mode) : editor :=
  let e := set_mode m e in
  match mode e with
  | MODE_NORMAL => editor_statusmessage e STATUS_INFO "" []
  | MODE_INSERT => editor_statusmessage e STATUS_INFO "-- INSERT --" []
  | MODE_REPLACE => editor_statusmessage e STATUS_INFO "-- REPLACE --" []
  | MODE_COMMAND => e
  end.

(** The value of [offset] before the two safety tests of
    [editor_offset_at_cursor]. *)
Definition cursor_offset (e : editor) : Z :=
  (cursor_y e -i 1 +i line e) *i octets_per_line e +i (cursor_x e -i 1).

Definition editor_offset_at_cursor (e : editor) : Z :=
  let offset := cursor_offset e in
  if offset <=? 0 then 0
  else if offset >=? content_length e then content_length e -i 1
  else offset.

(** [editor_cursor_at_offset(e, offset, &x, &y)]: the pair [(x, y)]. *)
Definition editor_cursor_at_offset (e : editor) (offset : Z) : Z * Z :=
  (offset %i octets_per_line e +i 1,
   offset /i octets_per_line e -i line e +i 1).

(** [editor_cursor_at_offset(e, offset, &e->cursor_x, &e->cursor_y)] *)
Definition cursor_to_offset (e : editor) (offset : Z) : editor :=
  let '(x, y) := editor_cursor_at_offset e offset in
  set_cursor_y y (set_cursor_x x e).

Definition editor_scroll (e : editor) (units : Z) : editor :=
  let e := set_line (line e +i units) e in
  let upper_limit :=
    content_length e /i octets_per_line e -i (screen_rows e -i 2) in
  let e := if line e >=? upper_limit then set_line upper_limit e else e in
  if line e <=? 0 then set_line 0 e else e.

(** [editor_move_cursor], block by block.  First the [switch (dir)]. *)
Definition step_cursor (e : editor) (dir amount : Z) : editor :=
  if dir =? KEY_UP then set_cursor_y (cursor_y e -i amount) e
  else if dir =? KEY_DOWN then set_cursor_y (cursor_y e +i amount) e
  else if dir =? KEY_LEFT then set_cursor_x (cursor_x e -i amount) e
  else if dir =? KEY_RIGHT then set_cursor_x (cursor_x e +i amount) e
  else e.

(** "Did we hit the start of the file?": the test of the first [if]. *)
Definition at_file_start (e : editor) : bool :=
  (cursor_x e <=? 1) && (cursor_y e <=? 1) && (line e <=? 0).

(** "Move the cursor over the x (columns) axis." *)
Definition wrap_columns (e : editor) : editor :=
  if cursor_x e <? 1 then
    if cursor_y e >=? 1 then
      set_cursor_x (octets_per_line e) (set_cursor_y (cursor_y e -i 1) e)
    else e
  else if cursor_x e >? octets_per_line e then
    set_cursor_x 1 (set_cursor_y (cursor_y e +i 1) e)
  else e.

(** "Did we try to move up when there's nothing?" *)
Definition stop_at_top (e : editor) : editor :=
  if (cursor_y e <=? 1) && (line e <=? 0) then set_cursor_y 1 e else e.

(** "Move the cursor over the y axis". *)
Definition scroll_rows (e : editor) : editor :=
  if cursor_y e >? screen_rows e -i 1 then
    editor_scroll (set_cursor_y (screen_rows e -i 1) e) 1
  else if (cursor_y e <? 1) && (line e >? 0) then
    editor_scroll (set_cursor_y 1 e) (-1)
  else e.

(** "Did we hit the end of the file somehow?" *)
Definition stop_at_end (e : editor) : editor :=
  let offset := editor_offset_at_cursor e in
  if offset >=? content_length e -i 1 then cursor_to_offset e offset
  else e.

Definition editor_move_cursor (e : editor) (dir amount : Z) : editor :=
  let e := step_cursor e dir amount in
  if at_file_start e then set_cursor_y 1 (set_cursor_x 1 e)
  else stop_at_end (scroll_rows (stop_at_top (wrap_columns e))).

(** The character [34] of a format, written apart from the text around it. *)
Definition dquote : string := String (ascii_of_nat 34) EmptyString.

(** [editor_writefile(e)]; [None] when [assert(e->filename != NULL)]
    fails. *)
Definition editor_writefile (w : world) (e : editor) : option editor :=
  match filename e with
  | None => None
  | Some name =>
      match file_sink w name (contents e) (content_length e) with
      | OpenFailed err =>
          Some (editor_statusmessage e STATUS_ERROR
                  "Unable to open '%s' for writing: %s" [AStr name; AStr err])
      | Written bw err =>
          if bw <=? 0 then
            Some (editor_statusmessage e STATUS_ERROR
                    "Unable write to file: %s" [AStr err])
          else
            Some (editor_statusmessage e STATUS_INFO
                    (dquote ++ "%s" ++ dquote ++ ", %d bytes written")
                    [AStr name; AInt (content_length e)])
      end
  end.

Definition editor_delete_char_at_cursor (w : world) (e : editor)
    : option editor :=
  let offset := editor_offset_at_cursor e in
  let old_length := content_length e in
  if content_length e <=? 0 then
    Some (editor_statusmessage e STATUS_WARNING "Nothing to delete" [])
  else
    p ← memmove (contents e) offset (offset + 1)
          (content_length e -i offset -i 1);
    p ← realloc w p (content_length e -i 1);
    let e := set_contents p e in
    let e := set_content_length (content_length e -i 1) e in
    if offset >=? old_length -i 1 then Some (editor_move_cursor e KEY_LEFT 1)
    else Some e.

Definition editor_increment_byte (e : editor) (amount : Z) : option editor :=
  let offset := editor_offset_at_cursor e in
  c ← load (contents e) offset;
  p ← store (contents e) offset (CChar.of_int (c +i amount));
  Some (set_contents p e).

Definition editor_insert (w : world) (e : editor) (x : Z) : option editor :=
  p ← realloc w (contents e) (content_length e +i 1);
  p ← store p (content_length e) x;
  let e := set_contents p e in
  Some (set_content_length (content_length e +i 1) e).

Definition editor_replace_byte (e : editor) (x : Z) : option editor :=
  let offset := editor_offset_at_cursor e in
  p ← store (contents e) offset x;
  let e := set_contents p e in
  Some (editor_move_cursor e KEY_RIGHT 1).

(** The end of a call that indexed [e->contents]. *)
Definition checked (r : option editor) (rest : stdin) : outcome editor :=
  match r with
  | Some e => Ret e rest
  | None => Fault
  end.

(** The keys of the first [switch] of [editor_process_keypress], handled in
    every mode. *)
Definition global_key (c : Z) : bool :=
  (c =? KEY_ESC) || (c =? KEY_CTRL_Q) || (c =? KEY_CTRL_S)
  || (c =? KEY_UP) || (c =? KEY_DOWN) || (c =? KEY_RIGHT) || (c =? KEY_LEFT)
  || (c =? KEY_HOME) || (c =? KEY_END) || (c =? KEY_PAGEUP)
  || (c =? KEY_PAGEDOWN).

(** The commands of normal mode: [switch (c)] under
    [e->mode == MODE_NORMAL]. *)
Definition normal_command (w : world) (e : editor) (c : Z) (rest : stdin)
    : outcome editor :=
  if c =? ch "h" then Ret (editor_move_cursor e KEY_LEFT 1) rest
  else if c =? ch "j" then Ret (editor_move_cursor e KEY_DOWN 1) rest
  else if c =? ch "k" then Ret (editor_move_cursor e KEY_UP 1) rest
  else if c =? ch "l" then Ret (editor_move_cursor e KEY_RIGHT 1) rest
  else if c =? ch "x" then checked (editor_delete_char_at_cursor w e) rest
  else if c =? ch "i" then Ret (editor_setmode e MODE_INSERT) rest
  else if c =? ch "r" then Ret (editor_setmode e MODE_REPLACE) rest
  else if c =? ch "b" then Ret (editor_move_cursor e KEY_LEFT (grouping e)) rest
  else if c =? ch "w" then Ret (editor_move_cursor e KEY_RIGHT (grouping e)) rest
  else if c =? ch "G" then
    let e := editor_scroll e (content_length e) in
    Ret (cursor_to_offset e (content_length e -i 1)) rest
  else if c =? ch "g" then
    match read_key w rest with
    | Ret c rest =>
        if c =? ch "g" then Ret (cursor_to_offset (set_line 0 e) 0) rest
        else Ret e rest
    | Exit code => Exit code
    | Blocked => Blocked
    | Fault => Fault
    end
  else if c =? ch "]" then checked (editor_increment_byte e 1) rest
  else if c =? ch "[" then checked (editor_increment_byte e (-1)) rest
  else Ret e rest.

(** The branch [e->mode == MODE_REPLACE]; [c] is the key already read. *)
Definition replace_command (w : world) (e : editor) (c : Z) (rest : stdin)
    : outcome editor :=
  if negb (ishex (CChar.of_int c)) then
    Ret (editor_statusmessage e STATUS_ERROR "'%c' is not valid hex" [AInt c])
        rest
  else
    match read_key w rest with
    | Ret next rest =>
        if negb (ishex (CChar.of_int next)) then
          Ret (editor_statusmessage e STATUS_ERROR "'%c' is not valid hex"
                 [AInt next]) rest
        else
          let offset := editor_offset_at_cursor e in
          let crud := [CChar.of_int c; CChar.of_int next; 0] in
          let ashex := CChar.of_int (hex2bin crud) in
          match editor_replace_byte e ashex with
          | Some e =>
              Ret (editor_statusmessage e STATUS_INFO
                     "Replaced byte at offset %09x with %02x"
                     [AInt offset; AInt (CChar.uchar ashex)]) rest
          | None => Fault
          end
    | Exit code => Exit code
    | Blocked => Blocked
    | Fault => Fault
    end.

(** What [editor_process_keypress] does with the key [c] once read. *)
Definition editor_dispatch (w : world) (e : editor) (c : Z) (rest : stdin)
    : outcome editor :=
  if c =? KEY_ESC then Ret (editor_setmode e MODE_NORMAL) rest
  else if c =? KEY_CTRL_Q then Exit 0
  else if c =? KEY_CTRL_S then
    match editor_writefile w e with
    | Some e => Ret e rest
    | None => Exit 134
    end
  else if (c =? KEY_UP) || (c =? KEY_DOWN) || (c =? KEY_RIGHT)
          || (c =? KEY_LEFT) then Ret (editor_move_cursor e c 1) rest
  else if c =? KEY_HOME then Ret (set_cursor_x 1 e) rest
  else if c =? KEY_END then Ret (set_cursor_x (octets_per_line e) e) rest
  else if c =? KEY_PAGEUP then
    Ret (editor_scroll e (CInt.neg (screen_rows e) +i 2)) rest
  else if c =? KEY_PAGEDOWN then
    Ret (editor_scroll e (screen_rows e -i 2)) rest
  else
    match mode e with
    | MODE_NORMAL => normal_command w e c rest
    | MODE_INSERT => Ret e rest
    | MODE_REPLACE => replace_command w e c rest
    | MODE_COMMAND => Ret e rest
    end.

Definition editor_process_keypress (w : world) (e : editor) (inp : stdin)
    : outcome editor :=
  match read_key w inp with
  | Ret c rest => if c =? -1 then Ret e rest else editor_dispatch w e c rest
  | Exit code => Exit code
  | Blocked => Blocked
  | Fault => Fault
  end.

(** [editor_init()], for a terminal of [rows] by [cols].  The source leaves
    [dirty] and [status_severity] as [malloc] returned them: they are
    arguments here. *)
Definition editor_init (rows cols : Z) (dirty0 : bool)
    (severity0 : status_severity) : editor :=
  {| octets_per_line := 16;
     grouping := 2;
     hex_line_width := 16 *i 2 +i (16 /i 2) -i 1;
     line := 0;
     cursor_x := 1;
     cursor_y := 1;
     screen_rows := rows;
     screen_cols := cols;
     mode := MODE_NORMAL;
     dirty := dirty0;
     filename := None;
     contents := [];
     content_length := 0;
     status_sev := severity0;
     status_message := Message "" [] |}.

(** ** Drawing the buffer

    [editor_render_contents] writes to a [struct charbuf] through
    [charbuf_append(b, s, len)] only.  A call is recorded as the text [s]
    points to and [len]: a string literal, an array written by [snprintf]
    (the format and its arguments: the characters are the C library's), bytes
    of an array of the program, or the padding.  The program is the one
    compiled without [NDEBUG], as the [assert] of [editor_writefile] is. *)

Inductive text : Type :=
  | Literal (s : string)
  | Printed (fmt : string) (args : list fmt_arg)
  | Chars (l : list Z)
  | Blanks.

(** [len] is a number of the program, or the value that the [snprintf]
    which wrote the text returned. *)
Inductive text_length : Type :=
  | Len (n : Z)
  | Returned.

Record chunk : Type := Append { chunk_text : text; chunk_length : text_length }.

(** A call that draws returns, stops at an [assert], or does what C leaves
    undefined: an access outside an array, a division by zero. *)
Inductive drawn (A : Type) : Type :=
  | Drawn (a : A)
  | Aborted
  | Undefined.
Arguments Drawn {A} a.
Arguments Aborted {A}.
Arguments Undefined {A}.

#[global] Instance drawn_bind : MBind drawn := fun A B f m =>
  match m with
  | Drawn a => f a
  | Aborted => Aborted
  | Undefined => Undefined
  end.

(** An access to an array, as a step of a call that draws. *)
Definition defined {A : Type} (r : option A) : drawn A :=
  match r with
  | Some a => Drawn a
  | None => Undefined
  end.

(** [a % b] and [a / b] where C defines them. *)
Definition rem_defined (a b : Z) : drawn Z :=
  if (b =? 0) || ((a =? CInt.INT_MIN) && (b =? -1)) then Undefined
  else Drawn (a %i b).

Definition div_defined (a b : Z) : drawn Z :=
  if (b =? 0) || ((a =? CInt.INT_MIN) && (b =? -1)) then Undefined
  else Drawn (a /i b).

(** [strlen(s)] for an array [s]: [None] when no byte of the array is 0. *)
Fixpoint strlen (s : list Z) : option Z :=
  match s with
  | [] => None
  | c :: s' => if c =? 0 then Some 0 else n ← strlen s'; Some (n + 1)
  end.

(** The characters ESC, CR and LF of the literals. *)
Definition esc : string := String (ascii_of_nat 27) EmptyString.
Definition crlf : string :=
  String (ascii_of_nat 13) (String (ascii_of_nat 10) EmptyString).

(** The variables of the loop of [editor_render_contents], and the calls of
    [charbuf_append] so far. *)
Record render_state : Type := RenderState {
  r_row : Z;
  r_count : Z;
  r_asc : list Z;
  r_out : list chunk
}.

Section Drawing.

(** [isprint] of the C library, and what the automatic array [asc] holds
    before the first [memset]. *)
Variable isprint : Z -> bool.
Variable asc_uninit : nat -> Z.

(** The loop [for (int i = 0; i < strlen(asc); i++)] of
    [editor_render_ascii], from [i], over the characters [s] before the
    terminator. *)
Fixpoint ascii_cells (e : editor) (s : list Z) (i : Z) : list chunk :=
  match s with
  | [] => []
  | x :: s' =>
      (if i +i 1 =? cursor_x e
       then Append (Literal (esc ++ "[30;47m")) (Len 8)
       else Append (Literal (esc ++ "[32;40;1m")) (Len 10))
      :: Append (Chars [x]) (Len 1)
      :: ascii_cells e s' (i +i 1)
  end.

(** [editor_render_ascii(e, rownum, asc, b)]: the calls of
    [charbuf_append]. *)
Definition editor_render_ascii (e : editor) (rownum : Z) (asc : list Z)
    : drawn (list chunk) :=
  if rownum >? 0 then
    n ← defined (strlen asc);
    if rownum =? cursor_y e then
      Drawn (ascii_cells e (take (Z.to_nat n) asc) 0)
    else
      Drawn [Append (Literal (esc ++ "[1;37m")) (Len 7);
             Append (Chars (take (Z.to_nat n) asc)) (Len n)]
  else Aborted.

(** [start_offset] and [end_offset] of [editor_render_contents]. *)
Definition render_start_offset (e : editor) : Z :=
  let start_offset := line e *i octets_per_line e in
  if start_offset >=? content_length e
  then content_length e -i octets_per_line e
  else start_offset.

Definition render_end_offset (e : editor) : Z :=
  let bytes_per_screen := screen_rows e *i octets_per_line e in
  let end_offset :=
    bytes_per_screen +i render_start_offset e -i octets_per_line e in
  if end_offset >? content_length e then content_length e else end_offset.

(** The body of the loop of [editor_render_contents], for [offset]. *)
Definition render_byte (e : editor) (offset : Z) (st : render_state)
    : drawn render_state :=
  column ← rem_defined offset (octets_per_line e);
  let st :=
    if column =? 0 then
      {| r_row := r_row st +i 1;
         r_count := 0;
         r_asc := replicate 257 0;
         r_out := r_out st
                  ++ [Append (Printed (esc ++ "[0;33m%09x" ++ esc ++ "[0m:")
                                [AInt offset]) Returned] |}
    else st in
  c ← defined (load (contents e) offset);
  let hex := Printed "%02x" [AInt (CChar.uchar c)] in
  asc ← defined (store (r_asc st) column (if isprint c then c else ch "."));
  group ← rem_defined offset (grouping e);
  let st :=
    if group =? 0 then
      {| r_row := r_row st;
         r_count := r_count st +i 1;
         r_asc := asc;
         r_out := r_out st ++ [Append (Literal " ") (Len 1)] |}
    else
      {| r_row := r_row st; r_count := r_count st; r_asc := asc;
         r_out := r_out st |} in
  let st :=
    {| r_row := r_row st;
       r_count := r_count st +i 2;
       r_asc := r_asc st;
       r_out := r_out st ++ [Append hex (Len 2)] |} in
  next ← rem_defined (offset +i 1) (octets_per_line e);
  if next =? 0 then
    cells ← editor_render_ascii e (r_row st) (r_asc st);
    Drawn {| r_row := r_row st;
             r_count := r_count st;
             r_asc := r_asc st;
             r_out := r_out st ++ [Append (Literal "  ") (Len 2)] ++ cells
                      ++ [Append (Literal crlf) (Len 2)] |}
  else Drawn st.

(** [for (offset = start_offset; offset < end_offset; offset++)], [n]
    iterations from [offset]: the value of [offset] and the variables after
    the loop. *)
Fixpoint render_loop (e : editor) (n : nat) (offset : Z) (st : render_state)
    : drawn (Z * render_state) :=
  match n with
  | O => Drawn (offset, st)
  | S n' =>
      st' ← render_byte e offset st;
      render_loop e n' (offset +i 1) st'
  end.

(** The lines under [#ifndef NDEBUG]. *)
Definition render_debug (e : editor) (start_offset end_offset : Z)
    : drawn (list chunk) :=
  let curr_offset := editor_offset_at_cursor e in
  c ← defined (load (contents e) curr_offset);
  let '(xx, yy) := editor_cursor_at_offset e curr_offset in
  Drawn
    [Append (Printed (esc ++ "[0m" ++ esc ++ "[37m" ++ esc
                      ++ "[1;80HRows: %d, start offset: %09x, end offset: %09x")
               [AInt (screen_rows e); AInt start_offset; AInt end_offset])
       (Len 256);
     Append (Printed (esc ++ "[2;80H(cur_y,cur_x)=(%d,%d)")
               [AInt (cursor_y e); AInt (cursor_x e)]) (Len 256);
     Append (Printed (esc ++ "[3;80HHex line width: %d")
               [AInt (hex_line_width e)]) (Len 256);
     Append (Printed (esc ++ "[4;80H" ++ esc
                      ++ "[0KLine: %d, cursor offset: %d (hex: %02x)")
               [AInt (line e); AInt curr_offset; AInt (CChar.uchar c)])
       (Len 256);
     Append (Printed (esc ++ "[5;80H" ++ esc ++ "[0Kyy,xx = %d, %d")
               [AInt yy; AInt xx]) (Len 256)].

(** [editor_render_contents(e, b)]: the calls of [charbuf_append], in
    order.  A negative [padding_size] makes [malloc] fail and [memset]
    write through a null pointer. *)
Definition editor_render_contents (e : editor) : drawn (list chunk) :=
  if content_length e <=? 0 then
    Drawn [Append (Literal (esc ++ "[2J")) (Len 4);
           Append (Literal "empty") (Len 5)]
  else
    let start_offset := render_start_offset e in
    let end_offset := render_end_offset e in
    r ← render_loop e (Z.to_nat (end_offset - start_offset)) start_offset
          {| r_row := 0; r_count := 0;
             r_asc := map asc_uninit (seq 0 257); r_out := [] |};
    let '(offset, st) := r in
    column ← rem_defined offset (octets_per_line e);
    out ←
      (if column >? 0 then
         groups ← div_defined (octets_per_line e) (grouping e);
         let padding_size :=
           octets_per_line e *i 2 +i groups -i r_count st in
         if padding_size <? 0 then Undefined else
         cells ← editor_render_ascii e (r_row st) (r_asc st);
         Drawn (r_out st
                ++ [Append Blanks (Len padding_size);
                    Append (Literal (esc ++ "[0m  ")) (Len 6)]
                ++ cells)
       else Drawn (r_out st));
    debug ← render_debug e start_offset end_offset;
    Drawn (out ++ [Append (Literal (esc ++ "[0J")) (Len 4)] ++ debug).

End Drawing.

(** The column [editor_refresh_screen] sends the cursor of the terminal
    to: [cruft]. *)
Definition refresh_cursor_column (e : editor) : Z :=
  let curx := (cursor_x e -i 1) *i 2 in
  let spaces := curx /i (grouping e *i 2) in
  curx +i spaces +i 12.

(** The value [snprintf] returns for a format and its arguments: the
    number of characters of the text. *)
Definition snprintf_value (w : world) (fmt : string) (args : list fmt_arg)
    : Z :=
  Z.of_nat (length (printed w fmt args)).

(** [strlen(e->status_message)]: [vsnprintf] has stored at most 119
    characters of the message and a terminator in the array. *)
Definition status_strlen (w : world) (m : message) : Z :=
  default 0 (strlen (take 119 (printed w (msg_fmt m) (msg_args m)) ++ [0])).

(** [editor_render_status(e, b)]: the calls of [charbuf_append]. *)
Definition editor_render_status (w : world) (e : editor) : list chunk :=
  [Append (Printed (esc ++ "[%d;0H") [AInt (screen_rows e)]) Returned;
   match status_sev e with
   | STATUS_INFO => Append (Literal (esc ++ "[0;30;47m")) (Len 10)
   | STATUS_WARNING => Append (Literal (esc ++ "[0;30;43m")) (Len 10)
   | STATUS_ERROR => Append (Literal (esc ++ "[1;37;41m")) (Len 10)
   end;
   Append (Printed (msg_fmt (status_message e)) (msg_args (status_message e)))
     (Len (status_strlen w (status_message e)));
   Append (Literal (esc ++ "[0m")) (Len 4)].

(** [editor_render_ruler(e, b)]: the calls of [charbuf_append]. *)
Definition editor_render_ruler (w : world) (e : editor) : drawn (list chunk) :=
  if content_length e <=? 0 then Drawn []
  else
    let offset_at_cursor := editor_offset_at_cursor e in
    val ← defined (load (contents e) offset_at_cursor);
    let percentage :=
      float_percent w (offset_at_cursor +i 1) (content_length e) in
    let fmt := "0x%09x,%d (%02x)  %d%%"%string in
    let args := [AInt offset_at_cursor; AInt offset_at_cursor;
                 AInt (CChar.uchar val); AInt percentage] in
    let rmbw := snprintf_value w fmt args in
    Drawn [Append (Printed (esc ++ "[0m" ++ esc ++ "[%d;%dH")
                     [AInt (screen_rows e); AInt (screen_cols e -i rmbw)])
             Returned;
           Append (Printed fmt args) Returned].

(** [editor_refresh_screen(e)]: the calls of [charbuf_append], in order,
    before [charbuf_draw].  It assigns nothing in [*e]. *)
Definition editor_refresh_screen (w : world) (e : editor)
    : drawn (list chunk) :=
  shown ← editor_render_contents (ctype_isprint w) (stack_fill w) e;
  ruler ← editor_render_ruler w e;
  _ ← div_defined ((cursor_x e -i 1) *i 2) (grouping e *i 2);
  Drawn ([Append (Literal (esc ++ "[?25l")) (Len 6);
          Append (Literal (esc ++ "[H")) (Len 3)]
         ++ shown ++ editor_render_status w e ++ ruler
         ++ [Append (Printed (esc ++ "[%d;%dH")
                       [AInt (cursor_y e); AInt (refresh_cursor_column e)])
               Returned;
             Append (Literal (esc ++ "[?25h")) (Len 6)]).

(** [n] turns of the loop of [main]: the screen is redrawn, then a key is
    processed.  A failed [assert] of the redraw ends the process by [abort];
    what C leaves undefined in the redraw ends the run as [Fault]. *)
Fixpoint editor_loop (w : world) (n : nat) (e : editor) (inp : stdin)
    : outcome editor :=
  match n with
  | O => Ret e inp
  | S n' =>
      match editor_refresh_screen w e with
      | Drawn _ =>
          match editor_process_keypress w e inp with
          | Ret e' rest => editor_loop w n' e' rest
          | r => r
          end
      | Aborted => Exit 134
      | Undefined => Fault
      end
  end.

(** ** Vocabulary of the statements *)

(** Every [int] field holds an [int] and every byte of the buffer a
    [char]: what the C types give. *)
Definition well_typed (e : editor) : bool :=
  CInt.is_int (octets_per_line e) && CInt.is_int (grouping e)
  && CInt.is_int (hex_line_width e) && CInt.is_int (line e)
  && CInt.is_int (cursor_x e) && CInt.is_int (cursor_y e)
  && CInt.is_int (screen_rows e) && CInt.is_int (screen_cols e)
  && CInt.is_int (content_length e) && forallb CChar.is_char (contents e).

(** [content_length] is the size of the allocation. *)
Definition length_ok (e : editor) : Prop :=
  content_length e = Z.of_nat (length (contents e)).

(** The offset of the cursor as the data model defines it, over the
    integers: [(cursor_y - 1 + line) * octets_per_line + (cursor_x - 1)]. *)
Definition raw_offset (e : editor) : Z :=
  (cursor_y e - 1 + line e) * octets_per_line e + (cursor_x e - 1).

(** The cursor is on the screen: [cursor_x] in [1, octets_per_line] and
    [cursor_y] in [1, screen_rows - 1]. *)
Definition cursor_in_bounds (e : editor) : Prop :=
  1 <= cursor_x e <= octets_per_line e /\
  1 <= cursor_y e <= screen_rows e - 1.

(** [v] clamped into [lo, hi]. *)
Definition clamp (lo hi v : Z) : Z := Z.max lo (Z.min hi v).

(** The largest legal scroll line,
    [max(0, content_length / octets_per_line - (screen_rows - 2))]. *)
Definition scroll_limit (e : editor) : Z :=
  Z.max 0 (Z.quot (content_length e) (octets_per_line e) - (screen_rows e - 2)).

(** The arithmetic of [editor_scroll e units] is defined in C: no division
    by zero and no signed overflow. *)
Definition scroll_defined (e : editor) (units : Z) : Prop :=
  octets_per_line e <> 0 /\
  CInt.in_int (line e + units) /\
  CInt.in_int (Z.quot (content_length e) (octets_per_line e)) /\
  CInt.in_int (screen_rows e - 2) /\
  CInt.in_int (Z.quot (content_length e) (octets_per_line e)
               - (screen_rows e - 2)).

(** The insert of a byte at an offset, in the words of the design: the
    bytes before [offset] stay, [b] is stored at [offset], and every byte
    that was at or after [offset] moves right by one. *)
Definition insert_at (offset b : Z) (l : list Z) : list Z :=
  take (Z.to_nat offset) l ++ b :: drop (Z.to_nat offset) l.

(** The value of a hexadecimal digit, in either case. *)
Definition hex_value (c : Z) : Z :=
  if (ch "0" <=? c) && (c <=? ch "9") then c - ch "0"
  else if (ch "a" <=? c) && (c <=? ch "f") then c - ch "a" + 10
  else if (ch "A" <=? c) && (c <=? ch "F") then c - ch "A" + 10
  else 0.

(** A replacement given up: the status is an error, and the buffer, its
    length, the cursor, the line and the mode are those of [e], in mode
    Replace. *)
Definition replace_aborted (e e' : editor) : Prop :=
  status_sev e' = STATUS_ERROR /\
  contents e' = contents e /\ content_length e' = content_length e /\
  cursor_x e' = cursor_x e /\ cursor_y e' = cursor_y e /\ line e' = line e /\
  mode e' = MODE_REPLACE.

(** The offset of every position of the screen, also one line further
    down, fits in an [int]: the arithmetic of a cursor step does not
    overflow. *)
Definition offsets_fit (e : editor) : Prop :=
  (screen_rows e + line e) * octets_per_line e <= CInt.INT_MAX.

(** One of the four directions of [editor_move_cursor]. *)
Definition direction (dir : Z) : Prop :=
  dir = KEY_UP \/ dir = KEY_DOWN \/ dir = KEY_LEFT \/ dir = KEY_RIGHT.

(** The cursor of [e'] is one step to the left of the cursor of [e]: one
    column to the left in the same row; or, from column 1, in the last
    column of the row above; or, from column 1 of the top row of the screen,
    in the last column of that row after the screen has scrolled up by one
    line. *)
Definition stepped_left (e e' : editor) : Prop :=
  1 < cursor_x e /\ cursor_x e' = cursor_x e - 1 /\
    cursor_y e' = cursor_y e /\ line e' = line e \/
  cursor_x e = 1 /\ 1 < cursor_y e /\ cursor_x e' = octets_per_line e /\
    cursor_y e' = cursor_y e - 1 /\ line e' = line e \/
  cursor_x e = 1 /\ cursor_y e = 1 /\ cursor_x e' = octets_per_line e /\
    cursor_y e' = 1 /\ line e' = line e - 1.

(** The cursor is not in the top left position of a screen that a step to
    the left would scroll up by more than one line: the terminal has at most
    three rows, or the line is at most 1.  [editor_scroll] takes the line
    down to its limit, [screen_rows - 2] lines above the last row of the
    buffer. *)
Definition scrolls_one_line_up (e : editor) : Prop :=
  cursor_x e = 1 -> cursor_y e = 1 -> line e <= 1 \/ screen_rows e <= 3.

(** The buffer, its length, the mode and the geometry are not touched by
    the cursor and scroll functions. *)
Definition same_buffer (e e' : editor) : Prop :=
  contents e' = contents e /\ content_length e' = content_length e /\
  mode e' = mode e /\ octets_per_line e' = octets_per_line e /\
  screen_rows e' = screen_rows e.

(** The cursor of [e'] is one step to the right of the cursor of [e], on
    the same screen: one column to the right in the same row, or, from the
    last column, in column 1 of the row below. *)
Definition stepped_right (e e' : editor) : Prop :=
  line e' = line e /\
  (cursor_x e < octets_per_line e /\ cursor_x e' = cursor_x e + 1 /\
     cursor_y e' = cursor_y e \/
   cursor_x e = octets_per_line e /\ cursor_x e' = 1 /\
     cursor_y e' = cursor_y e + 1).

(** The cursor of [e'] is on the byte after the byte of the cursor of [e]:
    one column to the right in the same row; or, from the last column, in
    column 1 of the row below; or, from the last column of the bottom row of
    the screen, in column 1 of that row after the screen has scrolled down by
    one line. *)
Definition advanced (e e' : editor) : Prop :=
  cursor_x e < octets_per_line e /\ cursor_x e' = cursor_x e + 1 /\
    cursor_y e' = cursor_y e /\ line e' = line e \/
  cursor_x e = octets_per_line e /\ cursor_y e < screen_rows e - 1 /\
    cursor_x e' = 1 /\ cursor_y e' = cursor_y e + 1 /\ line e' = line e \/
  cursor_x e = octets_per_line e /\ cursor_y e = screen_rows e - 1 /\
    cursor_x e' = 1 /\ cursor_y e' = cursor_y e /\ line e' = line e + 1.

(** An editor on the bytes [bytes], [opl] octets per line, in a terminal
    of [rows] rows. *)
Definition editor_at (opl rows : Z) (bytes : list Z) (ln cx cy : Z)
    (m : editor_mode) : editor :=
  {| octets_per_line := opl;
     grouping := 4;
     hex_line_width := 39;
     line := ln;
     cursor_x := cx;
     cursor_y := cy;
     screen_rows := rows;
     screen_cols := 80;
     mode := m;
     dirty := false;
     filename := Some "a.bin"%string;
     contents := bytes;
     content_length := Z.of_nat (length bytes);
     status_sev := STATUS_INFO;
     status_message := Message "" [] |}.

(** A world for the examples: zeroed memory, a file system that writes
    everything, [isprint] of the C locale, texts of no character. *)
Definition calm_world : world :=
  {| seq_uninit := fun _ => 0;
     heap_fill := 0;
     file_sink := fun _ _ n => Written n "";
     ctype_isprint := fun c => (32 <=? c) && (c <=? 126);
     stack_fill := fun _ => 0;
     printed := fun _ _ => [];
     float_percent := fun _ _ => 0 |}.

(** The buffer is the allocation: [content_length] is its size, and an
    [int]. *)
Definition good_buffer (e : editor) : Prop :=
  length_ok e /\ CInt.in_int (content_length e).

(** Between [e] and [e'] nothing but the cursor and the line has been
    assigned. *)
Definition moved_only (e e' : editor) : Prop :=
  e' = set_line (line e') (set_cursor_y (cursor_y e') (set_cursor_x (cursor_x e') e)).

(** No call of [read] to come fails. *)
Definition no_read_error (inp : stdin) : bool :=
  forallb (fun r => match r with RError _ => false | _ => true end) inp.

(** A memory whose indeterminate bytes spell the end of an arrow key. *)
Definition stale_world : world :=
  {| seq_uninit := fun i => match i with O => ch "[" | _ => ch "A" end;
     heap_fill := 0;
     file_sink := fun _ _ n => Written n "";
     ctype_isprint := fun c => (32 <=? c) && (c <=? 126);
     stack_fill := fun _ => 0;
     printed := fun _ _ => [];
     float_percent := fun _ _ => 0 |}.

(** A chunk is the address that starts a row. *)
Definition is_address (c : chunk) : bool :=
  match chunk_text c with
  | Printed fmt _ => String.eqb fmt (esc ++ "[0;33m%09x" ++ esc ++ "[0m:")
  | _ => false
  end.

(** The byte a chunk shows as two hexadecimal digits, if it is one. *)
Definition hex_of (c : chunk) : option Z :=
  match chunk_text c with
  | Printed fmt [AInt v] => if String.eqb fmt "%02x" then Some v else None
  | _ => None
  end.

(** The bytes drawn in hexadecimal, in the order in which they are drawn. *)
Definition hex_chunks (out : list chunk) : list Z := omap hex_of out.

(** The columns a chunk takes in its row of the terminal; an address is
    counted apart. *)
Definition chars_of (c : chunk) : Z :=
  match chunk_length c with
  | Len n => n
  | Returned => 0
  end.

(** The column of the terminal, counted from 1, in which the hexadecimal
    digits of each byte drawn start, [col] being the column of the next
    character: an address is nine digits and a colon, so that the next
    character of its row goes to column 11. *)
Fixpoint hex_columns_from (col : Z) (out : list chunk) : list Z :=
  match out with
  | [] => []
  | c :: out' =>
      if is_address c then hex_columns_from 11 out'
      else match hex_of c with
           | Some _ => col :: hex_columns_from (col + chars_of c) out'
           | None => hex_columns_from (col + chars_of c) out'
           end
  end.

Definition hex_columns (out : list chunk) : list Z := hex_columns_from 1 out.

(** The column of the next character after the chunks [out]. *)
Fixpoint next_column (col : Z) (out : list chunk) : Z :=
  match out with
  | [] => col
  | c :: out' =>
      next_column (if is_address c then 11 else col + chars_of c) out'
  end.

(** The state can be drawn: the buffer is an allocation that holds a byte,
    a row is at most the 256 characters of [asc], the top line of the
    screen starts inside the buffer, and the offsets of the screen are
    [int]s. *)
Definition drawable (e : editor) : Prop :=
  good_buffer e /\ 1 <= content_length e /\
  1 <= octets_per_line e <= 256 /\
  1 <= grouping e /\ CInt.in_int (grouping e) /\
  1 <= screen_rows e /\ 0 <= line e /\
  line e * octets_per_line e < content_length e /\
  offsets_fit e.

(** The state can be drawn and, as long as no key deletes a byte, the
    states after it can: it can be drawn, the terminal has at least three
    rows, and the offsets of one more screen after the end of the buffer are
    [int]s. *)
Definition settled (e : editor) : Prop :=
  drawable e /\ 3 <= screen_rows e /\
  screen_rows e * octets_per_line e + content_length e <= CInt.INT_MAX.

(** No byte to come is the key [x]. *)
Definition no_delete_key (inp : stdin) : bool :=
  forallb (fun r => match r with
                    | RByte b => negb (CChar.of_int b =? ch "x")
                    | _ => true
                    end) inp.

(** The offsets of the bytes on the screen: from [window_start],
    before [window_end]. *)
Definition window_start (e : editor) : Z := line e * octets_per_line e.
Definition window_end (e : editor) : Z :=
  Z.min (content_length e) ((line e + screen_rows e - 1) * octets_per_line e).

(** The bytes of the buffer from [from], before [to]. *)
Definition bytes_between (e : editor) (from to : Z) : list Z :=
  take (Z.to_nat (to - from)) (drop (Z.to_nat from) (contents e)).

(** The number of multiples of the grouping below [x]. *)
Definition groups_below (e : editor) (x : Z) : Z :=
  (x + grouping e - 1) / grouping e.

(** The column in which the loop of [editor_render_contents] puts the byte
    at [offset]: after the address, two digits for each byte of the row
    before it, and a space for each multiple of the grouping from the start
    of the row to [offset]. *)
Definition byte_column (e : editor) (offset : Z) : Z :=
  let k := offset mod octets_per_line e in
  11 + 2 * k + (groups_below e (offset + 1) - groups_below e (offset - k)).

(** The character of the ASCII column for the byte [c]. *)
Definition ascii_of (isprint : Z -> bool) (c : Z) : Z :=
  if isprint c then c else ch ".".

(** The characters drawn in the ASCII column, in the order in which they
    are drawn: the bytes handed over from [asc]. *)
Definition chars_in (c : chunk) : list Z :=
  match chunk_text c with
  | Chars l => l
  | _ => []
  end.

Definition ascii_chunks (out : list chunk) : list Z := flat_map chars_in out.

(** A chunk switches to the colours of the highlighted cell. *)
Definition is_inverted (c : chunk) : bool :=
  match chunk_text c with
  | Literal s => String.eqb s (esc ++ "[30;47m")
  | _ => false
  end.

(** The characters of the ASCII column drawn right after a switch to the
    colours of the highlight, by their index among the characters of the
    column; [i] is the index of the next character and [inverted] tells
    whether the chunk before was the switch. *)
Fixpoint highlights_from (inverted : bool) (i : Z) (out : list chunk)
    : list Z :=
  match out with
  | [] => []
  | c :: out' =>
      match chunk_text c with
      | Chars l =>
          (if inverted then [i] else [])
          ++ highlights_from false (i + Z.of_nat (length l)) out'
      | _ => highlights_from (is_inverted c) i out'
      end
  end.

Definition highlights (out : list chunk) : list Z :=
  highlights_from false 0 out.

(** Whether the chunks [out] end in the switch. *)
Fixpoint ends_inverted (inverted : bool) (out : list chunk) : bool :=
  match out with
  | [] => inverted
  | c :: out' =>
      ends_inverted (match chunk_text c with
                     | Chars _ => false
                     | _ => is_inverted c
                     end) out'
  end.

(** The number of rows that start below [x]. *)
Definition rows_below (e : editor) (x : Z) : Z :=
  (x + octets_per_line e - 1) / octets_per_line e.

(** The highlight among the first [rows] rows of the screen: the cell of
    the cursor, when the cursor is in one of them. *)
Definition highlight_in (e : editor) (rows : Z) : list Z :=
  if (1 <=? cursor_y e) && (cursor_y e <=? rows)
     && (1 <=? cursor_x e) && (cursor_x e <=? octets_per_line e)
  then [(cursor_y e - 1) * octets_per_line e + (cursor_x e - 1)]
  else [].

(** The variables of the loop of [editor_render_contents] before the
    iteration for [offset]: the row and the characters of the row so far,
    what [asc] holds, and what has been drawn. *)
Definition drawing_at (isprint : Z -> bool) (e : editor) (offset : Z)
    (st : render_state) : Prop :=
  let k := offset mod octets_per_line e in
  0 <= r_row st <= offset - window_start e /\
  hex_chunks (r_out st)
    = map CChar.uchar (bytes_between e (window_start e) offset) /\
  hex_columns (r_out st)
    = map (fun i => byte_column e (window_start e + Z.of_nat i))
          (seq 0 (Z.to_nat (offset - window_start e))) /\
  (0 < k ->
   1 <= r_row st /\ length (r_asc st) = 257%nat /\
   r_asc st !! 256%nat = Some 0 /\
   r_count st
     = 2 * k + (groups_below e offset - groups_below e (offset - k)) /\
   next_column 1 (r_out st) = 11 + r_count st) /\
  (isprint 0 = false ->
   r_row st = rows_below e offset - line e /\
   ascii_chunks (r_out st)
     = map (ascii_of isprint) (bytes_between e (window_start e) (offset - k)) /\
   ends_inverted false (r_out st) = false /\
   highlights (r_out st)
     = highlight_in e ((offset - window_start e) / octets_per_line e) /\
   (0 < k ->
    r_asc st
      = map (ascii_of isprint) (bytes_between e (offset - k) offset)
        ++ replicate (257 - Z.to_nat k) 0)).

(** A chunk that is no character of the ASCII column and no switch to the
    highlight. *)
Definition quiet (c : chunk) : Prop :=
  match chunk_text c with
  | Chars _ => False
  | _ => is_inverted c = false
  end.

(** The chunks of the ASCII column show no byte in hexadecimal and start
    no row. *)
Definition plain (c : chunk) : Prop :=
  is_address c = false /\ hex_of c = None.

(** * Properties *)

(** ** Arithmetic of [int] and [char] *)

Lemma wrap_id (z : Z) : CInt.in_int z -> CInt.wrap z = z.
Proof.
  unfold CInt.in_int, CInt.INT_MIN, CInt.INT_MAX, CInt.wrap. intros H.
  rewrite Z.mod_small; lia.
Qed.

Lemma wrap_in_int (z : Z) : CInt.in_int (CInt.wrap z).
Proof.
  unfold CInt.in_int, CInt.INT_MIN, CInt.INT_MAX, CInt.wrap.
  pose proof (Z.mod_pos_bound (z + 2 ^ 31) (2 ^ 32) eq_refl). lia.
Qed.

(** Bounds of [int] as numerals, for [lia]. *)
Ltac int_bounds :=
  unfold CInt.in_int, CInt.INT_MIN, CInt.INT_MAX in *;
  change (2 ^ 31) with 2147483648 in *.

Lemma add_exact (a b : Z) : CInt.in_int (a + b) -> a +i b = a + b.
Proof. apply wrap_id. Qed.

Lemma sub_exact (a b : Z) : CInt.in_int (a - b) -> a -i b = a - b.
Proof. apply wrap_id. Qed.

Lemma mul_exact (a b : Z) : CInt.in_int (a * b) -> a *i b = a * b.
Proof. apply wrap_id. Qed.

Lemma div_exact (a b : Z) : 0 <= a -> 0 < b -> CInt.in_int a -> a /i b = a / b.
Proof.
  intros Ha Hb Hi. unfold CInt.div. rewrite Z.quot_div_nonneg by lia.
  apply wrap_id.
  pose proof (Z.div_pos a b Ha Hb).
  assert (a / b <= a) by (apply Z.div_le_upper_bound; nia).
  int_bounds. lia.
Qed.

Lemma rem_exact (a b : Z) : 0 <= a -> 0 < b -> CInt.in_int b -> a %i b = a mod b.
Proof.
  intros Ha Hb Hi. unfold CInt.rem. rewrite Z.rem_mod_nonneg by lia.
  apply wrap_id.
  pose proof (Z.mod_pos_bound a b Hb). int_bounds. lia.
Qed.

(** Rewriting of the [int] operations whose result provably fits. *)
Ltac int_exact :=
  repeat match goal with
         | |- context [?a +i ?b] => rewrite (add_exact a b) by (int_bounds; lia)
         | |- context [?a -i ?b] => rewrite (sub_exact a b) by (int_bounds; lia)
         | |- context [?a *i ?b] => rewrite (mul_exact a b) by (int_bounds; nia)
         end.

Lemma uchar_of_int (z : Z) : CChar.uchar (CChar.of_int z) = z mod 256.
Proof.
  unfold CChar.uchar, CChar.of_int. change (2 ^ 8) with 256. change (2 ^ 7) with 128.
  rewrite (Z.mod_eq (z + 128) 256) by lia.
  replace (z + 128 - 256 * ((z + 128) / 256) - 128)
    with (z + - ((z + 128) / 256) * 256) by lia.
  apply Z_mod_plus_full.
Qed.

Lemma uchar_wrap (z : Z) : CChar.uchar (CInt.wrap z) = z mod 256.
Proof.
  unfold CChar.uchar, CInt.wrap. change (2 ^ 8) with 256.
  change (2 ^ 31) with 2147483648. change (2 ^ 32) with 4294967296.
  rewrite (Z.mod_eq (z + 2147483648) 4294967296) by lia.
  replace (z + 2147483648 - 4294967296 * ((z + 2147483648) / 4294967296) - 2147483648)
    with (z + - (16777216 * ((z + 2147483648) / 4294967296)) * 256) by lia.
  apply Z_mod_plus_full.
Qed.

Lemma of_int_small (z : Z) : - 128 <= z <= 127 -> CChar.of_int z = z.
Proof.
  intros H. unfold CChar.of_int. change (2 ^ 8) with 256. change (2 ^ 7) with 128.
  rewrite Z.mod_small; lia.
Qed.

Lemma of_int_in_char (z : Z) : CChar.in_char (CChar.of_int z).
Proof.
  unfold CChar.in_char, CChar.of_int.
  pose proof (Z.mod_pos_bound (z + 2 ^ 7) (2 ^ 8) eq_refl). lia.
Qed.

Lemma is_int_spec (z : Z) : CInt.is_int z = true <-> CInt.in_int z.
Proof. unfold CInt.is_int, CInt.in_int. rewrite andb_true_iff. lia. Qed.

Lemma is_char_spec (c : Z) : CChar.is_char c = true <-> CChar.in_char c.
Proof. unfold CChar.is_char, CChar.in_char. rewrite andb_true_iff. lia. Qed.

Lemma well_typed_spec (e : editor) :
  well_typed e = true ->
  CInt.in_int (octets_per_line e) /\ CInt.in_int (grouping e) /\
  CInt.in_int (hex_line_width e) /\ CInt.in_int (line e) /\
  CInt.in_int (cursor_x e) /\ CInt.in_int (cursor_y e) /\
  CInt.in_int (screen_rows e) /\ CInt.in_int (screen_cols e) /\
  CInt.in_int (content_length e) /\ Forall CChar.in_char (contents e).
Proof.
  unfold well_typed. rewrite !andb_true_iff, !is_int_spec.
  intros H. repeat match goal with H : _ /\ _ |- _ => destruct H end.
  repeat (split; [assumption|]).
  apply Forall_forall. intros x Hx.
  apply is_char_spec. eapply forallb_forall; [eassumption|].
  apply list_elem_of_In. exact Hx.
Qed.

(** ** The coordinate mapper *)

Lemma row_col_of_offset (a b c : Z) :
  0 <= c < b -> (a * b + c) / b = a /\ (a * b + c) mod b = c.
Proof.
  intros H. split.
  - rewrite Z.add_comm, Z.div_add by lia. rewrite Z.div_small by lia. lia.
  - rewrite Z.add_comm, Z.mod_add by lia. apply Z.mod_small. lia.
Qed.

(** Without overflow the offset the code computes is the offset of the
    data model. *)
Lemma cursor_offset_exact (e : editor) :
  CInt.in_int (cursor_y e - 1) ->
  CInt.in_int (cursor_y e - 1 + line e) ->
  CInt.in_int ((cursor_y e - 1 + line e) * octets_per_line e) ->
  CInt.in_int (cursor_x e - 1) ->
  CInt.in_int (raw_offset e) ->
  cursor_offset e = raw_offset e.
Proof.
  unfold cursor_offset, raw_offset. intros H1 H2 H3 H4 H5.
  rewrite (sub_exact (cursor_y e)) by assumption.
  rewrite (add_exact (cursor_y e - 1)) by assumption.
  rewrite mul_exact by assumption.
  rewrite (sub_exact (cursor_x e)) by assumption.
  apply add_exact. assumption.
Qed.

(** For a cursor at or after the origin whose offset fits in an [int]. *)
Lemma cursor_offset_nonneg_exact (e : editor) :
  1 <= cursor_x e -> 1 <= cursor_y e -> 0 <= line e ->
  1 <= octets_per_line e ->
  raw_offset e <= CInt.INT_MAX ->
  cursor_offset e = raw_offset e.
Proof.
  unfold raw_offset. intros Hx Hy Hl Ho Hr.
  assert (0 <= (cursor_y e - 1 + line e) * octets_per_line e) by nia.
  assert (cursor_y e - 1 + line e <= (cursor_y e - 1 + line e) * octets_per_line e)
    by nia.
  apply cursor_offset_exact; unfold raw_offset; int_bounds; lia.
Qed.

(** With a byte in the buffer, the result of [editor_offset_at_cursor]
    indexes it. *)
Lemma offset_at_cursor_in_buffer (e : editor) :
  CInt.in_int (content_length e) -> 1 <= content_length e ->
  0 <= editor_offset_at_cursor e <= content_length e - 1.
Proof.
  intros Hi Hn. unfold editor_offset_at_cursor.
  destruct (Z.leb_spec (cursor_offset e) 0); [lia|].
  destruct (Z.geb_spec (cursor_offset e) (content_length e)).
  - rewrite sub_exact by (int_bounds; lia). lia.
  - lia.
Qed.

Lemma offset_at_cursor_clamp (e : editor) :
  CInt.in_int (content_length e) -> 1 <= content_length e ->
  editor_offset_at_cursor e = clamp 0 (content_length e - 1) (cursor_offset e).
Proof.
  intros Hi Hn. unfold editor_offset_at_cursor, clamp.
  destruct (Z.leb_spec (cursor_offset e) 0); [lia|].
  destruct (Z.geb_spec (cursor_offset e) (content_length e)).
  - rewrite sub_exact by (int_bounds; lia). lia.
  - lia.
Qed.

(** The position of an offset that is not negative. *)
Lemma cursor_at_offset_exact (e : editor) (offset : Z) :
  0 <= offset < CInt.INT_MAX ->
  1 <= octets_per_line e -> CInt.in_int (octets_per_line e) ->
  0 <= line e -> CInt.in_int (line e) ->
  editor_cursor_at_offset e offset =
    (offset mod octets_per_line e + 1,
     offset / octets_per_line e - line e + 1).
Proof.
  intros [Ho Hoi] Hp Hpi Hl Hli. unfold editor_cursor_at_offset.
  rewrite rem_exact, div_exact by (assumption || (int_bounds; lia)).
  pose proof (Z.mod_pos_bound offset (octets_per_line e) ltac:(lia)).
  pose proof (Z.div_pos offset (octets_per_line e) Ho ltac:(lia)).
  assert (offset / octets_per_line e <= offset)
    by (apply Z.div_le_upper_bound; nia).
  f_equal; int_exact; reflexivity.
Qed.

(** A cursor on a byte of the buffer: its offset is not clamped and maps
    back to it. *)
Lemma cursor_on_byte (e : editor) :
  CInt.in_int (octets_per_line e) -> CInt.in_int (content_length e) ->
  cursor_in_bounds e -> 0 <= line e ->
  0 <= raw_offset e <= content_length e - 1 ->
  editor_offset_at_cursor e = raw_offset e /\
  editor_cursor_at_offset e (raw_offset e) = (cursor_x e, cursor_y e).
Proof.
  intros Hopl Hlen [Hx Hy] Hl Hr.
  assert (Hraw : cursor_offset e = raw_offset e).
  { apply cursor_offset_nonneg_exact; try lia. int_bounds. lia. }
  assert (Hline : CInt.in_int (line e)).
  { unfold raw_offset in Hr. int_bounds. nia. }
  split.
  { unfold editor_offset_at_cursor. rewrite Hraw.
    destruct (Z.leb_spec (raw_offset e) 0); [lia|].
    destruct (Z.geb_spec (raw_offset e) (content_length e)); lia. }
  rewrite cursor_at_offset_exact; try assumption; try (int_bounds; lia).
  unfold raw_offset.
  destruct (row_col_of_offset (cursor_y e - 1 + line e) (octets_per_line e)
              (cursor_x e - 1)) as [Hd Hm]; [lia|].
  rewrite Hd, Hm. f_equal; lia.
Qed.

(** [editor_cursor_at_offset] reads the line and the octets per line of
    [*e], and nothing else. *)
Lemma cursor_at_offset_reads (e e' : editor) (offset : Z) :
  line e' = line e -> octets_per_line e' = octets_per_line e ->
  editor_cursor_at_offset e' offset = editor_cursor_at_offset e offset.
Proof.
  intros Hl Ho. unfold editor_cursor_at_offset. rewrite Hl, Ho. reflexivity.
Qed.

(** C1.  A cursor on the screen, over a line that is not negative, whose
    offset [(cursor_y - 1 + line) * octets_per_line + (cursor_x - 1)] lies in
    [0, content_length - 1]: [editor_offset_at_cursor] returns that offset
    unclamped, and [editor_cursor_at_offset], applied to that offset in any
    editor [e'] with the same line and the same octets per line, whatever
    its cursor and its buffer are, gives back [(cursor_x, cursor_y)]. *)
Theorem cursor_offset_round_trip (e e' : editor) :
  well_typed e = true ->
  cursor_in_bounds e ->
  0 <= line e ->
  0 <= raw_offset e <= content_length e - 1 ->
  line e' = line e -> octets_per_line e' = octets_per_line e ->
  editor_offset_at_cursor e = raw_offset e /\
  editor_cursor_at_offset e' (editor_offset_at_cursor e)
    = (cursor_x e, cursor_y e).
Proof.
  intros Hwt Hin Hl Hr Hline Hopl'.
  destruct (well_typed_spec e Hwt)
    as (Hopl & _ & _ & _ & _ & _ & _ & _ & Hlen & _).
  destruct (cursor_on_byte e Hopl Hlen Hin Hl Hr) as [Hoff Hback].
  split; [exact Hoff|].
  rewrite (cursor_at_offset_reads e e' _ Hline Hopl'), Hoff. exact Hback.
Qed.

Lemma cursor_offset_round_trip_witness :
  let e := editor_at 16 24 (replicate 1000 0) 2 5 3 MODE_NORMAL in
  let e' := editor_at 16 24 [] 2 9 7 MODE_REPLACE in
  editor_offset_at_cursor e = 68 /\
  editor_cursor_at_offset e' (editor_offset_at_cursor e) = (5, 3).
Proof.
  intros e e'.
  apply (cursor_offset_round_trip e e').
  - vm_compute. reflexivity.
  - unfold cursor_in_bounds; simpl; lia.
  - simpl; lia.
  - vm_compute. split; discriminate.
  - reflexivity.
  - reflexivity.
Defined.

(** C2, on the empty buffer.  A file of one byte, the key [x] (delete) and
    then End ([ESC [ F]): the buffer is empty, the cursor is in column 16,
    and [editor_offset_at_cursor] returns [-1], not [0]; the key [']'] then
    indexes [e->contents] at [-1]. *)
Theorem offset_at_cursor_empty_buffer :
  editor_offset_at_cursor (editor_at 16 24 [] 0 16 1 MODE_NORMAL) = -1 /\
  match editor_loop calm_world 2 (editor_at 16 24 [65] 0 1 1 MODE_NORMAL)
          [RByte 120; RByte 27; RByte 91; RByte 70] with
  | Ret e _ =>
      content_length e = 0 /\ cursor_x e = 16 /\ cursor_y e = 1 /\ line e = 0 /\
      editor_offset_at_cursor e = -1 /\
      editor_process_keypress calm_world e [RByte 93] = Fault
  | _ => False
  end.
Proof. vm_compute. repeat split; reflexivity. Qed.

Lemma scroll_fields (e : editor) (units : Z) :
  let e' := editor_scroll e units in
  octets_per_line e' = octets_per_line e /\ screen_rows e' = screen_rows e /\
  cursor_x e' = cursor_x e /\ cursor_y e' = cursor_y e /\
  contents e' = contents e /\ content_length e' = content_length e /\
  mode e' = mode e.
Proof.
  unfold editor_scroll. simpl.
  repeat match goal with |- context [if ?b then _ else _] => destruct b end;
    simpl; repeat split; reflexivity.
Qed.

(** The line after [editor_scroll], whatever the arithmetic does:
    [upper_limit] is the value the code computes. *)
Lemma scroll_line (e : editor) (units : Z) :
  let upper_limit :=
    content_length e /i octets_per_line e -i (screen_rows e -i 2) in
  line (editor_scroll e units) = Z.max 0 (Z.min upper_limit (line e +i units)).
Proof.
  unfold editor_scroll. simpl.
  destruct (Z.geb_spec (line e +i units)
              (content_length e /i octets_per_line e -i (screen_rows e -i 2)));
    simpl.
  - match goal with |- context [if ?a <=? 0 then _ else _] =>
      destruct (Z.leb_spec a 0) end; simpl; lia.
  - destruct (Z.leb_spec (line e +i units) 0); simpl; lia.
Qed.

(** C6.  Where the arithmetic of [editor_scroll] is defined, the new line is
    [line + units] clamped into
    [0, max(0, content_length / octets_per_line - (screen_rows - 2))]; it is
    never negative; and with 100 bytes, 16 octets per line and 24 rows it is
    0 from every line and for every number of units. *)
Theorem editor_scroll_clamps (e : editor) (units : Z) :
  (scroll_defined e units ->
   line (editor_scroll e units) = clamp 0 (scroll_limit e) (line e + units)) /\
  0 <= line (editor_scroll e units) /\
  (content_length e = 100 -> octets_per_line e = 16 -> screen_rows e = 24 ->
   line (editor_scroll e units) = 0).
Proof.
  rewrite scroll_line. split; [|split].
  - intros (Hz & Hlu & Hq & Hr & Hd).
    unfold CInt.div. rewrite (wrap_id _ Hq).
    rewrite (sub_exact (screen_rows e)) by assumption.
    rewrite sub_exact by assumption. rewrite add_exact by assumption.
    unfold clamp, scroll_limit. lia.
  - lia.
  - intros H1 H2 H3. rewrite H1, H2, H3.
    replace (100 /i 16 -i (24 -i 2)) with (-16) by (vm_compute; reflexivity).
    lia.
Qed.

Lemma editor_scroll_clamps_witness :
  line (editor_scroll (editor_at 16 24 (replicate 1000 0) 30 1 1 MODE_NORMAL) 50)
    = 40 /\
  line (editor_scroll (editor_at 16 24 (replicate 100 0) 3 1 1 MODE_NORMAL) 2)
    = 0.
Proof.
  split.
  - apply (proj1 (editor_scroll_clamps
                    (editor_at 16 24 (replicate 1000 0) 30 1 1 MODE_NORMAL) 50)).
    vm_compute. repeat split; discriminate.
  - apply (proj2 (proj2 (editor_scroll_clamps
                           (editor_at 16 24 (replicate 100 0) 3 1 1 MODE_NORMAL) 2)));
      reflexivity.
Defined.

(** ** The byte buffer *)

Lemma load_Some (p : list Z) (i c : Z) :
  load p i = Some c -> 0 <= i < Z.of_nat (length p).
Proof.
  unfold load. destruct (Z.leb_spec 0 i), (Z.ltb_spec i (Z.of_nat (length p)));
    simpl; intros; (lia || discriminate).
Qed.

Lemma load_in_range (p : list Z) (i : Z) :
  0 <= i < Z.of_nat (length p) -> load p i = p !! Z.to_nat i.
Proof.
  intros H. unfold load.
  destruct (Z.leb_spec 0 i), (Z.ltb_spec i (Z.of_nat (length p)));
    simpl; (lia || reflexivity).
Qed.

Lemma store_in_range (p : list Z) (i v : Z) :
  0 <= i < Z.of_nat (length p) -> store p i v = Some (<[Z.to_nat i := v]> p).
Proof.
  intros H. unfold store.
  destruct (Z.leb_spec 0 i), (Z.ltb_spec i (Z.of_nat (length p)));
    simpl; (lia || reflexivity).
Qed.

Lemma load_store_eq (p q : list Z) (i v : Z) :
  store p i v = Some q -> load q i = Some v.
Proof.
  unfold store.
  destruct (Z.leb_spec 0 i), (Z.ltb_spec i (Z.of_nat (length p)));
    simpl; intros Hs; try discriminate.
  injection Hs as <-. rewrite load_in_range by (rewrite length_insert; lia).
  apply list_lookup_insert_eq. lia.
Qed.

Lemma load_store_ne (p q : list Z) (i j v : Z) :
  store p i v = Some q -> j <> i -> load q j = load p j.
Proof.
  unfold store.
  destruct (Z.leb_spec 0 i), (Z.ltb_spec i (Z.of_nat (length p)));
    simpl; intros Hs Hne; try discriminate.
  injection Hs as <-. unfold load. rewrite length_insert.
  destruct (Z.leb_spec 0 j), (Z.ltb_spec j (Z.of_nat (length p)));
    simpl; try reflexivity.
  apply list_lookup_insert_ne. lia.
Qed.

Lemma store_length (p q : list Z) (i v : Z) :
  store p i v = Some q -> length q = length p.
Proof.
  unfold store. destruct (_ && _); intros H; [|discriminate].
  injection H as <-. apply length_insert.
Qed.

(** C9.  [editor_increment_byte] on a cursor whose offset holds the byte
    [c]: the byte becomes [c + amount] modulo 256 (seen as an unsigned
    char), so [0xFF] plus one is [0x00]; the other bytes and
    [content_length] stay. *)
Theorem increment_byte_wraps (e : editor) (amount c : Z) :
  load (contents e) (editor_offset_at_cursor e) = Some c ->
  exists e' c',
    editor_increment_byte e amount = Some e' /\
    load (contents e') (editor_offset_at_cursor e) = Some c' /\
    CChar.uchar c' = (CChar.uchar c + amount) mod 256 /\
    (CChar.uchar c = 0xFF -> amount = 1 -> CChar.uchar c' = 0x00) /\
    (forall i, i <> editor_offset_at_cursor e ->
               load (contents e') i = load (contents e) i) /\
    length (contents e') = length (contents e) /\
    content_length e' = content_length e /\
    editor_offset_at_cursor e' = editor_offset_at_cursor e.
Proof.
  intros Hc. pose proof (load_Some _ _ _ Hc) as Hr.
  assert (Hkeep : forall p, editor_offset_at_cursor (set_contents p e)
                            = editor_offset_at_cursor e) by reflexivity.
  unfold editor_increment_byte.
  revert Hc Hr Hkeep. generalize (editor_offset_at_cursor e) as off.
  intros off Hc Hr Hkeep.
  pose (v := CChar.of_int (c +i amount)).
  assert (Hs : store (contents e) off v = Some (<[Z.to_nat off := v]> (contents e)))
    by (apply store_in_range; exact Hr).
  assert (Hu : CChar.uchar v = (CChar.uchar c + amount) mod 256).
  { unfold v. rewrite uchar_of_int.
    change ((c +i amount) mod 256) with (CChar.uchar (CInt.wrap (c + amount))).
    rewrite uchar_wrap. unfold CChar.uchar. change (2 ^ 8) with 256.
    rewrite Zplus_mod_idemp_l. reflexivity. }
  exists (set_contents (<[Z.to_nat off := v]> (contents e)) e), v.
  split.
  { rewrite Hc. cbn [mbind option_bind]. fold v. rewrite Hs. reflexivity. }
  cbn [contents set_contents content_length].
  split; [exact (load_store_eq _ _ _ _ Hs)|].
  split; [exact Hu|].
  split; [intros H255 ->; rewrite Hu, H255; reflexivity|].
  split; [intros i Hi; exact (load_store_ne _ _ _ _ _ Hs Hi)|].
  split; [apply length_insert|].
  split; [reflexivity|apply Hkeep].
Qed.

Lemma increment_byte_wraps_witness :
  let e := editor_at 16 24 [65; -1; 66] 0 2 1 MODE_NORMAL in
  load (contents e) (editor_offset_at_cursor e) = Some (-1) /\
  exists e' c',
    editor_increment_byte e 1 = Some e' /\
    load (contents e') (editor_offset_at_cursor e) = Some c' /\
    CChar.uchar c' = 0.
Proof.
  intros e. split; [reflexivity|].
  destruct (increment_byte_wraps e 1 (-1) eq_refl)
    as (e' & c' & H1 & H2 & _ & H4 & _).
  exists e', c'. split; [exact H1|]. split; [exact H2|].
  apply H4; reflexivity.
Defined.

Lemma realloc_grow_one (w : world) (p : list Z) :
  realloc w p (Z.of_nat (length p) + 1) = Some (p ++ [heap_fill w]).
Proof.
  unfold realloc.
  destruct (Z.ltb_spec (Z.of_nat (length p) + 1) 0); [lia|].
  replace (Z.to_nat (Z.of_nat (length p) + 1)) with (S (length p)) by lia.
  rewrite take_ge by lia.
  replace (S (length p) - length p)%nat with 1%nat by lia.
  reflexivity.
Qed.

Lemma store_at_end (p : list Z) (old x : Z) :
  store (p ++ [old]) (Z.of_nat (length p)) x = Some (p ++ [x]).
Proof.
  rewrite store_in_range by (rewrite length_app; simpl; lia).
  rewrite Nat2Z.id. f_equal.
  rewrite insert_app_r_alt by lia. rewrite Nat.sub_diag. reflexivity.
Qed.

(** C3, as the code has it.  [editor_insert] takes no offset: it grows the
    allocation by one byte, stores [x] at index [content_length], after
    every byte already there, and adds one to [content_length].  It is the
    insert of the design at [offset = content_length] only. *)
Theorem editor_insert_appends (w : world) (e : editor) (x : Z) :
  length_ok e ->
  CInt.in_int (content_length e + 1) ->
  exists e',
    editor_insert w e x = Some e' /\
    contents e' = contents e ++ [x] /\
    contents e' = insert_at (content_length e) x (contents e) /\
    length (contents e') = S (length (contents e)) /\
    content_length e' = content_length e + 1 /\
    length_ok e' /\
    cursor_x e' = cursor_x e /\ cursor_y e' = cursor_y e /\ line e' = line e.
Proof.
  unfold length_ok. intros Hlen Hfit.
  exists (set_content_length (content_length e + 1)
            (set_contents (contents e ++ [x]) e)).
  split.
  { unfold editor_insert. rewrite add_exact by exact Hfit.
    rewrite Hlen at 1. rewrite realloc_grow_one. cbn [mbind option_bind].
    rewrite Hlen at 1. rewrite store_at_end. cbn [mbind option_bind].
    cbn [content_length set_contents]. rewrite add_exact by exact Hfit.
    reflexivity. }
  cbn [contents content_length set_contents set_content_length
       cursor_x cursor_y line].
  split; [reflexivity|].
  split.
  { unfold insert_at. rewrite Hlen, Nat2Z.id.
    rewrite take_ge, drop_ge by lia. reflexivity. }
  split; [rewrite length_app; simpl; lia|].
  split; [reflexivity|].
  split; [rewrite length_app; simpl; lia|].
  repeat split.
Qed.

Lemma editor_insert_appends_witness :
  exists e',
    editor_insert calm_world (editor_at 16 24 [1; 2] 0 1 1 MODE_INSERT) 9
      = Some e' /\
    contents e' = [1; 2; 9] /\ content_length e' = 3.
Proof.
  destruct (editor_insert_appends calm_world
              (editor_at 16 24 [1; 2] 0 1 1 MODE_INSERT) 9)
    as (e' & H1 & H2 & _ & _ & H5 & _).
  - reflexivity.
  - vm_compute. split; discriminate.
  - exists e'. split; [exact H1|]. split; [exact H2|exact H5].
Defined.

(** C3, as stated, fails: with the cursor on offset 0 of the bytes [1; 2],
    inserting [9] at the cursor would give [9; 1; 2]; [editor_insert] gives
    [1; 2; 9]. *)
Lemma editor_insert_ignores_offset :
  let e := editor_at 16 24 [1; 2] 0 1 1 MODE_INSERT in
  editor_offset_at_cursor e = 0 /\
  contents <$> editor_insert calm_world e 9 = Some [1; 2; 9] /\
  contents <$> editor_insert calm_world e 9
    <> Some (insert_at (editor_offset_at_cursor e) 9 (contents e)).
Proof.
  intros e. split; [reflexivity|]. split; [reflexivity|].
  vm_compute. discriminate.
Qed.

(** ** The input decoder *)

(** A byte of the terminal as a [char]. *)
Lemma of_int_byte (b : Z) :
  0 <= b < 256 -> CChar.of_int b = if b <? 128 then b else b - 256.
Proof.
  intros H. unfold CChar.of_int. change (2 ^ 8) with 256. change (2 ^ 7) with 128.
  destruct (Z.ltb_spec b 128).
  - rewrite Z.mod_small by lia. lia.
  - replace (b + 128) with (b - 128 + 1 * 256) by lia.
    rewrite Z.mod_add by lia. rewrite Z.mod_small by lia. lia.
Qed.

Lemma of_int_ascii (b : Z) : 0 <= b < 128 -> CChar.of_int b = b.
Proof.
  intros H. rewrite of_int_byte by lia.
  destruct (Z.ltb_spec b 128); lia.
Qed.

Lemma of_int_byte_eq (b k : Z) :
  0 <= b < 256 -> 0 <= k < 128 -> CChar.of_int b = k <-> b = k.
Proof.
  intros Hb Hk. rewrite of_int_byte by lia.
  destruct (Z.ltb_spec b 128); lia.
Qed.

(** [read_key] on a byte that is not ESC. *)
Lemma read_key_plain (w : world) (b : Z) (rest : stdin) :
  0 <= b < 256 -> b <> 27 ->
  read_key w (RByte b :: rest) = Ret (CChar.of_int b) rest.
Proof.
  intros Hb Hne. unfold read_key. cbn [read_retry].
  assert (Hc : CChar.of_int b <> KEY_ESC).
  { intros Hc. apply (of_int_byte_eq b 27) in Hc; [lia|lia|].
    unfold KEY_ESC. lia. }
  revert Hc. generalize (CChar.of_int b) as c. intros c Hc.
  destruct (Z.eqb_spec c KEY_ESC); [contradiction|reflexivity].
Qed.

(** [read_key] after ESC and two bytes, in the characters [s0], [s1] of
    [seq]. *)
Lemma read_key_escape (w : world) (b0 b1 : Z) (rest : stdin) :
  read_key w (RByte 27 :: RByte b0 :: RByte b1 :: rest) =
    let s0 := CChar.of_int b0 in
    let s1 := CChar.of_int b1 in
    let letters (inp' : stdin) :=
      match letter_key s1 with
      | Some k => Ret k inp'
      | None => Ret KEY_ESC inp'
      end in
    if s0 =? ch "[" then
      if (ch "0" <=? s1) && (s1 <=? ch "9") then
        let '(n2, s2, inp3) := read_into (seq_uninit w 2) rest in
        if n2 =? 0 then Ret KEY_ESC inp3 else
        match (if s2 =? ch "~" then tilde_key s1 else None) with
        | Some k => Ret k inp3
        | None => letters inp3
        end
      else letters rest
    else Ret KEY_ESC rest.
Proof. reflexivity. Qed.

(** Whatever follows ESC, [read_key] returns, and returns ESC or one of
    the eight virtual keys. *)
Lemma read_key_escape_total (w : world) (rest : stdin) :
  exists k rest',
    read_key w (RByte 27 :: rest) = Ret k rest' /\
    (k = KEY_ESC \/ KEY_UP <= k <= KEY_PAGEDOWN).
Proof.
  unfold read_key. cbn [read_retry].
  change (CChar.of_int 27 =? KEY_ESC) with true. cbv iota.
  assert (Hl : forall s, match letter_key s with
                         | Some k => KEY_UP <= k <= KEY_PAGEDOWN
                         | None => True end).
  { intros s. unfold letter_key.
    repeat match goal with |- context [if ?b then _ else _] => destruct b end;
      (exact I || (vm_compute; split; discriminate)). }
  assert (Ht : forall s, match tilde_key s with
                         | Some k => KEY_UP <= k <= KEY_PAGEDOWN
                         | None => True end).
  { intros s. unfold tilde_key.
    repeat match goal with |- context [if ?b then _ else _] => destruct b end;
      (exact I || (vm_compute; split; discriminate)). }
  destruct (read_into (seq_uninit w 0) rest) as [[n0 s0] inp1].
  destruct (n0 =? 0); [eauto|].
  destruct (read_into (seq_uninit w 1) inp1) as [[n1 s1] inp2].
  destruct (n1 =? 0); [eauto|].
  destruct (s0 =? ch "["); [|eexists _, _; split; [reflexivity|left; reflexivity]].
  specialize (Hl s1). specialize (Ht s1).
  destruct ((ch "0" <=? s1) && (s1 <=? ch "9")).
  - destruct (read_into (seq_uninit w 2) inp2) as [[n2 s2] inp3].
    destruct (n2 =? 0); [eauto|].
    destruct (s2 =? ch "~").
    + destruct (tilde_key s1); [eauto|].
      destruct (letter_key s1); [eauto|].
      eexists _, _; split; [reflexivity|left; reflexivity].
    + destruct (letter_key s1); [eauto|].
      eexists _, _; split; [reflexivity|left; reflexivity].
  - destruct (letter_key s1); [eauto|].
    eexists _, _; split; [reflexivity|left; reflexivity].
Qed.

(** The character constants as numbers, for [lia]. *)
Ltac ch_values :=
  repeat match goal with
         | |- context [ch ?a] =>
             let v := eval vm_compute in (ch a) in change (ch a) with v in *
         | H : context [ch ?a] |- _ =>
             let v := eval vm_compute in (ch a) in change (ch a) with v in *
         end.

Lemma letter_key_none (s1 : Z) :
  s1 <> ch "A" -> s1 <> ch "B" -> s1 <> ch "C" -> s1 <> ch "D" ->
  s1 <> ch "H" -> s1 <> ch "F" -> letter_key s1 = None.
Proof.
  intros. unfold letter_key.
  repeat match goal with
         | |- context [?a =? ?b] => destruct (Z.eqb_spec a b); [contradiction|]
         end.
  reflexivity.
Qed.

Lemma tilde_key_none (s1 : Z) :
  s1 <> ch "1" -> s1 <> ch "4" -> s1 <> ch "5" -> s1 <> ch "6" ->
  tilde_key s1 = None.
Proof.
  intros. unfold tilde_key.
  repeat match goal with
         | |- context [?a =? ?b] => destruct (Z.eqb_spec a b); [contradiction|]
         end.
  reflexivity.
Qed.

(** The decoding table of [read_key], for reads that do not fail: the arrow
    keys, the four [ESC [ d ~] keys, ESC alone, the sequences outside the
    table (ESC is returned, whatever the bytes), and the bytes other than ESC
    (returned as the [char] read: the same eight bits, the same number below
    128). *)
Lemma read_key_decodes (w : world) (rest : stdin) :
  (read_key w (RByte 27 :: RByte (ch "[") :: RByte (ch "A") :: rest)
     = Ret KEY_UP rest /\
   read_key w (RByte 27 :: RByte (ch "[") :: RByte (ch "B") :: rest)
     = Ret KEY_DOWN rest /\
   read_key w (RByte 27 :: RByte (ch "[") :: RByte (ch "C") :: rest)
     = Ret KEY_RIGHT rest /\
   read_key w (RByte 27 :: RByte (ch "[") :: RByte (ch "D") :: rest)
     = Ret KEY_LEFT rest) /\
  (read_key w (RByte 27 :: RByte (ch "[") :: RByte (ch "1") :: RByte (ch "~") :: rest)
     = Ret KEY_HOME rest /\
   read_key w (RByte 27 :: RByte (ch "[") :: RByte (ch "4") :: RByte (ch "~") :: rest)
     = Ret KEY_END rest /\
   read_key w (RByte 27 :: RByte (ch "[") :: RByte (ch "5") :: RByte (ch "~") :: rest)
     = Ret KEY_PAGEUP rest /\
   read_key w (RByte 27 :: RByte (ch "[") :: RByte (ch "6") :: RByte (ch "~") :: rest)
     = Ret KEY_PAGEDOWN rest) /\
  (read_key w [RByte 27] = Ret KEY_ESC [] /\
   read_key w (RByte 27 :: RNone :: rest) = Ret KEY_ESC rest /\
   forall b, read_key w (RByte 27 :: RByte b :: RNone :: rest) = Ret KEY_ESC rest) /\
  (exists k rest',
     read_key w (RByte 27 :: rest) = Ret k rest' /\
     (k = KEY_ESC \/ KEY_UP <= k <= KEY_PAGEDOWN)) /\
  (forall b0 b1, 0 <= b0 < 256 -> b0 <> ch "[" ->
     read_key w (RByte 27 :: RByte b0 :: RByte b1 :: rest) = Ret KEY_ESC rest) /\
  (forall b1, 0 <= b1 < 256 -> ~ ch "0" <= b1 <= ch "9" ->
     b1 <> ch "A" -> b1 <> ch "B" -> b1 <> ch "C" -> b1 <> ch "D" ->
     b1 <> ch "H" -> b1 <> ch "F" ->
     read_key w (RByte 27 :: RByte (ch "[") :: RByte b1 :: rest)
       = Ret KEY_ESC rest) /\
  (forall b1 b2, ch "0" <= b1 <= ch "9" -> 0 <= b2 < 256 ->
     ~ (b2 = ch "~" /\
        (b1 = ch "1" \/ b1 = ch "4" \/ b1 = ch "5" \/ b1 = ch "6")) ->
     read_key w (RByte 27 :: RByte (ch "[") :: RByte b1 :: RByte b2 :: rest)
       = Ret KEY_ESC rest) /\
  (forall b, 0 <= b < 256 -> b <> 27 ->
     read_key w (RByte b :: rest) = Ret (CChar.of_int b) rest /\
     CChar.uchar (CChar.of_int b) = b /\
     (b < 128 -> CChar.of_int b = b)).
Proof.
  split; [repeat split; reflexivity|].
  split; [repeat split; reflexivity|].
  split; [split; [reflexivity|split; [reflexivity|intros b; reflexivity]]|].
  split; [apply read_key_escape_total|].
  split; [|split; [|split]].
  - intros b0 b1 Hb0 Hne. rewrite read_key_escape. cbv zeta.
    assert (Hs : CChar.of_int b0 <> ch "[").
    { intros Hs. ch_values. apply (of_int_byte_eq b0 91) in Hs; lia. }
    destruct (Z.eqb_spec (CChar.of_int b0) (ch "[")); [contradiction|reflexivity].
  - intros b1 Hb1 Hd HA HB HC HD HH HF. rewrite read_key_escape. cbv zeta.
    change (CChar.of_int (ch "[") =? ch "[") with true. cbv iota.
    assert (Hs : forall k, 0 <= k < 128 -> b1 <> k -> CChar.of_int b1 <> k).
    { intros k Hk Hne Hs. apply (of_int_byte_eq b1 k) in Hs; lia. }
    rewrite letter_key_none by (apply Hs; ch_values; lia).
    assert (Hnd : (ch "0" <=? CChar.of_int b1) && (CChar.of_int b1 <=? ch "9")
                  = false).
    { rewrite of_int_byte by lia. ch_values.
      destruct (Z.ltb_spec b1 128); apply andb_false_iff; lia. }
    rewrite Hnd. reflexivity.
  - intros b1 b2 Hb1 Hb2 Hno. rewrite read_key_escape. cbv zeta.
    change (CChar.of_int (ch "[") =? ch "[") with true. cbv iota.
    ch_values. rewrite (of_int_ascii b1) by lia.
    assert (Hd : (48 <=? b1) && (b1 <=? 57) = true)
      by (apply andb_true_iff; lia).
    rewrite Hd. cbn [read_into].
    change (1 =? 0) with false. cbv iota.
    rewrite letter_key_none by (ch_values; lia).
    destruct (Z.eqb_spec (CChar.of_int b2) 126) as [H2|H2]; [|reflexivity].
    apply (of_int_byte_eq b2 126) in H2; [|lia|lia].
    rewrite tilde_key_none by (ch_values; lia). reflexivity.
  - intros b Hb Hne. split; [apply read_key_plain; assumption|].
    split.
    + rewrite uchar_of_int. apply Z.mod_small. lia.
    + intros Hlt. apply of_int_ascii. lia.
Qed.

Lemma read_key_decodes_witness :
  read_key calm_world [RByte 27; RByte 79; RByte 80] = Ret KEY_ESC [] /\
  read_key calm_world [RByte 27; RByte 91; RByte 90] = Ret KEY_ESC [] /\
  read_key calm_world [RByte 27; RByte 91; RByte 51; RByte 126] = Ret KEY_ESC [] /\
  read_key calm_world [RByte 104] = Ret 104 [].
Proof.
  destruct (read_key_decodes calm_world []) as (_ & _ & _ & _ & H1 & H2 & H3 & H4).
  split; [apply (H1 79 80); [lia|discriminate]|].
  split; [apply (H2 90); (vm_compute; intuition discriminate) || lia|].
  split; [apply (H3 51 126); vm_compute; intuition discriminate|].
  apply (H4 104); [lia|discriminate].
Defined.

(** C8, on the bytes from 0x80.  [read_key] keeps the byte read in a [char]
    and returns that [char]: a byte from 0x80 comes back as the byte minus
    256, a negative number, and not as the byte.  The byte 0xFF comes back as
    -1, the value [read_key] returns when [read] fails, and
    [editor_process_keypress] then returns without looking at the key. *)
Theorem read_key_high_byte (w : world) (b : Z) (rest : stdin) :
  128 <= b < 256 ->
  read_key w (RByte b :: rest) = Ret (b - 256) rest /\
  b - 256 < 0 /\
  (b = 255 ->
   read_key w (RByte b :: rest) = read_key w (RError true :: rest) /\
   forall e, editor_process_keypress w e (RByte b :: rest) = Ret e rest).
Proof.
  intros Hb.
  assert (Hk : read_key w (RByte b :: rest) = Ret (b - 256) rest).
  { rewrite read_key_plain by lia. rewrite of_int_byte by lia.
    destruct (Z.ltb_spec b 128); [lia|reflexivity]. }
  split; [exact Hk|]. split; [lia|].
  intros ->. split; [exact Hk|].
  intros e. unfold editor_process_keypress. rewrite Hk. reflexivity.
Qed.

Lemma read_key_high_byte_witness :
  read_key calm_world [RByte 255] = Ret (-1) [] /\
  read_key calm_world [RByte 255] = read_key calm_world [RError true] /\
  read_key calm_world [RByte 195] = Ret (-61) [].
Proof.
  split; [|split].
  - apply (proj1 (read_key_high_byte calm_world 255 [] ltac:(lia))).
  - apply (proj2 (proj2 (read_key_high_byte calm_world 255 [] ltac:(lia)))).
    reflexivity.
  - apply (proj1 (read_key_high_byte calm_world 195 [] ltac:(lia))).
Defined.

(** ** Moving the cursor leaves the buffer alone *)

(** Projections of assignments, computed. *)
Ltac fields :=
  cbn [octets_per_line grouping hex_line_width line cursor_x cursor_y
       screen_rows screen_cols mode dirty filename contents content_length
       status_sev status_message
       set_line set_cursor_x set_cursor_y set_mode set_contents
       set_content_length set_status] in *.

(** Case analysis on a test of the goal that contains no other test. *)
Ltac split_if :=
  match goal with
  | |- context [if ?b then _ else _] =>
      lazymatch b with
      | context [if _ then _ else _] => fail
      | _ => destruct b eqn:?
      end
  end.

Lemma offset_at_cursor_set_contents (p : list Z) (e : editor) :
  editor_offset_at_cursor (set_contents p e) = editor_offset_at_cursor e.
Proof. reflexivity. Qed.

Lemma scroll_set_contents (p : list Z) (e : editor) (units : Z) :
  editor_scroll (set_contents p e) units = set_contents p (editor_scroll e units).
Proof.
  unfold editor_scroll. cbv zeta. fields.
  repeat (split_if; fields); reflexivity.
Qed.

Lemma step_cursor_set_contents (p : list Z) (e : editor) (dir amount : Z) :
  step_cursor (set_contents p e) dir amount
    = set_contents p (step_cursor e dir amount).
Proof.
  unfold step_cursor.
  repeat match goal with
         | |- context [if ?b then _ else _] => destruct b
         end; reflexivity.
Qed.

Lemma wrap_columns_set_contents (p : list Z) (e : editor) :
  wrap_columns (set_contents p e) = set_contents p (wrap_columns e).
Proof.
  unfold wrap_columns. cbn [cursor_x cursor_y octets_per_line set_contents].
  repeat match goal with
         | |- context [if ?b then _ else _] => destruct b
         end; reflexivity.
Qed.

Lemma stop_at_top_set_contents (p : list Z) (e : editor) :
  stop_at_top (set_contents p e) = set_contents p (stop_at_top e).
Proof.
  unfold stop_at_top. cbn [cursor_y line set_contents].
  destruct (_ && _); reflexivity.
Qed.

Lemma scroll_rows_set_contents (p : list Z) (e : editor) :
  scroll_rows (set_contents p e) = set_contents p (scroll_rows e).
Proof.
  unfold scroll_rows. cbn [cursor_y line screen_rows set_contents].
  destruct (_ >? _).
  - rewrite <- scroll_set_contents. reflexivity.
  - destruct (_ && _); [|reflexivity].
    rewrite <- scroll_set_contents. reflexivity.
Qed.

Lemma stop_at_end_set_contents (p : list Z) (e : editor) :
  stop_at_end (set_contents p e) = set_contents p (stop_at_end e).
Proof.
  unfold stop_at_end. rewrite offset_at_cursor_set_contents.
  cbn [content_length set_contents].
  generalize (editor_offset_at_cursor e) as off. intros off.
  destruct (_ >=? _); reflexivity.
Qed.

Lemma move_cursor_set_contents (p : list Z) (e : editor) (dir amount : Z) :
  editor_move_cursor (set_contents p e) dir amount
    = set_contents p (editor_move_cursor e dir amount).
Proof.
  unfold editor_move_cursor. cbv zeta. rewrite step_cursor_set_contents.
  generalize (step_cursor e dir amount) as e1. intros e1.
  change (at_file_start (set_contents p e1)) with (at_file_start e1).
  destruct (at_file_start e1); [reflexivity|].
  rewrite wrap_columns_set_contents, stop_at_top_set_contents,
    scroll_rows_set_contents, stop_at_end_set_contents.
  reflexivity.
Qed.

Lemma same_buffer_refl (e : editor) : same_buffer e e.
Proof. repeat split. Qed.

Lemma same_buffer_trans (e1 e2 e3 : editor) :
  same_buffer e1 e2 -> same_buffer e2 e3 -> same_buffer e1 e3.
Proof.
  unfold same_buffer. intros (A1 & A2 & A3 & A4 & A5) (B1 & B2 & B3 & B4 & B5).
  repeat split; congruence.
Qed.

Lemma same_buffer_scroll (e : editor) (units : Z) :
  same_buffer e (editor_scroll e units).
Proof.
  destruct (scroll_fields e units) as (H1 & H2 & _ & _ & H5 & H6 & H7).
  repeat split; assumption.
Qed.

Lemma same_buffer_cursor_to_offset (e : editor) (offset : Z) :
  same_buffer e (cursor_to_offset e offset).
Proof. repeat split. Qed.

Lemma same_buffer_step_cursor (e : editor) (dir amount : Z) :
  same_buffer e (step_cursor e dir amount).
Proof.
  unfold step_cursor.
  repeat match goal with
         | |- context [if ?b then _ else _] => destruct b
         end; repeat split.
Qed.

Lemma same_buffer_wrap_columns (e : editor) : same_buffer e (wrap_columns e).
Proof.
  unfold wrap_columns.
  repeat match goal with
         | |- context [if ?b then _ else _] => destruct b
         end; repeat split.
Qed.

Lemma same_buffer_stop_at_top (e : editor) : same_buffer e (stop_at_top e).
Proof. unfold stop_at_top. destruct (_ && _); repeat split. Qed.

Lemma same_buffer_scroll_rows (e : editor) : same_buffer e (scroll_rows e).
Proof.
  unfold scroll_rows. destruct (_ >? _).
  - eapply same_buffer_trans; [|apply same_buffer_scroll]. repeat split.
  - destruct (_ && _); [|apply same_buffer_refl].
    eapply same_buffer_trans; [|apply same_buffer_scroll]. repeat split.
Qed.

Lemma same_buffer_stop_at_end (e : editor) : same_buffer e (stop_at_end e).
Proof.
  unfold stop_at_end. cbv zeta.
  generalize (editor_offset_at_cursor e) as off. intros off.
  destruct (_ >=? _); [apply same_buffer_cursor_to_offset|apply same_buffer_refl].
Qed.

Lemma same_buffer_move_cursor (e : editor) (dir amount : Z) :
  same_buffer e (editor_move_cursor e dir amount).
Proof.
  unfold editor_move_cursor. cbv zeta.
  pose proof (same_buffer_step_cursor e dir amount) as H1.
  revert H1. generalize (step_cursor e dir amount) as e1. intros e1 H1.
  destruct (at_file_start e1).
  - eapply same_buffer_trans; [exact H1|]. repeat split.
  - eapply same_buffer_trans; [exact H1|].
    eapply same_buffer_trans; [apply same_buffer_wrap_columns|].
    eapply same_buffer_trans; [apply same_buffer_stop_at_top|].
    eapply same_buffer_trans; [apply same_buffer_scroll_rows|].
    apply same_buffer_stop_at_end.
Qed.

(** ** [editor_move_cursor], block by block *)

(** Tests as propositions. *)
Ltac tests :=
  repeat (match goal with
          | |- context [?a <=? ?b] => destruct (Z.leb_spec a b)
          | |- context [?a <? ?b] => destruct (Z.ltb_spec a b)
          | |- context [?a >=? ?b] => rewrite (Z.geb_leb a b)
          | |- context [?a >? ?b] => rewrite (Z.gtb_ltb a b)
          end; cbn [andb orb negb]).

Lemma step_cursor_spec (e : editor) (dir : Z) :
  CInt.in_int (cursor_x e - 1) -> CInt.in_int (cursor_x e + 1) ->
  CInt.in_int (cursor_y e - 1) -> CInt.in_int (cursor_y e + 1) ->
  dir = KEY_UP \/ dir = KEY_DOWN \/ dir = KEY_LEFT \/ dir = KEY_RIGHT ->
  let e' := step_cursor e dir 1 in
  line e' = line e /\
  (dir = KEY_UP /\ cursor_x e' = cursor_x e /\ cursor_y e' = cursor_y e - 1 \/
   dir = KEY_DOWN /\ cursor_x e' = cursor_x e /\ cursor_y e' = cursor_y e + 1 \/
   dir = KEY_LEFT /\ cursor_x e' = cursor_x e - 1 /\ cursor_y e' = cursor_y e \/
   dir = KEY_RIGHT /\ cursor_x e' = cursor_x e + 1 /\ cursor_y e' = cursor_y e).
Proof.
  intros Hx1 Hx2 Hy1 Hy2 Hd. unfold step_cursor.
  destruct Hd as [-> | [-> | [-> | ->]]]; cbn [Z.eqb Pos.eqb]; fields;
    rewrite ?sub_exact, ?add_exact by assumption; auto 10.
Qed.

Lemma wrap_columns_spec (e : editor) :
  (cursor_x e < 1 -> CInt.in_int (cursor_y e - 1)) ->
  (octets_per_line e < cursor_x e -> CInt.in_int (cursor_y e + 1)) ->
  let e' := wrap_columns e in
  line e' = line e /\
  (cursor_x e < 1 /\ 1 <= cursor_y e /\
     cursor_x e' = octets_per_line e /\ cursor_y e' = cursor_y e - 1 \/
   cursor_x e < 1 /\ cursor_y e < 1 /\
     cursor_x e' = cursor_x e /\ cursor_y e' = cursor_y e \/
   octets_per_line e < cursor_x e /\ 1 <= cursor_x e /\
     cursor_x e' = 1 /\ cursor_y e' = cursor_y e + 1 \/
   1 <= cursor_x e <= octets_per_line e /\
     cursor_x e' = cursor_x e /\ cursor_y e' = cursor_y e).
Proof.
  intros Hy1 Hy2. unfold wrap_columns. tests; fields;
    rewrite ?sub_exact, ?add_exact by auto;
    (split; [reflexivity|]); lia.
Qed.

Lemma stop_at_top_spec (e : editor) :
  let e' := stop_at_top e in
  line e' = line e /\ cursor_x e' = cursor_x e /\
  (cursor_y e <= 1 /\ line e <= 0 /\ cursor_y e' = 1 \/
   (1 < cursor_y e \/ 0 < line e) /\ cursor_y e' = cursor_y e).
Proof.
  unfold stop_at_top. tests; fields; (split; [reflexivity|]);
    (split; [reflexivity|]); lia.
Qed.

(** The line after [editor_scroll], where its arithmetic is exact. *)
Lemma scroll_line_exact (e : editor) (units : Z) :
  0 <= content_length e -> CInt.in_int (content_length e) ->
  1 <= octets_per_line e -> CInt.in_int (screen_rows e - 2) ->
  0 <= screen_rows e - 2 ->
  CInt.in_int (line e + units) ->
  line (editor_scroll e units)
    = Z.max 0 (Z.min (content_length e / octets_per_line e
                      - (screen_rows e - 2)) (line e + units)).
Proof.
  intros Hn Hni Ho Hr Hr0 Hl. rewrite scroll_line. cbv zeta.
  rewrite div_exact by (assumption || lia).
  rewrite (sub_exact (screen_rows e)) by assumption.
  pose proof (Z.div_pos (content_length e) (octets_per_line e) Hn ltac:(lia)).
  assert (content_length e / octets_per_line e <= content_length e)
    by (apply Z.div_le_upper_bound; nia).
  rewrite sub_exact by (int_bounds; lia).
  rewrite add_exact by assumption. reflexivity.
Qed.

Lemma scroll_rows_spec (e : editor) :
  0 <= content_length e -> CInt.in_int (content_length e) ->
  1 <= octets_per_line e -> 2 <= screen_rows e -> CInt.in_int (screen_rows e) ->
  CInt.in_int (line e + 1) -> CInt.in_int (line e - 1) ->
  let e' := scroll_rows e in
  let upper := content_length e / octets_per_line e - (screen_rows e - 2) in
  cursor_x e' = cursor_x e /\
  (screen_rows e - 1 < cursor_y e /\ cursor_y e' = screen_rows e - 1 /\
     line e' = Z.max 0 (Z.min upper (line e + 1)) \/
   cursor_y e <= screen_rows e - 1 /\ cursor_y e < 1 /\ 0 < line e /\
     cursor_y e' = 1 /\ line e' = Z.max 0 (Z.min upper (line e - 1)) \/
   cursor_y e <= screen_rows e - 1 /\ (1 <= cursor_y e \/ line e <= 0) /\
     cursor_y e' = cursor_y e /\ line e' = line e).
Proof.
  intros Hn Hni Ho Hr Hri Hl1 Hl2. unfold scroll_rows. cbv zeta.
  assert (Hr1 : screen_rows e -i 1 = screen_rows e - 1)
    by (apply sub_exact; int_bounds; lia).
  rewrite Hr1.
  destruct (scroll_fields (set_cursor_y (screen_rows e - 1) e) 1)
    as (_ & _ & Hx1 & Hy1 & _).
  destruct (scroll_fields (set_cursor_y 1 e) (-1)) as (_ & _ & Hx2 & Hy2 & _).
  assert (A1 := scroll_line_exact (set_cursor_y (screen_rows e - 1) e) 1).
  assert (A2 := scroll_line_exact (set_cursor_y 1 e) (-1)).
  fields.
  specialize (A1 Hn Hni Ho ltac:(int_bounds; lia) ltac:(lia) Hl1).
  specialize (A2 Hn Hni Ho ltac:(int_bounds; lia) ltac:(lia) Hl2).
  tests; rewrite ?Hx1, ?Hy1, ?Hx2, ?Hy2, ?A1, ?A2;
    (split; [reflexivity|]); lia.
Qed.

Lemma stop_at_end_spec (e : editor) :
  CInt.in_int (content_length e - 1) ->
  let e' := stop_at_end e in
  let offset := editor_offset_at_cursor e in
  line e' = line e /\
  (content_length e - 1 <= offset /\
     (cursor_x e', cursor_y e') = editor_cursor_at_offset e offset \/
   offset < content_length e - 1 /\
     cursor_x e' = cursor_x e /\ cursor_y e' = cursor_y e).
Proof.
  intros Hn. unfold stop_at_end. cbv zeta. rewrite sub_exact by assumption.
  unfold cursor_to_offset.
  generalize (editor_offset_at_cursor e) as off. intros off.
  destruct (editor_cursor_at_offset e off) as [x y] eqn:Hxy.
  tests; fields; (split; [reflexivity|]); [left|right]; split; auto; lia.
Qed.

(** ** The cursor stays on the screen *)

Lemma scroll_down_line (n opl rows ln : Z) :
  3 <= rows -> 1 <= opl -> 0 <= ln -> ln * opl < n ->
  let ln' := Z.max 0 (Z.min (n / opl - (rows - 2)) (ln + 1)) in
  0 <= ln' <= ln + 1 /\ ln' * opl < n.
Proof.
  intros Hr Ho Hl Hn. cbv zeta.
  pose proof (Z.mul_div_le n opl ltac:(lia)) as Hd.
  split; [lia|].
  destruct (Z.max_spec 0 (Z.min (n / opl - (rows - 2)) (ln + 1)))
    as [[_ ->] | [_ ->]]; [|nia].
  assert (Z.min (n / opl - (rows - 2)) (ln + 1) <= n / opl - 1) by lia.
  nia.
Qed.

Lemma scroll_up_line (n opl rows ln : Z) :
  1 <= opl -> 0 <= ln -> ln * opl < n ->
  let ln' := Z.max 0 (Z.min (n / opl - (rows - 2)) (ln - 1)) in
  0 <= ln' <= ln /\ ln' * opl < n.
Proof.
  intros Ho Hl Hn. cbv zeta. split; [lia|].
  destruct (Z.max_spec 0 (Z.min (n / opl - (rows - 2)) (ln - 1)))
    as [[_ ->] | [_ ->]]; [|nia].
  assert (Z.min (n / opl - (rows - 2)) (ln - 1) <= ln) by lia.
  nia.
Qed.

(** The row of the last byte is not below the row of a cursor at or after
    it. *)
Lemma last_row_le (n opl r c : Z) :
  1 <= opl -> 0 <= c < opl -> 0 <= r -> 1 <= n ->
  n - 1 <= r * opl + c \/ n = 1 ->
  (n - 1) / opl <= r.
Proof.
  intros Ho Hc Hr Hn [H | ->].
  - destruct (row_col_of_offset r opl c Hc) as [Hd _]. rewrite <- Hd.
    apply Z.div_le_mono; lia.
  - rewrite Z.div_0_l by lia. lia.
Qed.

(** The last block: a cursor on the screen, over a line that starts inside
    the buffer, stays on the screen. *)
Lemma stop_at_end_in_bounds (e : editor) :
  CInt.in_int (octets_per_line e) -> CInt.in_int (line e) ->
  CInt.in_int (content_length e) ->
  cursor_in_bounds e -> 0 <= line e ->
  line e * octets_per_line e < content_length e ->
  raw_offset e <= CInt.INT_MAX ->
  cursor_in_bounds (stop_at_end e).
Proof.
  intros Hoi Hli Hni [Hx Hy] Hl Hln Hraw.
  assert (Hn : 1 <= content_length e) by nia.
  destruct (stop_at_end_spec e ltac:(int_bounds; lia)) as (_ & Hc).
  pose proof (same_buffer_stop_at_end e) as (_ & _ & _ & Ho' & Hr').
  unfold cursor_in_bounds. rewrite Ho', Hr'.
  destruct Hc as [[Hge Hc] | (_ & -> & ->)]; [|lia].
  pose proof (offset_at_cursor_in_buffer e Hni Hn) as Hoff.
  assert (Heq : editor_offset_at_cursor e = content_length e - 1) by lia.
  pose proof (offset_at_cursor_clamp e Hni Hn) as Hcl.
  rewrite cursor_offset_nonneg_exact in Hcl by lia.
  rewrite Heq in Hcl, Hc. clear Hoff Hge Heq.
  rewrite cursor_at_offset_exact in Hc
    by (try assumption; int_bounds; lia).
  apply pair_equal_spec in Hc. destruct Hc as [Hcx Hcy].
  pose proof (Z.mod_pos_bound (content_length e - 1) (octets_per_line e)
                ltac:(lia)).
  assert (line e <= (content_length e - 1) / octets_per_line e)
    by (apply Z.div_le_lower_bound; lia).
  assert ((content_length e - 1) / octets_per_line e
          <= cursor_y e - 1 + line e).
  { apply (last_row_le _ _ _ (cursor_x e - 1)); try lia.
    unfold clamp, raw_offset in Hcl. lia. }
  lia.
Qed.

(** The geometry and the length after a block are those before it. *)
Ltac geometry H :=
  let Hn := fresh "Hn" in
  let Ho := fresh "Ho" in
  let Hr := fresh "Hr" in
  destruct H as (_ & Hn & _ & Ho & Hr).

(** C10, as the code has it.  A cursor on the screen, in a terminal of at
    least three rows, over a line that starts inside the buffer (so the
    buffer is not empty): after [editor_move_cursor] by one in any of the
    four directions the cursor is on the screen again. *)
Theorem move_cursor_in_bounds (e : editor) (dir : Z) :
  well_typed e = true -> offsets_fit e ->
  1 <= octets_per_line e -> 3 <= screen_rows e ->
  cursor_in_bounds e -> 0 <= line e ->
  line e * octets_per_line e < content_length e ->
  direction dir ->
  cursor_in_bounds (editor_move_cursor e dir 1).
Proof.
  intros Hwt Hfit Hopl Hrows [Hx Hy] Hl Hln Hdir.
  destruct (well_typed_spec e Hwt)
    as (Hoi & _ & _ & Hli & Hxi & Hyi & Hri & _ & Hni & _).
  unfold offsets_fit in Hfit. clear Hwt.
  assert (Hn1 : 1 <= content_length e) by nia.
  assert (Ho3 : 3 * octets_per_line e <= CInt.INT_MAX) by nia.
  assert (Hlmax : line e < content_length e) by nia.
  int_bounds.
  unfold editor_move_cursor. cbv zeta.
  (* the switch *)
  destruct (step_cursor_spec e dir) as (Hl1 & Hc1);
    try (int_bounds; clear - Hx Hy Hoi Hri Ho3; lia); [exact Hdir|].
  pose proof (same_buffer_step_cursor e dir 1) as Hb1. geometry Hb1.
  set (e1 := step_cursor e dir 1) in *. clearbody e1.
  assert (Hs1 : 0 <= cursor_x e1 <= octets_per_line e + 1
                /\ 0 <= cursor_y e1 <= screen_rows e
                /\ (cursor_x e1 < 1 -> 1 <= cursor_y e1 <= screen_rows e - 1)
                /\ (octets_per_line e < cursor_x e1
                    -> 1 <= cursor_y e1 <= screen_rows e - 1))
    by (clear - Hc1 Hx Hy; lia).
  clear Hc1 Hdir.
  destruct (at_file_start e1).
  { unfold cursor_in_bounds. fields. lia. }
  (* the columns *)
  destruct (wrap_columns_spec e1) as (Hl2 & Hc2);
    try (intros Hp; int_bounds; clear - Hp Hs1 Hri Ho; lia).
  pose proof (same_buffer_wrap_columns e1) as Hb2. geometry Hb2.
  set (e2 := wrap_columns e1) in *. clearbody e2.
  assert (Hs2 : 1 <= cursor_x e2 <= octets_per_line e
                /\ 0 <= cursor_y e2 <= screen_rows e)
    by (clear - Hc2 Hs1 Ho Hopl; lia).
  clear Hc2 Hs1.
  (* the top *)
  destruct (stop_at_top_spec e2) as (Hl3 & Hx3 & Hc3).
  pose proof (same_buffer_stop_at_top e2) as Hb3. geometry Hb3.
  set (e3 := stop_at_top e2) in *. clearbody e3.
  assert (Hs3 : 1 <= cursor_x e3 <= octets_per_line e
                /\ 0 <= cursor_y e3 <= screen_rows e
                /\ (cursor_y e3 < 1 -> 0 < line e))
    by (clear - Hc3 Hx3 Hs2 Hl2 Hl1 Hrows; lia).
  clear Hc3 Hs2 Hx3.
  (* the rows *)
  assert (He3 : content_length e3 = content_length e
                /\ octets_per_line e3 = octets_per_line e
                /\ screen_rows e3 = screen_rows e /\ line e3 = line e)
    by (clear - Hl1 Hl2 Hl3 Hn Hn0 Hn2 Ho Ho0 Ho1 Hr Hr0 Hr1; lia).
  destruct He3 as (En & Eo & Er & El).
  destruct (scroll_rows_spec e3) as (Hx4 & Hc4);
    try (rewrite ?En, ?Eo, ?Er, ?El; int_bounds;
         clear - Hn1 Hni Hopl Hrows Hri Hl Hlmax; lia).
  pose proof (same_buffer_scroll_rows e3) as Hb4. geometry Hb4.
  cbv zeta in Hc4. rewrite En, Eo, Er, El in Hc4.
  pose proof (scroll_down_line (content_length e) (octets_per_line e)
                (screen_rows e) (line e) Hrows Hopl Hl Hln) as Hdown.
  pose proof (scroll_up_line (content_length e) (octets_per_line e)
                (screen_rows e) (line e) Hopl Hl Hln) as Hup.
  cbv zeta in Hdown, Hup.
  set (e4 := scroll_rows e3) in *. clearbody e4.
  assert (Hs4 : (1 <= cursor_x e4 <= octets_per_line e
                 /\ 1 <= cursor_y e4 <= screen_rows e - 1)
                /\ 0 <= line e4 <= line e + 1
                /\ line e4 * octets_per_line e < content_length e).
  { destruct Hc4 as [(? & ? & ->) | [(? & ? & ? & ? & ->) | (? & ? & ? & ->)]].
    - split; [clear - Hs3 Hx4 H H0 Hrows; lia|]. exact Hdown.
    - split; [clear - Hs3 Hx4 H2 Hrows; lia|].
      destruct Hup as [Hup1 Hup2]. split; [clear - Hup1; lia|exact Hup2].
    - split; [clear - Hs3 Hx4 H H0 H1 Hl; lia|].
      split; [clear - Hl; lia|exact Hln]. }
  clear Hc4 Hs3 Hdown Hup Hx4.
  assert (He4 : content_length e4 = content_length e
                /\ octets_per_line e4 = octets_per_line e
                /\ screen_rows e4 = screen_rows e)
    by (clear - En Eo Er Hn3 Ho2 Hr2; lia).
  destruct He4 as (En4 & Eo4 & Er4).
  destruct Hs4 as (Hin4 & Hl4 & Hln4).
  (* the end *)
  apply stop_at_end_in_bounds; rewrite ?En4, ?Eo4, ?Er4.
  - exact Hoi.
  - clear - Hl4 Hlmax Hni. int_bounds. lia.
  - exact Hni.
  - unfold cursor_in_bounds. rewrite Eo4, Er4. exact Hin4.
  - clear - Hl4. lia.
  - exact Hln4.
  - unfold raw_offset. rewrite Eo4.
    assert ((cursor_y e4 - 1 + line e4) * octets_per_line e
            <= (screen_rows e + line e - 1) * octets_per_line e)
      by (apply Z.mul_le_mono_nonneg_r; clear - Hin4 Hl4 Hopl; lia).
    clear - H Hin4 Hfit. int_bounds. lia.
Qed.

Lemma move_cursor_in_bounds_witness :
  cursor_in_bounds
    (editor_move_cursor (editor_at 16 24 (replicate 1000 0) 2 16 23 MODE_NORMAL)
       KEY_RIGHT 1).
Proof.
  apply (move_cursor_in_bounds
           (editor_at 16 24 (replicate 1000 0) 2 16 23 MODE_NORMAL) KEY_RIGHT).
  - vm_compute. reflexivity.
  - vm_compute. discriminate.
  - simpl. lia.
  - simpl. lia.
  - unfold cursor_in_bounds. simpl. lia.
  - simpl. lia.
  - vm_compute. reflexivity.
  - right. right. right. reflexivity.
Defined.

(** C10, as stated, fails in three ways.  The states below satisfy its
    hypotheses.  On an empty buffer a step right from the origin leaves
    column 0.  With the line beyond the end of a buffer of 10 bytes the same
    step leaves row -4.  In a terminal of two rows, on a buffer of exactly
    one line, a step down leaves row 0. *)
Lemma move_cursor_leaves_screen :
  (let e := editor_at 16 24 [] 0 1 1 MODE_NORMAL in
   cursor_in_bounds e /\ 0 <= line e /\ 1 <= octets_per_line e /\
   2 <= screen_rows e /\
   cursor_x (editor_move_cursor e KEY_RIGHT 1) = 0 /\
   ~ cursor_in_bounds (editor_move_cursor e KEY_RIGHT 1)) /\
  (let e := editor_at 16 24 (replicate 10 0) 5 1 1 MODE_NORMAL in
   cursor_in_bounds e /\ 0 <= line e /\ 1 <= octets_per_line e /\
   2 <= screen_rows e /\
   cursor_y (editor_move_cursor e KEY_RIGHT 1) = -4 /\
   ~ cursor_in_bounds (editor_move_cursor e KEY_RIGHT 1)) /\
  (let e := editor_at 16 2 (replicate 16 0) 0 1 1 MODE_NORMAL in
   cursor_in_bounds e /\ 0 <= line e /\ 1 <= octets_per_line e /\
   2 <= screen_rows e /\
   cursor_y (editor_move_cursor e KEY_DOWN 1) = 0 /\
   ~ cursor_in_bounds (editor_move_cursor e KEY_DOWN 1)).
Proof.
  assert (H1 : cursor_x (editor_move_cursor
                           (editor_at 16 24 [] 0 1 1 MODE_NORMAL) KEY_RIGHT 1)
               = 0) by (vm_compute; reflexivity).
  assert (H2 : cursor_y (editor_move_cursor
                           (editor_at 16 24 (replicate 10 0) 5 1 1 MODE_NORMAL)
                           KEY_RIGHT 1) = -4) by (vm_compute; reflexivity).
  assert (H3 : cursor_y (editor_move_cursor
                           (editor_at 16 2 (replicate 16 0) 0 1 1 MODE_NORMAL)
                           KEY_DOWN 1) = 0) by (vm_compute; reflexivity).
  unfold cursor_in_bounds. cbv zeta. rewrite H1, H2, H3.
  cbn [editor_at cursor_x cursor_y line octets_per_line screen_rows].
  repeat split; try lia.
Qed.

(** ** Deleting the last byte *)

(** The last block leaves a cursor that is on a byte where it is. *)
Lemma stop_at_end_on_byte (e : editor) :
  CInt.in_int (octets_per_line e) -> CInt.in_int (content_length e) ->
  cursor_in_bounds e -> 0 <= line e ->
  0 <= raw_offset e <= content_length e - 1 ->
  cursor_x (stop_at_end e) = cursor_x e /\
  cursor_y (stop_at_end e) = cursor_y e /\
  line (stop_at_end e) = line e.
Proof.
  intros Hoi Hni Hin Hl Hr.
  destruct (cursor_on_byte e Hoi Hni Hin Hl Hr) as [Hoff Hback].
  destruct (stop_at_end_spec e ltac:(int_bounds; lia)) as (Hline & Hc).
  cbv zeta in Hc. rewrite Hoff, Hback in Hc.
  destruct Hc as [[_ Hc] | (_ & Hx & Hy)]; [|auto].
  apply pair_equal_spec in Hc. destruct Hc. auto.
Qed.

(** A step left from the position just after the last byte: the cursor
    steps left and is then on a byte. *)
Lemma step_cursor_left (e : editor) :
  CInt.in_int (cursor_x e - 1) ->
  step_cursor e KEY_LEFT 1 = set_cursor_x (cursor_x e - 1) e.
Proof.
  intros H. unfold step_cursor. cbn [Z.eqb Pos.eqb KEY_LEFT KEY_UP KEY_DOWN].
  rewrite sub_exact by exact H. reflexivity.
Qed.

Lemma move_left_from_end (e : editor) :
  CInt.in_int (octets_per_line e) -> CInt.in_int (screen_rows e) ->
  CInt.in_int (content_length e) -> content_length e < CInt.INT_MAX ->
  cursor_in_bounds e -> 0 <= line e ->
  1 <= content_length e ->
  raw_offset e = content_length e ->
  scrolls_one_line_up e ->
  let e' := editor_move_cursor e KEY_LEFT 1 in
  stepped_left e e' /\ raw_offset e' = content_length e - 1.
Proof.
  intros Hoi Hri Hni Hmax [Hx Hy] Hl Hn Hraw Hjump. cbv zeta.
  unfold stepped_left. unfold raw_offset in Hraw |- *.
  assert (Hrows : 2 <= screen_rows e) by lia.
  assert (Hopl : 1 <= octets_per_line e) by lia.
  assert (Hlb : line e <= content_length e) by nia.
  int_bounds.
  pose proof (same_buffer_move_cursor e KEY_LEFT 1) as Hfinal.
  geometry Hfinal. rewrite Ho. clear Hn0 Ho Hr.
  unfold editor_move_cursor. cbv zeta.
  (* the switch *)
  assert (Hx1 : cursor_x (step_cursor e KEY_LEFT 1) = cursor_x e - 1)
    by (rewrite step_cursor_left by (int_bounds; lia); reflexivity).
  assert (Hy1 : cursor_y (step_cursor e KEY_LEFT 1) = cursor_y e)
    by (rewrite step_cursor_left by (int_bounds; lia); reflexivity).
  assert (Hl1 : line (step_cursor e KEY_LEFT 1) = line e)
    by (rewrite step_cursor_left by (int_bounds; lia); reflexivity).
  pose proof (same_buffer_step_cursor e KEY_LEFT 1) as Hb1. geometry Hb1.
  set (e1 := step_cursor e KEY_LEFT 1) in *. clearbody e1.
  destruct (at_file_start e1) eqn:Hstart; unfold at_file_start in Hstart.
  { rewrite !andb_true_iff, !Z.leb_le, Hx1, Hy1, Hl1 in Hstart. fields.
    rewrite Hl1. clear - Hstart Hx Hy Hl Hraw Hn Hopl. nia. }
  rewrite !andb_false_iff, !Z.leb_gt, Hx1, Hy1, Hl1 in Hstart.
  (* the columns, the top, the rows *)
  destruct (wrap_columns_spec e1) as (Hl2 & Hc2);
    try (intros Hp; int_bounds; clear - Hp Hx1 Hy1 Hy Hri; lia).
  rewrite Hx1, Hy1, Ho in Hc2.
  pose proof (same_buffer_wrap_columns e1) as Hb2. geometry Hb2.
  set (e2 := wrap_columns e1) in *. clearbody e2.
  destruct (stop_at_top_spec e2) as (Hl3 & Hx3 & Hc3).
  pose proof (same_buffer_stop_at_top e2) as Hb3. geometry Hb3.
  set (e3 := stop_at_top e2) in *. clearbody e3.
  assert (He3 : content_length e3 = content_length e
                /\ octets_per_line e3 = octets_per_line e
                /\ screen_rows e3 = screen_rows e /\ line e3 = line e)
    by (clear - Hl1 Hl2 Hl3 Hn0 Hn1 Hn2 Ho Ho0 Ho1 Hr Hr0 Hr1; lia).
  destruct He3 as (En & Eo & Er & El).
  destruct (scroll_rows_spec e3) as (Hx4 & Hc4);
    try (rewrite ?En, ?Eo, ?Er, ?El; int_bounds;
         clear - Hn Hni Hopl Hrows Hri Hl Hlb Hmax; lia).
  cbv zeta in Hc4. rewrite En, Eo, Er, El in Hc4.
  pose proof (same_buffer_scroll_rows e3) as Hb4. geometry Hb4.
  set (e4 := scroll_rows e3) in *. clearbody e4.
  assert (He4 : content_length e4 = content_length e
                /\ octets_per_line e4 = octets_per_line e
                /\ screen_rows e4 = screen_rows e)
    by (clear - En Eo Er Hn3 Ho2 Hr2; lia).
  destruct He4 as (En4 & Eo4 & Er4).
  (* where the cursor is before the last block *)
  assert (Hcase : 1 < cursor_x e \/ cursor_x e = 1 /\ 1 < cursor_y e
                  \/ cursor_x e = 1 /\ cursor_y e = 1 /\ 0 < line e)
    by (clear - Hstart Hx Hy Hl; lia).
  assert (Hs4 :
      (1 < cursor_x e /\ cursor_x e4 = cursor_x e - 1
         /\ cursor_y e4 = cursor_y e /\ line e4 = line e \/
       cursor_x e = 1 /\ 1 < cursor_y e /\ cursor_x e4 = octets_per_line e
         /\ cursor_y e4 = cursor_y e - 1 /\ line e4 = line e \/
       cursor_x e = 1 /\ cursor_y e = 1 /\ cursor_x e4 = octets_per_line e
         /\ cursor_y e4 = 1 /\ line e4 = line e - 1)
      /\ 0 <= line e4).
  { destruct Hcase as [HA | [HB | HC]].
    - assert (S2 : cursor_x e2 = cursor_x e - 1 /\ cursor_y e2 = cursor_y e)
        by (clear - Hc2 HA Hx; lia).
      assert (S3 : cursor_y e3 = cursor_y e)
        by (clear - Hc3 S2 Hy; lia).
      assert (S4 : cursor_y e4 = cursor_y e /\ line e4 = line e)
        by (clear - Hc4 S3 Hy; lia).
      split; [left|]; clear - HA S2 Hx3 Hx4 S4 Hl; lia.
    - assert (S2 : cursor_x e2 = octets_per_line e
                   /\ cursor_y e2 = cursor_y e - 1)
        by (clear - Hc2 HB Hopl; lia).
      assert (S3 : cursor_y e3 = cursor_y e - 1)
        by (clear - Hc3 S2 HB; lia).
      assert (S4 : cursor_y e4 = cursor_y e - 1 /\ line e4 = line e)
        by (clear - Hc4 S3 HB Hy; lia).
      split; [right; left|]; clear - HB S2 Hx3 Hx4 S4 Hl; lia.
    - assert (S2 : cursor_x e2 = octets_per_line e /\ cursor_y e2 = 0)
        by (clear - Hc2 HC Hopl; lia).
      assert (S3 : cursor_y e3 = 0)
        by (clear - Hc3 S2 HC Hl2 Hl1; lia).
      assert (Hq : content_length e / octets_per_line e = line e).
      { replace (content_length e) with (line e * octets_per_line e)
          by (clear - Hraw HC; nia).
        apply Z.div_mul. clear - Hopl. lia. }
      rewrite Hq in Hc4.
      assert (Hone : line e <= 1 \/ screen_rows e <= 3)
        by (apply Hjump; apply HC).
      assert (S4 : cursor_y e4 = 1 /\ line e4 = line e - 1)
        by (clear - Hc4 S3 HC Hrows Hone; lia).
      split; [right; right|]; clear - HC S2 Hx3 Hx4 S4; lia. }
  destruct Hs4 as [Hs4 Hl4].
  clear Hstart Hc2 Hc3 Hc4.
  assert (Hlast : raw_offset e4 = content_length e4 - 1).
  { unfold raw_offset. rewrite Eo4, En4.
    clear - Hs4 Hraw Hx Hy Hl Hopl Hn. nia. }
  assert (Hon : 0 <= raw_offset e4 <= content_length e4 - 1)
    by (rewrite Hlast, En4; clear - Hn; lia).
  destruct (stop_at_end_on_byte e4) as (Fx & Fy & Fl).
  { rewrite Eo4. exact Hoi. }
  { rewrite En4. exact Hni. }
  { unfold cursor_in_bounds. rewrite Eo4, Er4.
    clear - Hs4 Hx Hy Hopl Hrows. lia. }
  { exact Hl4. }
  { exact Hon. }
  rewrite Fx, Fy, Fl. split; [exact Hs4|].
  unfold raw_offset in Hlast. rewrite Eo4, En4 in Hlast. exact Hlast.
Qed.

(** [memmove] of the empty tail after the last byte, and the [realloc]
    that drops that byte. *)
Lemma memmove_last (p : list Z) :
  (1 <= length p)%nat ->
  memmove p (Z.of_nat (length p) - 1) (Z.of_nat (length p) - 1 + 1) 0 = Some p.
Proof.
  intros H. unfold memmove.
  replace ((0 <=? Z.of_nat (length p) - 1)
           && (0 <=? Z.of_nat (length p) - 1 + 1) && (0 <=? 0)
           && (Z.of_nat (length p) - 1 + 0 <=? Z.of_nat (length p))
           && (Z.of_nat (length p) - 1 + 1 + 0 <=? Z.of_nat (length p)))
    with true.
  2: { symmetry. rewrite !andb_true_iff, !Z.leb_le. lia. }
  rewrite Z.add_0_r. change (Z.to_nat 0) with 0%nat. rewrite take_0.
  cbn [app]. rewrite take_drop. reflexivity.
Qed.

Lemma realloc_shrink_one (w : world) (p : list Z) :
  (1 <= length p)%nat ->
  realloc w p (Z.of_nat (length p) - 1)
    = Some (take (Z.to_nat (Z.of_nat (length p) - 1)) p).
Proof.
  intros H. unfold realloc.
  destruct (Z.ltb_spec (Z.of_nat (length p) - 1) 0); [lia|].
  replace (Z.to_nat (Z.of_nat (length p) - 1) - length p)%nat with 0%nat by lia.
  cbn [replicate]. rewrite app_nil_r. reflexivity.
Qed.

(** The state after the deletion of the last byte, before the cursor is
    moved. *)
Lemma delete_last_byte_state (w : world) (e : editor) :
  CInt.in_int (content_length e) -> length_ok e ->
  1 <= content_length e ->
  editor_offset_at_cursor e = content_length e - 1 ->
  editor_delete_char_at_cursor w e =
    Some (editor_move_cursor
            (set_content_length (content_length e - 1)
               (set_contents
                  (take (Z.to_nat (content_length e - 1)) (contents e)) e))
            KEY_LEFT 1).
Proof.
  unfold length_ok. intros Hni Hlen Hn Hoff.
  unfold editor_delete_char_at_cursor. cbv zeta. rewrite Hoff.
  destruct (Z.leb_spec (content_length e) 0); [lia|].
  rewrite (sub_exact (content_length e) (content_length e - 1))
    by (int_bounds; lia).
  replace (content_length e - (content_length e - 1)) with 1 by lia.
  change (1 -i 1) with (CInt.wrap 0). change (CInt.wrap 0) with 0.
  rewrite (sub_exact (content_length e) 1) by (int_bounds; lia).
  rewrite Hlen. rewrite memmove_last by lia. cbn [mbind option_bind].
  rewrite realloc_shrink_one by lia. cbn [mbind option_bind]. fields.
  rewrite <- Hlen. rewrite (sub_exact (content_length e) 1) by (int_bounds; lia).
  destruct (Z.geb_spec (content_length e - 1) (content_length e - 1)); [|lia].
  reflexivity.
Qed.

(** C5, as the code has it.  The cursor on the last byte of a buffer of
    [n >= 1] bytes: [editor_delete_char_at_cursor] removes that byte and no
    other, and [content_length] is [n - 1].  With [n >= 2] the cursor steps
    left, by one column or to the last column of the row above, and is then
    on the last byte of the new buffer; from the top left position of the
    screen the row above comes into view by a scroll of one line, which is
    what happens in a terminal of at most three rows or from line 1.  With
    [n = 1] the buffer becomes empty and the cursor stays at the top left. *)
Theorem delete_last_byte (w : world) (e : editor) :
  well_typed e = true -> length_ok e ->
  cursor_in_bounds e -> 0 <= line e ->
  1 <= content_length e ->
  raw_offset e = content_length e - 1 ->
  exists e',
    editor_delete_char_at_cursor w e = Some e' /\
    content_length e' = content_length e - 1 /\
    contents e' = take (Z.to_nat (content_length e - 1)) (contents e) /\
    length_ok e' /\
    (2 <= content_length e -> scrolls_one_line_up e ->
     stepped_left e e' /\ raw_offset e' = raw_offset e - 1 /\
     raw_offset e' = content_length e' - 1) /\
    (content_length e = 1 ->
     cursor_x e' = 1 /\ cursor_y e' = 1 /\ line e' = 0).
Proof.
  intros Hwt Hlen Hin Hl Hn Hraw.
  destruct (well_typed_spec e Hwt)
    as (Hoi & _ & _ & Hli & _ & _ & Hri & _ & Hni & _).
  destruct (cursor_on_byte e Hoi Hni Hin Hl ltac:(lia)) as [Hoff _].
  rewrite Hraw in Hoff.
  rewrite (delete_last_byte_state w e Hni Hlen Hn Hoff).
  set (e0 := set_content_length (content_length e - 1)
               (set_contents
                  (take (Z.to_nat (content_length e - 1)) (contents e)) e)).
  pose proof (same_buffer_move_cursor e0 KEY_LEFT 1) as (Hc & Hlen' & _).
  eexists. split; [reflexivity|].
  split; [exact Hlen'|]. split; [exact Hc|].
  split.
  { unfold length_ok in *. rewrite Hlen', Hc. unfold e0. fields.
    rewrite length_take. lia. }
  split.
  - intros H2 Hjump.
    destruct (move_left_from_end e0) as [Hstep Hon]; unfold e0; fields;
      try assumption; try (int_bounds; lia).
    split; [exact Hstep|].
    fold e0. rewrite Hlen'. change (content_length e0) with (content_length e - 1).
    split; [rewrite Hraw|]; exact Hon.
  - intros H1. destruct Hin as [Hx Hy]. unfold raw_offset in Hraw.
    assert (Hpos : cursor_x e = 1 /\ cursor_y e = 1 /\ line e = 0) by nia.
    destruct Hpos as (Hcx & Hcy & Hline).
    unfold editor_move_cursor. cbv zeta.
    rewrite step_cursor_left by (unfold e0; fields; int_bounds; lia).
    unfold at_file_start, e0. fields. rewrite Hcx, Hcy, Hline.
    cbn. auto.
Qed.

Lemma delete_last_byte_witness :
  (let e := editor_at 16 24 (replicate 33 7) 0 1 3 MODE_NORMAL in
   exists e',
     editor_delete_char_at_cursor calm_world e = Some e' /\
     content_length e' = 32 /\ cursor_x e' = 16 /\ cursor_y e' = 2 /\
     line e' = 0 /\ raw_offset e' = 31) /\
  (let e := editor_at 16 3 (replicate 81 7) 5 1 1 MODE_NORMAL in
   exists e',
     editor_delete_char_at_cursor calm_world e = Some e' /\
     content_length e' = 80 /\ cursor_x e' = 16 /\ cursor_y e' = 1 /\
     line e' = 4 /\ raw_offset e' = 79).
Proof.
  split; intros e.
  - destruct (delete_last_byte calm_world e)
      as (e' & H1 & H2 & _ & _ & H5 & _).
    + vm_compute. reflexivity.
    + reflexivity.
    + unfold cursor_in_bounds. simpl. lia.
    + simpl. lia.
    + simpl. lia.
    + reflexivity.
    + exists e'. split; [exact H1|]. split; [exact H2|].
      destruct H5 as (Hstep & _ & Hlast).
      * simpl. lia.
      * unfold scrolls_one_line_up. simpl. lia.
      * rewrite H2 in Hlast. unfold stepped_left in Hstep. simpl in Hstep.
        simpl in Hlast. lia.
  - destruct (delete_last_byte calm_world e)
      as (e' & H1 & H2 & _ & _ & H5 & _).
    + vm_compute. reflexivity.
    + reflexivity.
    + unfold cursor_in_bounds. simpl. lia.
    + simpl. lia.
    + simpl. lia.
    + reflexivity.
    + exists e'. split; [exact H1|]. split; [exact H2|].
      destruct H5 as (Hstep & _ & Hlast).
      * simpl. lia.
      * unfold scrolls_one_line_up. simpl. lia.
      * rewrite H2 in Hlast. unfold stepped_left in Hstep. simpl in Hstep.
        simpl in Hlast. lia.
Defined.

(** C5, as stated, fails in three ways.  On a buffer of one byte the byte
    is removed, the cursor stays at the top left (it has not stepped left),
    and the offset of the cursor, 0, is not an offset of the buffer, which is
    empty.  When the offset of the cursor is the last one only because it was
    clamped, with 20 bytes and the cursor in column 16 of row 2, the last byte
    is removed and the cursor goes to column 3, on the new last byte.  With
    the last byte in the top left position of a screen of 24 rows, 641 bytes
    and line 40 (the state after [G] and 359 times [x] on 1000 bytes), the
    byte is removed and the screen scrolls up by 22 lines, to line 18: the
    cursor is on offset 303, 336 bytes before the new last byte. *)
Lemma delete_last_byte_not_one_step :
  (let e := editor_at 16 24 [65] 0 1 1 MODE_NORMAL in
   editor_offset_at_cursor e = content_length e - 1 /\
   0 < content_length e /\
   match editor_delete_char_at_cursor calm_world e with
   | Some e' =>
       content_length e' = 0 /\ contents e' = [] /\
       cursor_x e' = cursor_x e /\ cursor_y e' = cursor_y e /\
       line e' = line e /\
       ~ stepped_left e e' /\
       ~ raw_offset e' <= content_length e' - 1
   | None => False
   end) /\
  (let e := editor_at 16 24 (replicate 20 7) 0 16 2 MODE_NORMAL in
   editor_offset_at_cursor e = content_length e - 1 /\
   0 < content_length e /\
   match editor_delete_char_at_cursor calm_world e with
   | Some e' =>
       content_length e' = 19 /\
       cursor_x e = 16 /\ cursor_y e = 2 /\
       cursor_x e' = 3 /\ cursor_y e' = 2 /\
       ~ stepped_left e e'
   | None => False
   end) /\
  (let e := editor_at 16 24 (replicate 641 7) 40 1 1 MODE_NORMAL in
   editor_offset_at_cursor e = content_length e - 1 /\
   raw_offset e = content_length e - 1 /\
   0 < content_length e /\
   match editor_delete_char_at_cursor calm_world e with
   | Some e' =>
       content_length e' = 640 /\
       cursor_x e' = 16 /\ cursor_y e' = 1 /\ line e' = 18 /\
       raw_offset e' = 303 /\
       ~ stepped_left e e'
   | None => False
   end).
Proof.
  split; [|split].
  - intros e. split; [reflexivity|]. split; [reflexivity|].
    let r := eval vm_compute in (editor_delete_char_at_cursor calm_world e) in
    assert (Hd : editor_delete_char_at_cursor calm_world e = r)
      by (vm_compute; reflexivity).
    rewrite Hd. unfold stepped_left, raw_offset, e.
    cbn [editor_at cursor_x cursor_y line content_length contents
         octets_per_line length Z.of_nat].
    repeat split; try reflexivity; lia.
  - intros e. split; [reflexivity|]. split; [reflexivity|].
    let r := eval vm_compute in (editor_delete_char_at_cursor calm_world e) in
    assert (Hd : editor_delete_char_at_cursor calm_world e = r)
      by (vm_compute; reflexivity).
    rewrite Hd. unfold stepped_left, e.
    cbn [editor_at cursor_x cursor_y line content_length contents
         octets_per_line].
    repeat split; try reflexivity; lia.
  - intros e.
    split; [vm_compute; reflexivity|]. split; [vm_compute; reflexivity|].
    split; [vm_compute; reflexivity|].
    let r := eval vm_compute in (editor_delete_char_at_cursor calm_world e) in
    assert (Hd : editor_delete_char_at_cursor calm_world e = r)
      by (vm_compute; reflexivity).
    rewrite Hd. unfold stepped_left, raw_offset, e.
    cbn [editor_at cursor_x cursor_y line content_length contents
         octets_per_line].
    repeat split; try reflexivity; lia.
Qed.

(** ** A step to the right *)

Lemma step_cursor_right (e : editor) :
  CInt.in_int (cursor_x e + 1) ->
  step_cursor e KEY_RIGHT 1 = set_cursor_x (cursor_x e + 1) e.
Proof.
  intros H. unfold step_cursor.
  cbn [Z.eqb Pos.eqb KEY_RIGHT KEY_LEFT KEY_UP KEY_DOWN].
  rewrite add_exact by exact H. reflexivity.
Qed.

(** A step right from a byte that is not the last one, the cursor not in
    the bottom right corner of the screen: the cursor steps right, and is on
    the next byte. *)
Lemma move_right_on_byte (e : editor) :
  CInt.in_int (octets_per_line e) -> CInt.in_int (screen_rows e) ->
  CInt.in_int (content_length e) ->
  cursor_in_bounds e -> 0 <= line e ->
  raw_offset e + 1 <= content_length e - 1 ->
  cursor_x e < octets_per_line e \/ cursor_y e < screen_rows e - 1 ->
  let e' := editor_move_cursor e KEY_RIGHT 1 in
  stepped_right e e' /\ raw_offset e' = raw_offset e + 1.
Proof.
  intros Hoi Hri Hni [Hx Hy] Hl Hraw Hroom. cbv zeta.
  unfold stepped_right. unfold raw_offset in Hraw |- *.
  assert (Hopl : 1 <= octets_per_line e) by lia.
  assert (Hrows : 2 <= screen_rows e) by lia.
  assert (Hrow : 0 <= (cursor_y e - 1 + line e) * octets_per_line e) by nia.
  assert (Hlb : line e <= (cursor_y e - 1 + line e) * octets_per_line e)
    by nia.
  int_bounds.
  pose proof (same_buffer_move_cursor e KEY_RIGHT 1) as Hfinal.
  geometry Hfinal. rewrite Ho. clear Hn Ho Hr.
  unfold editor_move_cursor. cbv zeta.
  (* the switch *)
  assert (Hfit : CInt.in_int (cursor_x e + 1))
    by (int_bounds; clear - Hx Hraw Hrow Hni; lia).
  assert (Hx1 : cursor_x (step_cursor e KEY_RIGHT 1) = cursor_x e + 1)
    by (rewrite step_cursor_right by exact Hfit; reflexivity).
  assert (Hy1 : cursor_y (step_cursor e KEY_RIGHT 1) = cursor_y e)
    by (rewrite step_cursor_right by exact Hfit; reflexivity).
  assert (Hl1 : line (step_cursor e KEY_RIGHT 1) = line e)
    by (rewrite step_cursor_right by exact Hfit; reflexivity).
  pose proof (same_buffer_step_cursor e KEY_RIGHT 1) as Hb1. geometry Hb1.
  set (e1 := step_cursor e KEY_RIGHT 1) in *. clearbody e1.
  assert (Hstart : at_file_start e1 = false).
  { unfold at_file_start. rewrite Hx1.
    destruct (Z.leb_spec (cursor_x e + 1) 1); [lia|reflexivity]. }
  rewrite Hstart. clear Hstart.
  (* the columns, the top, the rows *)
  destruct (wrap_columns_spec e1) as (Hl2 & Hc2);
    try (intros Hp; int_bounds; clear - Hp Hx1 Hy1 Hy Hri; lia).
  rewrite Hx1, Hy1, Ho in Hc2.
  pose proof (same_buffer_wrap_columns e1) as Hb2. geometry Hb2.
  set (e2 := wrap_columns e1) in *. clearbody e2.
  destruct (stop_at_top_spec e2) as (Hl3 & Hx3 & Hc3).
  pose proof (same_buffer_stop_at_top e2) as Hb3. geometry Hb3.
  set (e3 := stop_at_top e2) in *. clearbody e3.
  assert (He3 : content_length e3 = content_length e
                /\ octets_per_line e3 = octets_per_line e
                /\ screen_rows e3 = screen_rows e /\ line e3 = line e)
    by (clear - Hl1 Hl2 Hl3 Hn Hn0 Hn1 Ho Ho0 Ho1 Hr Hr0 Hr1; lia).
  destruct He3 as (En & Eo & Er & El).
  destruct (scroll_rows_spec e3) as (Hx4 & Hc4);
    try (rewrite ?En, ?Eo, ?Er, ?El; int_bounds;
         clear - Hni Hopl Hrows Hri Hl Hlb Hraw Hx; lia).
  cbv zeta in Hc4. rewrite En, Eo, Er, El in Hc4.
  pose proof (same_buffer_scroll_rows e3) as Hb4. geometry Hb4.
  set (e4 := scroll_rows e3) in *. clearbody e4.
  assert (He4 : content_length e4 = content_length e
                /\ octets_per_line e4 = octets_per_line e
                /\ screen_rows e4 = screen_rows e)
    by (clear - En Eo Er Hn2 Ho2 Hr2; lia).
  destruct He4 as (En4 & Eo4 & Er4).
  (* where the cursor is before the last block *)
  assert (Hs4 :
      line e4 = line e /\
      (cursor_x e < octets_per_line e /\ cursor_x e4 = cursor_x e + 1
         /\ cursor_y e4 = cursor_y e \/
       cursor_x e = octets_per_line e /\ cursor_x e4 = 1
         /\ cursor_y e4 = cursor_y e + 1)).
  { assert (Hcase : cursor_x e < octets_per_line e
                    \/ cursor_x e = octets_per_line e
                       /\ cursor_y e < screen_rows e - 1)
      by (clear - Hroom Hx; lia).
    destruct Hcase as [HA | HB].
    - assert (S2 : cursor_x e2 = cursor_x e + 1 /\ cursor_y e2 = cursor_y e)
        by (clear - Hc2 HA Hx; lia).
      assert (S3 : cursor_y e3 = cursor_y e)
        by (clear - Hc3 S2 Hy; lia).
      assert (S4 : cursor_y e4 = cursor_y e /\ line e4 = line e)
        by (clear - Hc4 S3 Hy; lia).
      split; [tauto|]. left. clear - HA S2 Hx3 Hx4 S4. lia.
    - assert (S2 : cursor_x e2 = 1 /\ cursor_y e2 = cursor_y e + 1)
        by (clear - Hc2 HB Hopl; lia).
      assert (S3 : cursor_y e3 = cursor_y e + 1)
        by (clear - Hc3 S2 Hy; lia).
      assert (S4 : cursor_y e4 = cursor_y e + 1 /\ line e4 = line e)
        by (clear - Hc4 S3 HB Hy; lia).
      split; [tauto|]. right. clear - HB S2 Hx3 Hx4 S4. lia. }
  clear Hc2 Hc3 Hc4.
  assert (Hnext : raw_offset e4
                  = (cursor_y e - 1 + line e) * octets_per_line e
                    + (cursor_x e - 1) + 1).
  { unfold raw_offset. rewrite Eo4.
    destruct Hs4 as (-> & [(_ & -> & ->) | (Hc & -> & ->)]); [lia|].
    rewrite Hc. lia. }
  destruct (stop_at_end_on_byte e4) as (Fx & Fy & Fl).
  { rewrite Eo4. exact Hoi. }
  { rewrite En4. exact Hni. }
  { unfold cursor_in_bounds. rewrite Eo4, Er4.
    clear - Hs4 Hx Hy Hopl Hrows Hroom. lia. }
  { clear - Hs4 Hl. lia. }
  { rewrite Hnext, En4. clear - Hraw Hrow Hx. lia. }
  rewrite Fx, Fy, Fl. split; [exact Hs4|].
  unfold raw_offset in Hnext. rewrite Eo4 in Hnext. exact Hnext.
Qed.

(** The blocks of [editor_move_cursor] after the [switch], for a cursor
    that the [switch] has put one row below the screen or one row above it,
    over a byte of the buffer: the screen scrolls by one line and the cursor
    is back in the row it left. *)
Lemma settle_off_screen (e1 : editor) (d : Z) :
  CInt.in_int (octets_per_line e1) -> CInt.in_int (screen_rows e1) ->
  CInt.in_int (content_length e1) ->
  1 <= cursor_x e1 <= octets_per_line e1 -> 2 <= screen_rows e1 ->
  0 <= line e1 ->
  d = 1 /\ cursor_y e1 = screen_rows e1
  \/ d = -1 /\ cursor_y e1 = 0 /\ 1 <= line e1 /\
     line e1 - 1
       <= content_length e1 / octets_per_line e1 - (screen_rows e1 - 2) ->
  0 <= (cursor_y e1 - 1 + line e1) * octets_per_line e1 + (cursor_x e1 - 1)
    <= content_length e1 - 1 ->
  line e1 * octets_per_line e1 <= content_length e1 - 1 ->
  let e' := if at_file_start e1 then set_cursor_y 1 (set_cursor_x 1 e1)
            else stop_at_end (scroll_rows (stop_at_top (wrap_columns e1))) in
  cursor_x e' = cursor_x e1 /\ cursor_y e' = cursor_y e1 - d /\
  line e' = line e1 + d.
Proof.
  intros Hoi Hri Hni Hx Hrows Hl Hd Hraw Hlb. cbv zeta.
  assert (Hopl : 1 <= octets_per_line e1) by lia.
  assert (Hn : 1 <= content_length e1) by lia.
  assert (Hy : 0 <= cursor_y e1 <= screen_rows e1) by lia.
  assert (Hlb' : line e1 <= content_length e1 - 1) by nia.
  pose proof (Z.div_pos (content_length e1) (octets_per_line e1) ltac:(lia)
                ltac:(lia)) as Hq0.
  assert (Hdown : d = 1 ->
                  line e1 + 1
                    <= content_length e1 / octets_per_line e1
                       - (screen_rows e1 - 2)).
  { intros ->. destruct Hd as [[_ Hd]|(Hd & _)]; [|lia].
    rewrite Hd in Hraw.
    assert (screen_rows e1 - 1 + line e1
            <= content_length e1 / octets_per_line e1); [|lia].
    apply Z.div_le_lower_bound; [lia|]. nia. }
  destruct (at_file_start e1) eqn:Hstart; unfold at_file_start in Hstart.
  { rewrite !andb_true_iff, !Z.leb_le in Hstart. clear - Hstart Hd Hrows. lia. }
  clear Hstart.
  destruct (wrap_columns_spec e1) as (Hl2 & Hc2);
    try (intros Hp; int_bounds; clear - Hp Hx Hy Hri; lia).
  pose proof (same_buffer_wrap_columns e1) as Hb2. geometry Hb2.
  set (e2 := wrap_columns e1) in *. clearbody e2.
  destruct (stop_at_top_spec e2) as (Hl3 & Hx3 & Hc3).
  pose proof (same_buffer_stop_at_top e2) as Hb3. geometry Hb3.
  set (e3 := stop_at_top e2) in *. clearbody e3.
  assert (He3 : content_length e3 = content_length e1
                /\ octets_per_line e3 = octets_per_line e1
                /\ screen_rows e3 = screen_rows e1 /\ line e3 = line e1)
    by (clear - Hl2 Hl3 Hn0 Hn1 Ho Ho0 Hr Hr0; lia).
  destruct He3 as (En & Eo & Er & El).
  destruct (scroll_rows_spec e3) as (Hx4 & Hc4);
    try (rewrite ?En, ?Eo, ?Er, ?El; int_bounds;
         clear - Hni Hopl Hrows Hri Hl Hlb' Hn; lia).
  cbv zeta in Hc4. rewrite En, Eo, Er, El in Hc4.
  pose proof (same_buffer_scroll_rows e3) as Hb4. geometry Hb4.
  set (e4 := scroll_rows e3) in *. clearbody e4.
  assert (He4 : content_length e4 = content_length e1
                /\ octets_per_line e4 = octets_per_line e1
                /\ screen_rows e4 = screen_rows e1)
    by (clear - En Eo Er Hn2 Ho1 Hr1; lia).
  destruct He4 as (En4 & Eo4 & Er4).
  assert (S2 : cursor_x e2 = cursor_x e1 /\ cursor_y e2 = cursor_y e1)
    by (clear - Hc2 Hx; lia).
  assert (S3 : cursor_y e3 = cursor_y e1)
    by (clear - Hc3 S2 Hd Hrows Hl2; lia).
  assert (S4 : cursor_y e4 = cursor_y e1 - d /\ line e4 = line e1 + d)
    by (clear - Hc4 S3 Hd Hdown Hrows Hl Hq0; lia).
  assert (Sx : cursor_x e4 = cursor_x e1) by (clear - S2 Hx3 Hx4; lia).
  clear Hc2 Hc3 Hc4.
  destruct (stop_at_end_on_byte e4) as (Fx & Fy & Fl).
  { rewrite Eo4. exact Hoi. }
  { rewrite En4. exact Hni. }
  { unfold cursor_in_bounds. rewrite Eo4, Er4.
    clear - S4 Sx Hx Hd Hrows. lia. }
  { clear - S4 Hl Hd. lia. }
  { unfold raw_offset. rewrite Eo4, En4.
    destruct S4 as [-> ->]. rewrite Sx.
    replace (cursor_y e1 - d - 1 + (line e1 + d))
      with (cursor_y e1 - 1 + line e1) by lia.
    exact Hraw. }
  rewrite Fx, Fy, Fl. clear - S4 Sx. lia.
Qed.

(** A step right from the bottom right corner of the screen, from a byte
    that is not the last one: the screen scrolls down by one line and the
    cursor is in column 1 of the bottom row, on the next byte. *)
Lemma move_right_at_corner (e : editor) :
  CInt.in_int (octets_per_line e) -> CInt.in_int (screen_rows e) ->
  CInt.in_int (content_length e) ->
  cursor_in_bounds e -> 0 <= line e ->
  raw_offset e + 1 <= content_length e - 1 ->
  cursor_x e = octets_per_line e -> cursor_y e = screen_rows e - 1 ->
  let e' := editor_move_cursor e KEY_RIGHT 1 in
  cursor_x e' = 1 /\ cursor_y e' = cursor_y e /\ line e' = line e + 1.
Proof.
  intros Hoi Hri Hni [Hx Hy] Hl Hraw Hcx Hcy. cbv zeta.
  unfold raw_offset in Hraw.
  assert (Hopl : 1 <= octets_per_line e) by lia.
  assert (Hrows : 2 <= screen_rows e) by lia.
  assert (Hrow : 0 <= (cursor_y e - 1 + line e) * octets_per_line e) by nia.
  unfold editor_move_cursor. cbv zeta.
  rewrite step_cursor_right by (int_bounds; clear - Hx Hraw Hrow Hni; lia).
  set (e2 := set_cursor_x 1
               (set_cursor_y (cursor_y e + 1)
                  (set_cursor_x (cursor_x e + 1) e))).
  assert (Hstart : at_file_start (set_cursor_x (cursor_x e + 1) e) = false).
  { unfold at_file_start. fields.
    destruct (Z.leb_spec (cursor_x e + 1) 1); [lia|reflexivity]. }
  rewrite Hstart.
  assert (Hwrap : wrap_columns (set_cursor_x (cursor_x e + 1) e) = e2).
  { unfold wrap_columns. fields.
    destruct (Z.ltb_spec (cursor_x e + 1) 1); [lia|].
    rewrite Z.gtb_ltb.
    destruct (Z.ltb_spec (octets_per_line e) (cursor_x e + 1)); [|lia].
    rewrite add_exact by (int_bounds; lia). reflexivity. }
  rewrite Hwrap.
  assert (Hstart2 : at_file_start e2 = false).
  { unfold at_file_start, e2. fields.
    destruct (Z.leb_spec (cursor_y e + 1) 1); [lia|].
    rewrite andb_false_r. reflexivity. }
  assert (Hwrap2 : wrap_columns e2 = e2).
  { unfold wrap_columns, e2. fields.
    destruct (Z.ltb_spec 1 1); [lia|].
    rewrite Z.gtb_ltb.
    destruct (Z.ltb_spec (octets_per_line e) 1); [lia|]. reflexivity. }
  pose proof (settle_off_screen e2 1) as Hs. cbv zeta in Hs.
  rewrite Hstart2, Hwrap2 in Hs.
  destruct Hs as (Fx & Fy & Fl); unfold e2; fields; try assumption;
    try lia.
  unfold e2 in Fx, Fy, Fl. fields. rewrite Fx, Fy, Fl. lia.
Qed.

(** A step right from the last byte of the buffer: the cursor stays on that
    byte.  In the bottom right corner of the screen the screen scrolls down
    by one line all the same, and the byte is then one row higher. *)
Lemma move_right_on_last_byte (e : editor) :
  CInt.in_int (octets_per_line e) -> CInt.in_int (screen_rows e) ->
  CInt.in_int (content_length e) -> offsets_fit e ->
  cursor_in_bounds e -> 0 <= line e ->
  raw_offset e = content_length e - 1 ->
  let e' := editor_move_cursor e KEY_RIGHT 1 in
  raw_offset e' = raw_offset e /\ cursor_x e' = cursor_x e /\
  (cursor_x e < octets_per_line e \/ cursor_y e < screen_rows e - 1 ->
   cursor_y e' = cursor_y e /\ line e' = line e) /\
  (cursor_x e = octets_per_line e -> cursor_y e = screen_rows e - 1 ->
   cursor_y e' = cursor_y e - 1 /\ line e' = line e + 1).
Proof.
  intros Hoi Hri Hni Hfit [Hx Hy] Hl Hraw. cbv zeta.
  unfold offsets_fit in Hfit.
  assert (Hopl : 1 <= octets_per_line e) by lia.
  assert (Hrows : 2 <= screen_rows e) by lia.
  assert (Hrow : 0 <= (cursor_y e - 1 + line e) * octets_per_line e) by nia.
  assert (Hlb : line e <= (cursor_y e - 1 + line e) * octets_per_line e)
    by nia.
  assert (Hmax : (cursor_y e + 1 + line e) * octets_per_line e
                 <= CInt.INT_MAX).
  { assert ((cursor_y e + 1 + line e) * octets_per_line e
            <= (screen_rows e + line e) * octets_per_line e)
      by (apply Z.mul_le_mono_nonneg_r; lia).
    lia. }
  assert (Hn : 1 <= content_length e) by (unfold raw_offset in Hraw; lia).
  assert (Hq : (content_length e - 1) / octets_per_line e
               = cursor_y e - 1 + line e
               /\ (content_length e - 1) mod octets_per_line e
                  = cursor_x e - 1).
  { rewrite <- Hraw. unfold raw_offset. apply row_col_of_offset. lia. }
  destruct Hq as [Hqd Hqm].
  unfold raw_offset in Hraw.
  pose proof (same_buffer_move_cursor e KEY_RIGHT 1) as Hfinal.
  geometry Hfinal. unfold raw_offset. rewrite Ho. clear Hn0 Ho Hr.
  unfold editor_move_cursor. cbv zeta.
  assert (Hfitx : CInt.in_int (cursor_x e + 1))
    by (int_bounds; clear - Hx Hmax Hy Hl Hopl; nia).
  assert (Hx1 : cursor_x (step_cursor e KEY_RIGHT 1) = cursor_x e + 1)
    by (rewrite step_cursor_right by exact Hfitx; reflexivity).
  assert (Hy1 : cursor_y (step_cursor e KEY_RIGHT 1) = cursor_y e)
    by (rewrite step_cursor_right by exact Hfitx; reflexivity).
  assert (Hl1 : line (step_cursor e KEY_RIGHT 1) = line e)
    by (rewrite step_cursor_right by exact Hfitx; reflexivity).
  pose proof (same_buffer_step_cursor e KEY_RIGHT 1) as Hb1. geometry Hb1.
  set (e1 := step_cursor e KEY_RIGHT 1) in *. clearbody e1.
  assert (Hstart : at_file_start e1 = false).
  { unfold at_file_start. rewrite Hx1.
    destruct (Z.leb_spec (cursor_x e + 1) 1); [lia|reflexivity]. }
  rewrite Hstart. clear Hstart.
  destruct (wrap_columns_spec e1) as (Hl2 & Hc2);
    try (intros Hp; int_bounds; clear - Hp Hx1 Hy1 Hy Hri; lia).
  rewrite Hx1, Hy1, Ho in Hc2.
  pose proof (same_buffer_wrap_columns e1) as Hb2. geometry Hb2.
  set (e2 := wrap_columns e1) in *. clearbody e2.
  destruct (stop_at_top_spec e2) as (Hl3 & Hx3 & Hc3).
  pose proof (same_buffer_stop_at_top e2) as Hb3. geometry Hb3.
  set (e3 := stop_at_top e2) in *. clearbody e3.
  assert (He3 : content_length e3 = content_length e
                /\ octets_per_line e3 = octets_per_line e
                /\ screen_rows e3 = screen_rows e /\ line e3 = line e)
    by (clear - Hl1 Hl2 Hl3 Hn0 Hn1 Hn2 Ho Ho0 Ho1 Hr Hr0 Hr1; lia).
  destruct He3 as (En & Eo & Er & El).
  destruct (scroll_rows_spec e3) as (Hx4 & Hc4);
    try (rewrite ?En, ?Eo, ?Er, ?El; int_bounds;
         clear - Hni Hopl Hrows Hri Hl Hlb Hraw Hx Hn; lia).
  cbv zeta in Hc4. rewrite En, Eo, Er, El in Hc4.
  pose proof (same_buffer_scroll_rows e3) as Hb4. geometry Hb4.
  set (e4 := scroll_rows e3) in *. clearbody e4.
  assert (He4 : content_length e4 = content_length e
                /\ octets_per_line e4 = octets_per_line e
                /\ screen_rows e4 = screen_rows e)
    by (clear - En Eo Er Hn3 Ho2 Hr2; lia).
  destruct He4 as (En4 & Eo4 & Er4).
  (* the upper limit of the scroll, for a cursor in the corner *)
  assert (Hup : cursor_x e = octets_per_line e ->
                cursor_y e = screen_rows e - 1 ->
                content_length e / octets_per_line e
                  - (screen_rows e - 2) = line e + 1).
  { intros Hcx Hcy.
    replace (content_length e)
      with ((screen_rows e - 1 + line e) * octets_per_line e)
      by (clear - Hraw Hcx Hcy; nia).
    rewrite Z.div_mul by lia. lia. }
  (* where the cursor is before the last block *)
  assert (Hs4 :
      cursor_x e < octets_per_line e /\ cursor_x e4 = cursor_x e + 1
        /\ cursor_y e4 = cursor_y e /\ line e4 = line e \/
      cursor_x e = octets_per_line e /\ cursor_y e < screen_rows e - 1
        /\ cursor_x e4 = 1 /\ cursor_y e4 = cursor_y e + 1
        /\ line e4 = line e \/
      cursor_x e = octets_per_line e /\ cursor_y e = screen_rows e - 1
        /\ cursor_x e4 = 1 /\ cursor_y e4 = cursor_y e
        /\ line e4 = line e + 1).
  { assert (Hcase : cursor_x e < octets_per_line e
                    \/ cursor_x e = octets_per_line e
                       /\ cursor_y e < screen_rows e - 1
                    \/ cursor_x e = octets_per_line e
                       /\ cursor_y e = screen_rows e - 1)
      by (clear - Hx Hy; lia).
    destruct Hcase as [HA | [HB | HC]].
    - assert (S2 : cursor_x e2 = cursor_x e + 1 /\ cursor_y e2 = cursor_y e)
        by (clear - Hc2 HA Hx; lia).
      assert (S3 : cursor_y e3 = cursor_y e)
        by (clear - Hc3 S2 Hy; lia).
      assert (S4 : cursor_y e4 = cursor_y e /\ line e4 = line e)
        by (clear - Hc4 S3 Hy; lia).
      left. clear - HA S2 Hx3 Hx4 S4. lia.
    - assert (S2 : cursor_x e2 = 1 /\ cursor_y e2 = cursor_y e + 1)
        by (clear - Hc2 HB Hopl; lia).
      assert (S3 : cursor_y e3 = cursor_y e + 1)
        by (clear - Hc3 S2 Hy; lia).
      assert (S4 : cursor_y e4 = cursor_y e + 1 /\ line e4 = line e)
        by (clear - Hc4 S3 HB Hy; lia).
      right. left. clear - HB S2 Hx3 Hx4 S4. lia.
    - assert (S2 : cursor_x e2 = 1 /\ cursor_y e2 = cursor_y e + 1)
        by (clear - Hc2 HC Hopl; lia).
      assert (S3 : cursor_y e3 = cursor_y e + 1)
        by (clear - Hc3 S2 Hy; lia).
      destruct HC as [HCx HCy]. specialize (Hup HCx HCy).
      rewrite Hup in Hc4.
      assert (S4 : cursor_y e4 = cursor_y e /\ line e4 = line e + 1)
        by (clear - Hc4 S3 HCy Hy Hl; lia).
      right. right. clear - HCx HCy S2 Hx3 Hx4 S4. lia. }
  clear Hc2 Hc3 Hc4 Hup.
  assert (Hraw4 : raw_offset e4 = content_length e).
  { unfold raw_offset. rewrite Eo4.
    clear - Hs4 Hraw. nia. }
  assert (Hin4 : 1 <= cursor_x e4 /\ 1 <= cursor_y e4 /\ 0 <= line e4
                 /\ line e <= line e4 <= line e + 1)
    by (clear - Hs4 Hx Hy Hl; lia).
  (* the last block *)
  destruct (stop_at_end_spec e4) as (Fl & Fc).
  { rewrite En4. int_bounds. clear - Hni Hn. lia. }
  cbv zeta in Fc.
  pose proof (offset_at_cursor_clamp e4) as Hcl.
  rewrite En4 in Hcl. specialize (Hcl Hni Hn).
  rewrite cursor_offset_nonneg_exact in Hcl
    by (rewrite ?Eo4, ?Hraw4; int_bounds; clear - Hin4 Hopl Hni; lia).
  rewrite Hraw4 in Hcl. unfold clamp in Hcl.
  replace (Z.max 0 (Z.min (content_length e - 1) (content_length e)))
    with (content_length e - 1) in Hcl by (clear - Hn; lia).
  rewrite Hcl, En4 in Fc.
  destruct Fc as [[_ Fc] | [Fc _]]; [|clear - Fc; lia].
  rewrite cursor_at_offset_exact in Fc
    by (rewrite ?Eo4; try assumption; int_bounds;
        clear - Hin4 Hopl Hni Hn Hoi Hlb Hraw Hx; lia).
  rewrite Eo4, Hqd, Hqm in Fc.
  apply pair_equal_spec in Fc. destruct Fc as [Fx Fy].
  set (e5 := stop_at_end e4) in *. clearbody e5.
  split; [|split; [|split]].
  - rewrite Fx, Fy, Fl. clear - Hraw. lia.
  - rewrite Fx. clear. lia.
  - intros Hroom. rewrite Fy, Fl.
    assert (line e4 = line e) by (clear - Hs4 Hroom; lia).
    clear - H. lia.
  - intros Hcx Hcy. rewrite Fy, Fl.
    assert (line e4 = line e + 1) by (clear - Hs4 Hcx Hcy; lia).
    clear - H. lia.
Qed.

(** One step to the right from a byte of the buffer. *)
Lemma move_right_from_byte (e : editor) :
  well_typed e = true -> offsets_fit e ->
  cursor_in_bounds e -> 0 <= line e ->
  0 <= raw_offset e <= content_length e - 1 ->
  let e' := editor_move_cursor e KEY_RIGHT 1 in
  (raw_offset e < content_length e - 1 ->
   advanced e e' /\ raw_offset e' = raw_offset e + 1) /\
  (raw_offset e = content_length e - 1 ->
   raw_offset e' = raw_offset e /\ cursor_x e' = cursor_x e /\
   (cursor_x e < octets_per_line e \/ cursor_y e < screen_rows e - 1 ->
    cursor_y e' = cursor_y e /\ line e' = line e) /\
   (cursor_x e = octets_per_line e -> cursor_y e = screen_rows e - 1 ->
    cursor_y e' = cursor_y e - 1 /\ line e' = line e + 1)).
Proof.
  intros Hwt Hfit Hin Hl Hraw. cbv zeta.
  destruct (well_typed_spec e Hwt)
    as (Hoi & _ & _ & _ & _ & _ & Hri & _ & Hni & _).
  split.
  - intros Hnext. pose proof Hin as [Hx Hy].
    destruct (Z.eq_dec (cursor_x e) (octets_per_line e)) as [Hcx|Hcx];
      [destruct (Z.eq_dec (cursor_y e) (screen_rows e - 1)) as [Hcy|Hcy]|].
    + destruct (move_right_at_corner e Hoi Hri Hni Hin Hl ltac:(lia) Hcx Hcy)
        as (Fx & Fy & Fl).
      pose proof (same_buffer_move_cursor e KEY_RIGHT 1) as Hb. geometry Hb.
      unfold advanced, raw_offset. rewrite Fx, Fy, Fl, Ho.
      split; [right; right; auto|]. rewrite Hcx. lia.
    + destruct (move_right_on_byte e Hoi Hri Hni Hin Hl ltac:(lia)
                  ltac:(right; lia)) as [(Fl & Fc) Fr].
      split; [|exact Fr]. unfold advanced. rewrite Fl.
      destruct Fc as [Fc|Fc]; [lia|]. right. left. lia.
    + destruct (move_right_on_byte e Hoi Hri Hni Hin Hl ltac:(lia)
                  ltac:(left; lia)) as [(Fl & Fc) Fr].
      split; [|exact Fr]. unfold advanced. rewrite Fl.
      destruct Fc as [Fc|Fc]; [|lia]. left. lia.
  - intros Hlast.
    exact (move_right_on_last_byte e Hoi Hri Hni Hfit Hin Hl Hlast).
Qed.

(** ** Replace mode *)

Lemma dispatch_replace (w : world) (e : editor) (c : Z) (rest : stdin) :
  mode e = MODE_REPLACE -> global_key c = false ->
  editor_dispatch w e c rest = replace_command w e c rest.
Proof.
  intros Hm Hg. unfold global_key in Hg.
  repeat (apply orb_false_iff in Hg; destruct Hg as [Hg ?]).
  unfold editor_dispatch.
  repeat match goal with
         | H : (c =? ?k) = false |- _ => rewrite H; clear H
         end.
  cbn [orb]. rewrite Hm. reflexivity.
Qed.

Lemma process_keypress_replace (w : world) (e : editor) (inp : stdin)
    (c : Z) (rest : stdin) :
  mode e = MODE_REPLACE -> read_key w inp = Ret c rest ->
  c <> -1 -> global_key c = false ->
  editor_process_keypress w e inp = replace_command w e c rest.
Proof.
  intros Hm Hr Hc Hg. unfold editor_process_keypress. rewrite Hr.
  destruct (Z.eqb_spec c (-1)); [contradiction|].
  apply dispatch_replace; assumption.
Qed.

(** A hexadecimal digit is an ASCII character, and no key of the first
    [switch]. *)
Lemma ishex_range (c : Z) : ishex c = true -> 48 <= c <= 102.
Proof.
  unfold ishex. ch_values. rewrite !orb_true_iff, !andb_true_iff. lia.
Qed.

Lemma ishex_not_global (c : Z) : ishex c = true -> global_key c = false.
Proof.
  intros H. apply ishex_range in H. unfold global_key.
  unfold KEY_ESC, KEY_CTRL_Q, KEY_CTRL_S, KEY_UP, KEY_DOWN, KEY_RIGHT,
    KEY_LEFT, KEY_HOME, KEY_END, KEY_PAGEUP, KEY_PAGEDOWN.
  repeat match goal with
         | |- context [c =? ?k] => destruct (Z.eqb_spec c k); [lia|]
         end.
  reflexivity.
Qed.

(** C7.  In Replace mode, a key that reaches the test [ishex] and fails it
    ends the call: the status is an error and nothing else changes, the
    mode included.  This holds for the first key (one that is not bound in
    every mode) and, after a first digit, for the second key, whatever it
    is. *)
Theorem replace_invalid_hex_aborts (w : world) (e : editor) (inp : stdin)
    (c : Z) (rest : stdin) :
  mode e = MODE_REPLACE ->
  read_key w inp = Ret c rest ->
  c <> -1 -> global_key c = false ->
  (ishex (CChar.of_int c) = false ->
   exists e', editor_process_keypress w e inp = Ret e' rest /\
              replace_aborted e e') /\
  (forall next rest',
     ishex (CChar.of_int c) = true ->
     read_key w rest = Ret next rest' ->
     ishex (CChar.of_int next) = false ->
     exists e', editor_process_keypress w e inp = Ret e' rest' /\
                replace_aborted e e').
Proof.
  intros Hm Hr Hc Hg.
  rewrite (process_keypress_replace w e inp c rest Hm Hr Hc Hg).
  unfold replace_command. split.
  - intros Hx. rewrite Hx. cbn [negb].
    eexists. split; [reflexivity|].
    unfold replace_aborted, editor_statusmessage. fields.
    repeat split; try reflexivity. exact Hm.
  - intros next rest' Hx Hn Hnx. rewrite Hx. cbn [negb]. rewrite Hn, Hnx.
    cbn [negb].
    eexists. split; [reflexivity|].
    unfold replace_aborted, editor_statusmessage. fields.
    repeat split; try reflexivity. exact Hm.
Qed.

Lemma replace_invalid_hex_aborts_witness :
  let e := editor_at 16 24 [65; 66; 67] 0 2 1 MODE_REPLACE in
  (exists e', editor_process_keypress calm_world e [RByte 122; RByte 48]
              = Ret e' [RByte 48] /\ replace_aborted e e') /\
  (exists e', editor_process_keypress calm_world e [RByte 97; RByte 27]
              = Ret e' [] /\ replace_aborted e e').
Proof.
  intros e. split.
  - apply (proj1 (replace_invalid_hex_aborts calm_world e
                    [RByte 122; RByte 48] 122 [RByte 48]
                    eq_refl eq_refl ltac:(discriminate) eq_refl)).
    reflexivity.
  - apply (proj2 (replace_invalid_hex_aborts calm_world e
                    [RByte 97; RByte 27] 97 [RByte 27]
                    eq_refl eq_refl ltac:(discriminate) eq_refl)
             27 []); reflexivity.
Defined.

Lemma hex_value_range (c : Z) : ishex c = true -> 0 <= hex_value c <= 15.
Proof.
  unfold ishex, hex_value. ch_values.
  rewrite !orb_true_iff, !andb_true_iff. intros H.
  repeat match goal with
         | |- context [?a <=? ?b] => destruct (Z.leb_spec a b)
         end; cbn [andb]; lia.
Qed.

Lemma hex2bin_step_digit (ret c : Z) :
  ishex c = true -> 0 <= ret <= 15 ->
  hex2bin_step ret c = hex_value c + ret * 16.
Proof.
  intros Hc Hr. pose proof (ishex_range c Hc) as Hrange.
  pose proof (hex_value_range c Hc) as Hv. revert Hv.
  unfold hex2bin_step, hex_value. ch_values.
  repeat match goal with
         | |- context [?a <=? ?b] => destruct (Z.leb_spec a b)
         end; cbn [andb]; intros Hv; int_exact; lia.
Qed.

(** [hex2bin] on two digits: the first is the high nibble. *)
Lemma hex2bin_digits (c1 c2 : Z) :
  ishex c1 = true -> ishex c2 = true ->
  hex2bin [c1; c2; 0] = 16 * hex_value c1 + hex_value c2.
Proof.
  intros H1 H2. unfold hex2bin. cbn [hex2bin_loop].
  rewrite (hex2bin_step_digit 0 c1 H1) by lia.
  pose proof (hex_value_range c1 H1).
  rewrite (hex2bin_step_digit _ c2 H2) by lia. lia.
Qed.

(** C4, as the code has it.  In Replace mode, two keys that are hexadecimal
    digits: the byte at the offset of the cursor becomes
    [16 * first + second], no other byte and no length changes, and the mode
    stays.  With the cursor on a byte of the buffer that is not the last
    one, the cursor is then on the next byte: one column to the right, in
    column 1 of the row below, or, from the bottom right corner of the
    screen, in column 1 of the bottom row of the screen scrolled down by one
    line.  On the last byte of the buffer the cursor stays on that byte (in
    the bottom right corner the screen scrolls down by one line all the
    same). *)
Theorem replace_two_hex_digits (w : world) (e : editor) (inp : stdin)
    (c1 c2 : Z) (inp1 inp2 : stdin) :
  mode e = MODE_REPLACE ->
  read_key w inp = Ret c1 inp1 ->
  read_key w inp1 = Ret c2 inp2 ->
  ishex c1 = true -> ishex c2 = true ->
  0 <= editor_offset_at_cursor e < Z.of_nat (length (contents e)) ->
  exists e' b,
    editor_process_keypress w e inp = Ret e' inp2 /\
    load (contents e') (editor_offset_at_cursor e) = Some b /\
    CChar.uchar b = 16 * hex_value c1 + hex_value c2 /\
    (forall i, i <> editor_offset_at_cursor e ->
               load (contents e') i = load (contents e) i) /\
    length (contents e') = length (contents e) /\
    content_length e' = content_length e /\
    mode e' = MODE_REPLACE /\
    (well_typed e = true -> offsets_fit e ->
     cursor_in_bounds e -> 0 <= line e ->
     0 <= raw_offset e <= content_length e - 1 ->
     editor_offset_at_cursor e = raw_offset e /\
     (raw_offset e < content_length e - 1 ->
      advanced e e' /\ raw_offset e' = raw_offset e + 1) /\
     (raw_offset e = content_length e - 1 ->
      raw_offset e' = raw_offset e /\ cursor_x e' = cursor_x e /\
      (cursor_x e < octets_per_line e \/ cursor_y e < screen_rows e - 1 ->
       cursor_y e' = cursor_y e /\ line e' = line e) /\
      (cursor_x e = octets_per_line e -> cursor_y e = screen_rows e - 1 ->
       cursor_y e' = cursor_y e - 1 /\ line e' = line e + 1))).
Proof.
  intros Hm Hr1 Hr2 Hx1 Hx2 Hoff.
  pose proof (ishex_range c1 Hx1) as Hc1.
  pose proof (ishex_range c2 Hx2) as Hc2.
  pose proof (hex_value_range c1 Hx1) as Hv1.
  pose proof (hex_value_range c2 Hx2) as Hv2.
  rewrite (process_keypress_replace w e inp c1 inp1 Hm Hr1 ltac:(lia)
             (ishex_not_global c1 Hx1)).
  unfold replace_command.
  rewrite (of_int_ascii c1) by lia. rewrite Hx1. cbn [negb]. rewrite Hr2.
  rewrite (of_int_ascii c2) by lia. rewrite Hx2. cbn [negb]. cbv zeta.
  rewrite (hex2bin_digits c1 c2 Hx1 Hx2).
  unfold editor_replace_byte. cbv zeta.
  pose proof (same_buffer_move_cursor e KEY_RIGHT 1)
    as (_ & Hlen & Hmode & Hopl & _).
  assert (Hright :
    well_typed e = true -> offsets_fit e ->
    cursor_in_bounds e -> 0 <= line e ->
    0 <= raw_offset e <= content_length e - 1 ->
    editor_offset_at_cursor e = raw_offset e /\
    (raw_offset e < content_length e - 1 ->
     advanced e (editor_move_cursor e KEY_RIGHT 1) /\
     raw_offset (editor_move_cursor e KEY_RIGHT 1) = raw_offset e + 1) /\
    (raw_offset e = content_length e - 1 ->
     raw_offset (editor_move_cursor e KEY_RIGHT 1) = raw_offset e /\
     cursor_x (editor_move_cursor e KEY_RIGHT 1) = cursor_x e /\
     (cursor_x e < octets_per_line e \/ cursor_y e < screen_rows e - 1 ->
      cursor_y (editor_move_cursor e KEY_RIGHT 1) = cursor_y e /\
      line (editor_move_cursor e KEY_RIGHT 1) = line e) /\
     (cursor_x e = octets_per_line e -> cursor_y e = screen_rows e - 1 ->
      cursor_y (editor_move_cursor e KEY_RIGHT 1) = cursor_y e - 1 /\
      line (editor_move_cursor e KEY_RIGHT 1) = line e + 1))).
  { intros Hwt Hfit Hin Hl Hraw.
    destruct (well_typed_spec e Hwt)
      as (Hoi & _ & _ & _ & _ & _ & _ & _ & Hni & _).
    split; [exact (proj1 (cursor_on_byte e Hoi Hni Hin Hl Hraw))|].
    exact (move_right_from_byte e Hwt Hfit Hin Hl Hraw). }
  set (v := 16 * hex_value c1 + hex_value c2) in *.
  assert (Hu : CChar.uchar (CChar.of_int v) = v).
  { rewrite uchar_of_int. apply Z.mod_small. unfold v. lia. }
  revert Hoff Hu Hright. generalize (CChar.of_int v) as b.
  generalize (editor_offset_at_cursor e) as off. intros off b Hoff Hu Hright.
  pose proof (store_in_range (contents e) off b Hoff) as Hs. rewrite Hs.
  cbn [mbind option_bind]. rewrite move_cursor_set_contents.
  revert Hlen Hmode Hopl Hright.
  generalize (editor_move_cursor e KEY_RIGHT 1) as em.
  intros em Hlen Hmode Hopl Hright.
  eexists _, b. split; [reflexivity|].
  unfold editor_statusmessage, advanced, raw_offset in *. fields.
  split; [exact (load_store_eq _ _ _ _ Hs)|].
  split; [exact Hu|].
  split; [intros i Hi; exact (load_store_ne _ _ _ _ _ Hs Hi)|].
  split; [apply length_insert|].
  split; [exact Hlen|].
  split; [congruence|].
  exact Hright.
Qed.

Lemma replace_two_hex_digits_witness :
  (let e := editor_at 16 24 [65; 66; 67] 0 2 1 MODE_REPLACE in
   exists e' b,
     editor_process_keypress calm_world e [RByte 97; RByte 48] = Ret e' [] /\
     load (contents e') 1 = Some b /\ CChar.uchar b = 0xA0 /\
     cursor_x e' = 3 /\ cursor_y e' = 1 /\ line e' = 0) /\
  (let e := editor_at 4 3 (replicate 20 7) 1 4 2 MODE_REPLACE in
   exists e' b,
     editor_process_keypress calm_world e [RByte 70; RByte 102] = Ret e' [] /\
     load (contents e') 11 = Some b /\ CChar.uchar b = 0xFF /\
     cursor_x e' = 1 /\ cursor_y e' = 2 /\ line e' = 2).
Proof.
  split; intros e.
  - destruct (replace_two_hex_digits calm_world e [RByte 97; RByte 48]
                97 48 [RByte 48] [] eq_refl eq_refl eq_refl eq_refl eq_refl)
      as (e' & b & H1 & H2 & H3 & _ & _ & _ & _ & Hright).
    + vm_compute. split; [discriminate|reflexivity].
    + exists e', b. split; [exact H1|]. split; [exact H2|]. split; [exact H3|].
      destruct Hright as (_ & Hstep & _).
      * vm_compute. reflexivity.
      * vm_compute. discriminate.
      * unfold cursor_in_bounds. simpl. lia.
      * simpl. lia.
      * vm_compute. split; discriminate.
      * destruct Hstep as [Hstep _]; [vm_compute; reflexivity|].
        unfold advanced in Hstep. simpl in Hstep. lia.
  - destruct (replace_two_hex_digits calm_world e [RByte 70; RByte 102]
                70 102 [RByte 102] [] eq_refl eq_refl eq_refl eq_refl eq_refl)
      as (e' & b & H1 & H2 & H3 & _ & _ & _ & _ & Hright).
    + vm_compute. split; [discriminate|reflexivity].
    + exists e', b. split; [exact H1|]. split; [exact H2|]. split; [exact H3|].
      destruct Hright as (_ & Hstep & _).
      * vm_compute. reflexivity.
      * vm_compute. discriminate.
      * unfold cursor_in_bounds. simpl. lia.
      * simpl. lia.
      * vm_compute. split; discriminate.
      * destruct Hstep as [Hstep _]; [vm_compute; reflexivity|].
        unfold advanced in Hstep. simpl in Hstep. lia.
Defined.

(** C4, as stated, fails in two ways.  On the last byte of the buffer, here
    the third of three bytes, the keys [a] and [0] store 0xA0 and the cursor
    stays where it is: there is no step to the right.  With the cursor after
    the end of the buffer, 20 bytes and the cursor in column 16 of row 2, the
    offset of the cursor is clamped to the last byte, which is replaced, and
    the cursor goes to column 4, on that byte. *)
Lemma replace_keeps_cursor_at_end :
  (let e := editor_at 16 24 [65; 66; 67] 0 3 1 MODE_REPLACE in
   mode e = MODE_REPLACE /\ ishex (ch "a") = true /\ ishex (ch "0") = true /\
   editor_offset_at_cursor e = 2 /\
   match editor_process_keypress calm_world e [RByte (ch "a"); RByte (ch "0")]
   with
   | Ret e' _ =>
       load (contents e') 2 = Some (CChar.of_int 0xA0) /\
       content_length e' = 3 /\
       cursor_x e' = cursor_x e /\ cursor_y e' = cursor_y e /\
       line e' = line e /\
       ~ advanced e e'
   | _ => False
   end) /\
  (let e := editor_at 16 24 (replicate 20 7) 0 16 2 MODE_REPLACE in
   mode e = MODE_REPLACE /\ ishex (ch "a") = true /\ ishex (ch "0") = true /\
   editor_offset_at_cursor e = 19 /\
   match editor_process_keypress calm_world e [RByte (ch "a"); RByte (ch "0")]
   with
   | Ret e' _ =>
       load (contents e') 19 = Some (CChar.of_int 0xA0) /\
       content_length e' = 20 /\
       cursor_x e = 16 /\ cursor_y e = 2 /\
       cursor_x e' = 4 /\ cursor_y e' = 2 /\ line e' = 0 /\
       ~ advanced e e'
   | _ => False
   end).
Proof.
  split; intros e.
  - do 4 (split; [reflexivity|]).
    let r := eval vm_compute in
      (editor_process_keypress calm_world e [RByte (ch "a"); RByte (ch "0")]) in
    assert (Hd : editor_process_keypress calm_world e
                   [RByte (ch "a"); RByte (ch "0")] = r)
      by (vm_compute; reflexivity).
    rewrite Hd. unfold advanced, e.
    cbn [editor_at cursor_x cursor_y line content_length contents
         octets_per_line screen_rows].
    repeat split; try reflexivity; lia.
  - do 4 (split; [reflexivity|]).
    let r := eval vm_compute in
      (editor_process_keypress calm_world e [RByte (ch "a"); RByte (ch "0")]) in
    assert (Hd : editor_process_keypress calm_world e
                   [RByte (ch "a"); RByte (ch "0")] = r)
      by (vm_compute; reflexivity).
    rewrite Hd. unfold advanced, e.
    cbn [editor_at cursor_x cursor_y line content_length contents
         octets_per_line screen_rows].
    repeat split; try reflexivity; lia.
Qed.

(** * Further properties *)

(** ** Scrolling *)

(** [editor_scroll] writes the field [line] and nothing else. *)
Lemma scroll_as_set_line (e : editor) (units : Z) :
  editor_scroll e units = set_line (line (editor_scroll e units)) e.
Proof.
  unfold editor_scroll. cbv zeta. fields.
  repeat (split_if; fields); reflexivity.
Qed.

Lemma set_line_twice (a b : Z) (e : editor) :
  set_line a (set_line b e) = set_line a e.
Proof. reflexivity. Qed.

(** Scrolling by no unit after a scroll changes nothing: the line
    [editor_scroll] leaves is one it accepts.  This holds for every state
    and every number of units. *)
Theorem editor_scroll_idempotent (e : editor) (units : Z) :
  editor_scroll (editor_scroll e units) 0 = editor_scroll e units.
Proof.
  rewrite (scroll_as_set_line (editor_scroll e units) 0).
  assert (Hline : line (editor_scroll (editor_scroll e units) 0)
                  = line (editor_scroll e units)).
  { rewrite (scroll_line (editor_scroll e units) 0). cbv zeta.
    destruct (scroll_fields e units) as (Ho & Hr & _ & _ & _ & Hn & _).
    cbv zeta in Ho, Hr, Hn. rewrite Ho, Hr, Hn.
    rewrite (scroll_line e units). cbv zeta.
    set (upper := content_length e /i octets_per_line e -i (screen_rows e -i 2)).
    assert (Hu : CInt.in_int upper) by apply wrap_in_int.
    assert (Hs : CInt.in_int (line e +i units)) by apply wrap_in_int.
    revert Hs. generalize (line e +i units) as x. intros x Hs.
    revert Hu. generalize upper as u. intros u Hu.
    rewrite add_exact by (int_bounds; lia). lia. }
  rewrite Hline. clear Hline.
  pose proof (scroll_as_set_line e units) as Hs.
  revert Hs. generalize (line (editor_scroll e units)) as ln. intros ln Hs.
  rewrite Hs. apply set_line_twice.
Qed.

(** ** Indexing the buffer *)

(** With a byte in the buffer, the offset of the cursor is the index of a
    byte, wherever the cursor and the line are, and also where the
    multiplication of [editor_offset_at_cursor] wraps around. *)
Theorem offset_at_cursor_loads (e : editor) :
  good_buffer e -> 1 <= content_length e ->
  0 <= editor_offset_at_cursor e <= content_length e - 1 /\
  exists c, load (contents e) (editor_offset_at_cursor e) = Some c.
Proof.
  intros [Hlen Hni] Hn. unfold length_ok in Hlen.
  pose proof (offset_at_cursor_in_buffer e Hni Hn) as Hoff.
  split; [exact Hoff|].
  revert Hoff. generalize (editor_offset_at_cursor e) as off. intros off Hoff.
  rewrite load_in_range by lia.
  destruct (lookup_lt_is_Some_2 (contents e) (Z.to_nat off)) as [c Hc]; [lia|].
  exists c. exact Hc.
Qed.

Lemma offset_at_cursor_loads_witness :
  let e := editor_at 16 24 [10; 20; 30] 700 9 5 MODE_NORMAL in
  0 <= editor_offset_at_cursor e <= content_length e - 1 /\
  exists c, load (contents e) (editor_offset_at_cursor e) = Some c.
Proof.
  intros e. apply (offset_at_cursor_loads e).
  - split; [reflexivity|]. vm_compute. split; discriminate.
  - simpl. lia.
Defined.

(** ** [hex2bin] *)

Lemma hex2bin_step_value (ret c : Z) :
  0 <= ret <= 15 -> hex2bin_step ret c = hex_value c + ret * 16.
Proof.
  intros Hr. unfold hex2bin_step, hex_value. ch_values.
  repeat match goal with
         | |- context [?a <=? ?b] => destruct (Z.leb_spec a b)
         end; cbn [andb]; int_exact; lia.
Qed.

Lemma hex_value_bounds (c : Z) : 0 <= hex_value c <= 15.
Proof.
  unfold hex_value. ch_values.
  repeat match goal with
         | |- context [?a <=? ?b] => destruct (Z.leb_spec a b)
         end; cbn [andb]; lia.
Qed.

(** [hex2bin] never fails and never leaves the range of a byte: on any
    two characters it is 16 times the value of the first plus the value of
    the second, where a character that is not a hexadecimal digit counts as
    the digit 0. *)
Theorem hex2bin_any_characters (c1 c2 : Z) (s : list Z) :
  hex2bin (c1 :: c2 :: s) = 16 * hex_value c1 + hex_value c2 /\
  0 <= hex2bin (c1 :: c2 :: s) <= 255 /\
  (forall c, ishex c = false -> hex_value c = 0).
Proof.
  pose proof (hex_value_bounds c1) as H1.
  pose proof (hex_value_bounds c2) as H2.
  assert (Hv : hex2bin (c1 :: c2 :: s) = 16 * hex_value c1 + hex_value c2).
  { unfold hex2bin. cbn [hex2bin_loop].
    rewrite (hex2bin_step_value 0 c1) by lia.
    rewrite (hex2bin_step_value _ c2) by lia. lia. }
  split; [exact Hv|]. split; [rewrite Hv; lia|].
  intros c. unfold ishex, hex_value.
  rewrite !orb_false_iff. intros [[Hd Hu] Hl]. rewrite Hd, Hl, Hu. reflexivity.
Qed.

(** ** Deleting a byte *)

(** [memmove] of the tail over the byte at [off], then the [realloc] that
    drops the last byte. *)
Lemma memmove_tail (p : list Z) (off : Z) :
  0 <= off < Z.of_nat (length p) ->
  memmove p off (off + 1) (Z.of_nat (length p) - off - 1)
    = Some (take (Z.to_nat off) p ++ drop (S (Z.to_nat off)) p
            ++ drop (length p - 1) p).
Proof.
  intros H. unfold memmove.
  replace ((0 <=? off) && (0 <=? off + 1)
           && (0 <=? Z.of_nat (length p) - off - 1)
           && (off + (Z.of_nat (length p) - off - 1) <=? Z.of_nat (length p))
           && (off + 1 + (Z.of_nat (length p) - off - 1)
               <=? Z.of_nat (length p)))
    with true.
  2: { symmetry. rewrite !andb_true_iff, !Z.leb_le. lia. }
  replace (Z.to_nat (off + 1)) with (S (Z.to_nat off)) by lia.
  replace (Z.to_nat (off + (Z.of_nat (length p) - off - 1)))
    with (length p - 1)%nat by lia.
  rewrite (take_ge (drop (S (Z.to_nat off)) p)) by (rewrite length_drop; lia).
  reflexivity.
Qed.

Lemma realloc_after_memmove (w : world) (p : list Z) (off : Z) :
  0 <= off < Z.of_nat (length p) ->
  realloc w (take (Z.to_nat off) p ++ drop (S (Z.to_nat off)) p
             ++ drop (length p - 1) p) (Z.of_nat (length p) - 1)
    = Some (take (Z.to_nat off) p ++ drop (S (Z.to_nat off)) p).
Proof.
  intros H. unfold realloc.
  destruct (Z.ltb_spec (Z.of_nat (length p) - 1) 0); [lia|].
  assert (Hl : length (take (Z.to_nat off) p ++ drop (S (Z.to_nat off)) p)
               = Z.to_nat (Z.of_nat (length p) - 1)).
  { rewrite length_app, length_take, length_drop. lia. }
  rewrite app_assoc. rewrite take_app_length' by (symmetry; exact Hl).
  rewrite length_app, length_app, length_take, !length_drop.
  replace (Z.to_nat (Z.of_nat (length p) - 1)
           - (Z.to_nat off `min` length p + (length p - S (Z.to_nat off))
              + (length p - (length p - 1))))%nat with 0%nat by lia.
  cbn [replicate]. rewrite app_nil_r. reflexivity.
Qed.

(** What [editor_delete_char_at_cursor] returns on a buffer that is not
    empty. *)
Lemma delete_state (w : world) (e : editor) :
  good_buffer e -> 1 <= content_length e ->
  editor_delete_char_at_cursor w e =
    let off := editor_offset_at_cursor e in
    let e0 := set_content_length (content_length e - 1)
                (set_contents (take (Z.to_nat off) (contents e)
                               ++ drop (S (Z.to_nat off)) (contents e)) e) in
    Some (if off >=? content_length e - 1
          then editor_move_cursor e0 KEY_LEFT 1 else e0).
Proof.
  intros [Hlen Hni] Hn. unfold length_ok in Hlen.
  pose proof (offset_at_cursor_in_buffer e Hni Hn) as Hoff.
  unfold editor_delete_char_at_cursor. cbv zeta.
  revert Hoff. generalize (editor_offset_at_cursor e) as off. intros off Hoff.
  destruct (Z.leb_spec (content_length e) 0); [lia|].
  rewrite (sub_exact (content_length e) off) by (int_bounds; lia).
  rewrite (sub_exact (content_length e - off) 1) by (int_bounds; lia).
  rewrite (sub_exact (content_length e) 1) by (int_bounds; lia).
  rewrite Hlen. rewrite memmove_tail by lia. cbn [mbind option_bind].
  rewrite realloc_after_memmove by lia. cbn [mbind option_bind]. fields.
  rewrite <- Hlen. rewrite (sub_exact (content_length e) 1) by (int_bounds; lia).
  destruct (off >=? content_length e - 1); reflexivity.
Qed.

(** [editor_delete_char_at_cursor] removes the byte at the offset of the
    cursor and no other: the bytes before it stay, the bytes after it move
    left by one, and [content_length] stays the size of the allocation.
    Unless the byte was the last one, the cursor and the line stay.  On an
    empty buffer nothing is removed: the status becomes a warning. *)
Theorem delete_removes_byte_at_cursor (w : world) (e : editor) :
  good_buffer e ->
  (1 <= content_length e ->
   exists e',
     editor_delete_char_at_cursor w e = Some e' /\
     contents e' = take (Z.to_nat (editor_offset_at_cursor e)) (contents e)
                   ++ drop (S (Z.to_nat (editor_offset_at_cursor e)))
                        (contents e) /\
     content_length e' = content_length e - 1 /\
     good_buffer e' /\
     (editor_offset_at_cursor e < content_length e - 1 ->
      cursor_x e' = cursor_x e /\ cursor_y e' = cursor_y e /\
      line e' = line e /\ status_sev e' = status_sev e)) /\
  (content_length e <= 0 ->
   editor_delete_char_at_cursor w e
     = Some (set_status STATUS_WARNING (Message "Nothing to delete" []) e)).
Proof.
  intros Hgood. split.
  - intros Hn. rewrite (delete_state w e Hgood Hn). cbv zeta.
    destruct Hgood as [Hlen Hni]. unfold length_ok in Hlen.
    pose proof (offset_at_cursor_in_buffer e Hni Hn) as Hoff.
    revert Hoff. generalize (editor_offset_at_cursor e) as off. intros off Hoff.
    set (l' := take (Z.to_nat off) (contents e)
               ++ drop (S (Z.to_nat off)) (contents e)).
    assert (Hl' : Z.of_nat (length l') = content_length e - 1).
    { unfold l'. rewrite length_app, length_take, length_drop. lia. }
    set (e0 := set_content_length (content_length e - 1) (set_contents l' e)).
    pose proof (same_buffer_move_cursor e0 KEY_LEFT 1) as (Hc & Hcl & _).
    revert Hc Hcl. generalize (editor_move_cursor e0 KEY_LEFT 1) as em.
    intros em Hc Hcl.
    destruct (Z.geb_spec off (content_length e - 1)).
    + exists em. split; [reflexivity|]. rewrite Hc, Hcl. unfold e0. fields.
      split; [reflexivity|]. split; [reflexivity|].
      split; [|lia].
      unfold good_buffer, length_ok. rewrite Hc, Hcl. unfold e0. fields.
      split; [lia|]. int_bounds. lia.
    + exists e0. split; [reflexivity|]. unfold e0. fields.
      split; [reflexivity|]. split; [reflexivity|].
      split; [|intros _; repeat split].
      unfold good_buffer, length_ok. fields.
      split; [lia|]. int_bounds. lia.
  - intros Hn. unfold editor_delete_char_at_cursor. cbv zeta.
    destruct (Z.leb_spec (content_length e) 0); [reflexivity|lia].
Qed.

Lemma delete_removes_byte_at_cursor_witness :
  let e := editor_at 16 24 [10; 20; 30; 40] 0 2 1 MODE_NORMAL in
  exists e',
    editor_delete_char_at_cursor calm_world e = Some e' /\
    contents e' = [10; 30; 40] /\ content_length e' = 3 /\
    cursor_x e' = 2 /\ cursor_y e' = 1.
Proof.
  intros e.
  assert (Hg : good_buffer e)
    by (split; [reflexivity|]; vm_compute; split; discriminate).
  destruct (proj1 (delete_removes_byte_at_cursor calm_world e Hg))
    as (e' & H1 & H2 & H3 & _ & H5).
  - simpl. lia.
  - exists e'. split; [exact H1|]. split; [exact H2|]. split; [exact H3|].
    destruct H5 as (Hx & Hy & _); [vm_compute; reflexivity|].
    split; [exact Hx|exact Hy].
Defined.

(** ** Incrementing and decrementing *)

Lemma increment_byte_state (e : editor) (amount c : Z) :
  load (contents e) (editor_offset_at_cursor e) = Some c ->
  editor_increment_byte e amount
    = Some (set_contents
              (<[Z.to_nat (editor_offset_at_cursor e)
                 := CChar.of_int (c +i amount)]> (contents e)) e).
Proof.
  intros Hc. pose proof (load_Some _ _ _ Hc) as Hr.
  unfold editor_increment_byte. revert Hc Hr.
  generalize (editor_offset_at_cursor e) as off. intros off Hc Hr.
  rewrite Hc. cbn [mbind option_bind].
  rewrite store_in_range by exact Hr. reflexivity.
Qed.

Lemma char_eq_of_uchar (a b : Z) :
  CChar.in_char a -> CChar.in_char b ->
  CChar.uchar a = CChar.uchar b -> a = b.
Proof.
  unfold CChar.in_char, CChar.uchar. change (2 ^ 7) with 128.
  change (2 ^ 8) with 256. intros Ha Hb H.
  rewrite (Z.mod_eq a 256), (Z.mod_eq b 256) in H by lia.
  assert (a / 256 = 0 \/ a / 256 = -1).
  { assert (-1 <= a / 256) by (apply Z.div_le_lower_bound; lia).
    assert (a / 256 < 1) by (apply Z.div_lt_upper_bound; lia). lia. }
  assert (b / 256 = 0 \/ b / 256 = -1).
  { assert (-1 <= b / 256) by (apply Z.div_le_lower_bound; lia).
    assert (b / 256 < 1) by (apply Z.div_lt_upper_bound; lia). lia. }
  lia.
Qed.

Lemma uchar_increment (c amount : Z) :
  CChar.uchar (CChar.of_int (c +i amount)) = (CChar.uchar c + amount) mod 256.
Proof.
  rewrite uchar_of_int.
  change ((c +i amount) mod 256) with (CChar.uchar (CInt.wrap (c + amount))).
  rewrite uchar_wrap. unfold CChar.uchar. change (2 ^ 8) with 256.
  rewrite Zplus_mod_idemp_l. reflexivity.
Qed.

(** Incrementing by [amount] and then by its opposite gives the editor
    back: the byte, a [char], returns to its value, through whatever wrap
    around there is, and nothing else has changed. *)
Theorem increment_then_decrement (e : editor) (amount c : Z) :
  load (contents e) (editor_offset_at_cursor e) = Some c ->
  CChar.in_char c ->
  exists e1,
    editor_increment_byte e amount = Some e1 /\
    editor_increment_byte e1 (- amount) = Some e.
Proof.
  intros Hc Hin. pose proof (load_Some _ _ _ Hc) as Hr.
  rewrite (increment_byte_state e amount c Hc).
  eexists. split; [reflexivity|].
  set (c1 := CChar.of_int (c +i amount)).
  assert (Hback : CChar.of_int (c1 +i - amount) = c).
  { apply char_eq_of_uchar; [apply of_int_in_char|exact Hin|].
    rewrite uchar_increment. unfold c1. rewrite uchar_increment.
    rewrite Zplus_mod_idemp_l.
    replace (CChar.uchar c + amount + - amount) with (CChar.uchar c) by lia.
    unfold CChar.uchar. change (2 ^ 8) with 256.
    apply Z.mod_mod. lia. }
  revert Hc Hr Hback. generalize c1 as b. intros b Hc Hr Hback.
  rewrite (increment_byte_state _ (- amount) b).
  - rewrite offset_at_cursor_set_contents. fields. rewrite Hback.
    revert Hc Hr. generalize (editor_offset_at_cursor e) as off. intros off Hc Hr.
    rewrite list_insert_insert_eq.
    rewrite load_in_range in Hc by exact Hr.
    rewrite list_insert_id by exact Hc.
    destruct e; reflexivity.
  - rewrite offset_at_cursor_set_contents. fields.
    revert Hc Hr. generalize (editor_offset_at_cursor e) as off. intros off Hc Hr.
    rewrite load_in_range by (rewrite length_insert; exact Hr).
    apply list_lookup_insert_eq. lia.
Qed.

Lemma increment_then_decrement_witness :
  let e := editor_at 16 24 [65; 127; 66] 0 2 1 MODE_NORMAL in
  exists e1,
    editor_increment_byte e 1 = Some e1 /\
    editor_increment_byte e1 (-1) = Some e.
Proof.
  intros e. apply (increment_then_decrement e 1 127).
  - reflexivity.
  - vm_compute. split; discriminate.
Defined.

(** ** What a key can do *)

Lemma Ret_inv {A : Type} (a a' : A) (r r' : stdin) :
  Ret a r = Ret a' r' -> a = a' /\ r = r'.
Proof. intros H. inversion H. split; reflexivity. Qed.

(** Case analysis on the test or the [switch] that decides [H]. *)
Ltac case_key H :=
  match type of H with
  | (if ?b then _ else _) = _ => destruct b eqn:?
  | match ?x with _ => _ end = _ => destruct x eqn:?
  end.

(** The state [e'] a call returned into. *)
Ltac returned H :=
  first [ discriminate H
        | apply Ret_inv in H; destruct H as [<- _] ].

Ltac key_is := apply Z.eqb_eq; assumption.

Ltac frame :=
  first [ apply same_buffer_move_cursor
        | apply same_buffer_scroll
        | apply same_buffer_refl
        | (eapply same_buffer_trans;
           [apply same_buffer_scroll|apply same_buffer_cursor_to_offset])
        | (repeat split; reflexivity) ].

Lemma same_buffer_writefile (w : world) (e e' : editor) :
  editor_writefile w e = Some e' -> same_buffer e e'.
Proof.
  unfold editor_writefile. intros H.
  repeat case_key H; try discriminate H;
    apply (inj Some) in H; rewrite <- H; repeat split; reflexivity.
Qed.

(** The effect of one key, by the key and the mode. *)
Lemma dispatch_effect (w : world) (e : editor) (c : Z) (rest : stdin)
    (e' : editor) (rest' : stdin) :
  editor_dispatch w e c rest = Ret e' rest' ->
  same_buffer e e' \/
  c = KEY_ESC /\ e' = editor_setmode e MODE_NORMAL \/
  mode e = MODE_NORMAL /\
    (c = ch "i" /\ e' = editor_setmode e MODE_INSERT \/
     c = ch "r" /\ e' = editor_setmode e MODE_REPLACE \/
     c = ch "x" /\ editor_delete_char_at_cursor w e = Some e' \/
     c = ch "]" /\ editor_increment_byte e 1 = Some e' \/
     c = ch "[" /\ editor_increment_byte e (-1) = Some e') \/
  mode e = MODE_REPLACE /\ ishex (CChar.of_int c) = true /\
    exists x e1 s m,
      editor_replace_byte e x = Some e1 /\ e' = set_status s m e1.
Proof.
  unfold editor_dispatch. intros H.
  case_key H. { returned H. right. left. split; [key_is|reflexivity]. }
  case_key H. { discriminate H. }
  case_key H.
  { case_key H; returned H. left. eapply same_buffer_writefile. eassumption. }
  do 5 (case_key H; [returned H; left; frame|]).
  case_key H.
  - unfold normal_command, checked in H.
    do 4 (case_key H; [returned H; left; frame|]).
    case_key H.
    { case_key H; returned H. right. right. left. split; [reflexivity|].
      do 2 right. left. split; [key_is|reflexivity]. }
    case_key H.
    { returned H. right. right. left. split; [reflexivity|].
      left. split; [key_is|reflexivity]. }
    case_key H.
    { returned H. right. right. left. split; [reflexivity|].
      right. left. split; [key_is|reflexivity]. }
    do 3 (case_key H; [returned H; left; frame|]).
    case_key H.
    { case_key H; try discriminate H. case_key H; returned H; left; frame. }
    case_key H.
    { case_key H; returned H. right. right. left. split; [reflexivity|].
      do 3 right. left. split; [key_is|reflexivity]. }
    case_key H.
    { case_key H; returned H. right. right. left. split; [reflexivity|].
      do 4 right. split; [key_is|reflexivity]. }
    returned H. left. frame.
  - returned H. left. frame.
  - unfold replace_command in H.
    destruct (ishex (CChar.of_int c)) eqn:Hx; cbn [negb] in H;
      [|returned H; left; frame].
    case_key H; try discriminate H.
    case_key H; [returned H; left; frame|].
    case_key H; returned H.
    right. right. right. split; [reflexivity|]. split; [reflexivity|].
    eexists _, _, _, _. split; [eassumption|reflexivity].
  - returned H. left. frame.
Qed.

Lemma setmode_fields (e : editor) (m : editor_mode) :
  mode (editor_setmode e m) = m /\
  contents (editor_setmode e m) = contents e /\
  content_length (editor_setmode e m) = content_length e.
Proof. destruct m; repeat split; reflexivity. Qed.

Lemma delete_mode (w : world) (e e' : editor) :
  editor_delete_char_at_cursor w e = Some e' -> mode e' = mode e.
Proof.
  unfold editor_delete_char_at_cursor. cbv zeta.
  generalize (editor_offset_at_cursor e) as off. intros off H.
  case_key H; [apply (inj Some) in H; rewrite <- H; reflexivity|].
  destruct (memmove _ _ _ _) as [p|]; [|discriminate H].
  cbn [mbind option_bind] in H.
  destruct (realloc _ _ _) as [q|]; [|discriminate H].
  cbn [mbind option_bind] in H.
  case_key H; apply (inj Some) in H; rewrite <- H; [|reflexivity].
  match goal with
  | |- mode (editor_move_cursor ?e0 ?d ?a) = _ =>
      destruct (same_buffer_move_cursor e0 d a) as (_ & _ & Hm & _);
      rewrite Hm; reflexivity
  end.
Qed.

Lemma delete_good_buffer (w : world) (e e' : editor) :
  good_buffer e -> editor_delete_char_at_cursor w e = Some e' ->
  good_buffer e' /\
  content_length e - 1 <= content_length e' <= content_length e.
Proof.
  intros Hg H. destruct (Z.le_gt_cases (content_length e) 0) as [Hn|Hn].
  - unfold editor_delete_char_at_cursor in H. cbv zeta in H.
    destruct (Z.leb_spec (content_length e) 0); [|lia].
    apply (inj Some) in H. rewrite <- H. split; [exact Hg|].
    unfold editor_statusmessage. fields. lia.
  - rewrite (delete_state w e Hg) in H by lia. cbv zeta in H.
    apply (inj Some) in H. destruct Hg as [Hlen Hni]. unfold length_ok in Hlen.
    pose proof (offset_at_cursor_in_buffer e Hni ltac:(lia)) as Hoff.
    revert H Hoff. generalize (editor_offset_at_cursor e) as off.
    intros off H Hoff.
    set (l' := take (Z.to_nat off) (contents e)
               ++ drop (S (Z.to_nat off)) (contents e)) in *.
    assert (Hl' : Z.of_nat (length l') = content_length e - 1).
    { unfold l'. rewrite length_app, length_take, length_drop. lia. }
    clearbody l'.
    set (e0 := set_content_length (content_length e - 1) (set_contents l' e))
      in *.
    assert (H0 : contents e0 = l' /\ content_length e0 = content_length e - 1)
      by (split; reflexivity).
    clearbody e0. destruct H0 as [Hc0 Hn0].
    pose proof (same_buffer_move_cursor e0 KEY_LEFT 1) as (Hc & Hcl & _).
    revert H Hc Hcl. generalize (editor_move_cursor e0 KEY_LEFT 1) as em.
    intros em H Hc Hcl.
    assert (He : contents e' = l' /\ content_length e' = content_length e - 1).
    { destruct (off >=? content_length e - 1); rewrite <- H; split; congruence. }
    destruct He as [He1 He2].
    unfold good_buffer, length_ok. rewrite He1, He2.
    split; [split; [lia|]|lia]. int_bounds. lia.
Qed.

Lemma increment_frame (e e' : editor) (amount : Z) :
  editor_increment_byte e amount = Some e' ->
  mode e' = mode e /\ content_length e' = content_length e /\
  length (contents e') = length (contents e).
Proof.
  unfold editor_increment_byte. cbv zeta.
  generalize (editor_offset_at_cursor e) as off. intros off H.
  destruct (load _ _) as [c|]; [|discriminate H].
  cbn [mbind option_bind] in H.
  destruct (store _ _ _) as [q|] eqn:Hs; [|discriminate H].
  cbn [mbind option_bind] in H. apply (inj Some) in H. rewrite <- H.
  apply store_length in Hs. fields. auto.
Qed.

Lemma replace_byte_frame (e e' : editor) (x : Z) :
  editor_replace_byte e x = Some e' ->
  mode e' = mode e /\ content_length e' = content_length e /\
  length (contents e') = length (contents e).
Proof.
  unfold editor_replace_byte. cbv zeta.
  generalize (editor_offset_at_cursor e) as off. intros off H.
  destruct (store _ _ _) as [q|] eqn:Hs; [|discriminate H].
  cbn [mbind option_bind] in H. apply (inj Some) in H. rewrite <- H.
  apply store_length in Hs.
  destruct (same_buffer_move_cursor (set_contents q e) KEY_RIGHT 1)
    as (Hc & Hcl & Hm & _).
  rewrite Hc, Hcl, Hm. fields. auto.
Qed.

(** The buffer stays an allocation of [content_length] bytes through a
    key, and loses at most one byte. *)
Lemma dispatch_good_buffer (w : world) (e : editor) (c : Z) (rest : stdin)
    (e' : editor) (rest' : stdin) :
  good_buffer e -> editor_dispatch w e c rest = Ret e' rest' ->
  good_buffer e' /\
  content_length e - 1 <= content_length e' <= content_length e.
Proof.
  intros Hg H. pose proof Hg as [Hlen Hni]. unfold length_ok in Hlen.
  assert (Hsame : contents e' = contents e ->
                  content_length e' = content_length e ->
                  good_buffer e' /\
                  content_length e - 1 <= content_length e' <= content_length e).
  { intros H1 H2. split; [|lia].
    unfold good_buffer, length_ok. rewrite H1, H2. split; assumption. }
  assert (Hlength : length (contents e') = length (contents e) ->
                  content_length e' = content_length e ->
                  good_buffer e' /\
                  content_length e - 1 <= content_length e' <= content_length e).
  { intros H1 H2. split; [|lia].
    unfold good_buffer, length_ok. rewrite H1, H2. split; assumption. }
  apply dispatch_effect in H.
  destruct H as [(H1 & H2 & _)|[[_ ->]|[[_ H]|(_ & _ & x & e1 & s & m & H & ->)]]].
  - apply Hsame; assumption.
  - apply Hsame; apply setmode_fields.
  - destruct H as [[_ ->]|[[_ ->]|[[_ H]|[[_ H]|[_ H]]]]].
    + apply Hsame; apply setmode_fields.
    + apply Hsame; apply setmode_fields.
    + eapply delete_good_buffer; eassumption.
    + apply increment_frame in H. apply Hlength; apply H.
    + apply increment_frame in H. apply Hlength; apply H.
  - apply replace_byte_frame in H. fields. apply Hlength; apply H.
Qed.

Lemma keypress_good_buffer (w : world) (e : editor) (inp : stdin)
    (e' : editor) (rest : stdin) :
  good_buffer e -> editor_process_keypress w e inp = Ret e' rest ->
  good_buffer e' /\
  content_length e - 1 <= content_length e' <= content_length e.
Proof.
  intros Hg. unfold editor_process_keypress.
  destruct (read_key w inp) as [c rest0| | |]; try discriminate.
  destruct (c =? -1).
  - intros H. apply Ret_inv in H. destruct H as [<- _]. split; [exact Hg|lia].
  - apply dispatch_good_buffer. exact Hg.
Qed.

(** Whatever is typed, for any number of turns of the loop of [main], the
    buffer stays an allocation of exactly [content_length] bytes; it never
    grows, and it loses at most one byte a key. *)
Theorem editor_loop_keeps_buffer (w : world) (n : nat) (e : editor)
    (inp : stdin) (e' : editor) (rest : stdin) :
  good_buffer e -> editor_loop w n e inp = Ret e' rest ->
  good_buffer e' /\
  content_length e - Z.of_nat n <= content_length e' <= content_length e.
Proof.
  revert e inp. induction n as [|n IH]; intros e inp Hg H.
  - cbn [editor_loop] in H. apply Ret_inv in H. destruct H as [<- _].
    split; [exact Hg|lia].
  - cbn [editor_loop] in H.
    destruct (editor_refresh_screen w e); try discriminate H.
    destruct (editor_process_keypress w e inp) as [e1 rest1| | |] eqn:Hk;
      try discriminate H.
    destruct (keypress_good_buffer w e inp e1 rest1 Hg Hk) as [Hg1 Hb1].
    destruct (IH e1 rest1 Hg1 H) as [Hg' Hb']. split; [exact Hg'|lia].
Qed.

Lemma editor_loop_keeps_buffer_witness :
  let e := editor_at 16 24 [10; 20; 30] 0 1 1 MODE_NORMAL in
  let inp := [RByte 120; RByte 93; RByte 27; RNone; RByte 120] in
  exists e' rest,
    editor_loop calm_world 4 e inp = Ret e' rest /\
    good_buffer e' /\ -1 <= content_length e' <= 3.
Proof.
  intros e inp.
  assert (Hg : good_buffer e)
    by (split; [reflexivity|]; vm_compute; split; discriminate).
  assert (Hr : exists e' rest, editor_loop calm_world 4 e inp = Ret e' rest)
    by (eexists _, _; vm_compute; reflexivity).
  destruct Hr as (e' & rest & Hr). exists e', rest. split; [exact Hr|].
  exact (editor_loop_keeps_buffer calm_world 4 e inp e' rest Hg Hr).
Defined.

Lemma keypress_effect (w : world) (e : editor) (inp : stdin)
    (e' : editor) (rest : stdin) :
  editor_process_keypress w e inp = Ret e' rest ->
  e' = e \/
  exists c rest0,
    read_key w inp = Ret c rest0 /\ editor_dispatch w e c rest0 = Ret e' rest.
Proof.
  unfold editor_process_keypress.
  destruct (read_key w inp) as [c rest0| | |]; try discriminate.
  destruct (c =? -1).
  - intros H. apply Ret_inv in H. left. symmetry. apply H.
  - intros H. right. exists c, rest0. split; [reflexivity|exact H].
Qed.

(** The key [i] or [r] typed in Normal mode. *)
Lemma dispatch_mode_key (w : world) (e : editor) (c : Z) (rest : stdin) :
  mode e = MODE_NORMAL -> c = ch "i" \/ c = ch "r" ->
  editor_dispatch w e c rest
    = Ret (editor_setmode e (if c =? ch "i" then MODE_INSERT else MODE_REPLACE))
        rest.
Proof.
  intros Hm [-> | ->]; unfold editor_dispatch; rewrite Hm; reflexivity.
Qed.



(** The bytes of the buffer and its length change by four kinds of key
    only: [x], [\]] and [\[] in Normal mode, and a hexadecimal digit in
    Replace mode.  In Insert mode and in Command mode no key changes the
    buffer: nothing is inserted. *)
Theorem buffer_changes_by_edit_keys (w : world) (e : editor) (inp : stdin)
    (e' : editor) (rest : stdin) :
  editor_process_keypress w e inp = Ret e' rest ->
  (contents e' = contents e /\ content_length e' = content_length e \/
   exists c rest0,
     read_key w inp = Ret c rest0 /\
     (mode e = MODE_NORMAL /\ (c = ch "x" \/ c = ch "]" \/ c = ch "[") \/
      mode e = MODE_REPLACE /\ ishex (CChar.of_int c) = true)) /\
  (mode e = MODE_INSERT \/ mode e = MODE_COMMAND ->
   contents e' = contents e /\ content_length e' = content_length e).
Proof.
  intros H.
  assert (Hmain :
    contents e' = contents e /\ content_length e' = content_length e \/
    exists c rest0,
      read_key w inp = Ret c rest0 /\
      (mode e = MODE_NORMAL /\ (c = ch "x" \/ c = ch "]" \/ c = ch "[") \/
       mode e = MODE_REPLACE /\ ishex (CChar.of_int c) = true)).
  { apply keypress_effect in H.
    destruct H as [->|(c & rest0 & Hr & H)]; [left; split; reflexivity|].
    apply dispatch_effect in H.
    destruct H as [(H1 & H2 & _)|[[Hc ->]|[[Hm H]|(Hm & Hx & _)]]].
    - left. split; assumption.
    - left. split; apply setmode_fields.
    - destruct H as [[Hc ->]|[[Hc ->]|[[Hc _]|[[Hc _]|[Hc _]]]]].
      + left. split; apply setmode_fields.
      + left. split; apply setmode_fields.
      + right. exists c, rest0. split; [exact Hr|]. left. auto.
      + right. exists c, rest0. split; [exact Hr|]. left. auto.
      + right. exists c, rest0. split; [exact Hr|]. left. auto.
    - right. exists c, rest0. split; [exact Hr|]. right. auto. }
  split; [exact Hmain|].
  intros Hm. destruct Hmain as [Hk|(c & rest0 & _ & [[Hn _]|[Hn _]])];
    [exact Hk| |]; rewrite Hn in Hm; destruct Hm; discriminate.
Qed.

Lemma buffer_changes_by_edit_keys_witness :
  let e := editor_at 16 24 [10; 20; 30] 0 1 1 MODE_INSERT in
  exists e',
    editor_process_keypress calm_world e [RByte 120] = Ret e' [] /\
    contents e' = [10; 20; 30] /\ content_length e' = 3.
Proof.
  intros e. eexists. split; [vm_compute; reflexivity|].
  apply (buffer_changes_by_edit_keys calm_world e [RByte 120] _ []).
  - vm_compute. reflexivity.
  - left. reflexivity.
Defined.

(** ** No access outside the buffer *)

Lemma read_key_outcome (w : world) (inp : stdin) :
  match read_key w inp with
  | Fault => False
  | Exit code => code = 2
  | _ => True
  end.
Proof.
  unfold read_key.
  destruct (read_retry inp) as [[[b| |[|]] rest]|]; try exact I;
    [|reflexivity].
  cbv zeta. destruct (_ =? KEY_ESC); [|exact I].
  destruct (read_into (seq_uninit w 0) rest) as [[n0 s0] inp1].
  destruct (n0 =? 0); [exact I|].
  destruct (read_into (seq_uninit w 1) inp1) as [[n1 s1] inp2].
  destruct (n1 =? 0); [exact I|].
  destruct (s0 =? ch "["); [|exact I].
  destruct (read_into (seq_uninit w 2) inp2) as [[n2 s2] inp3].
  destruct (_ && _); [destruct (n2 =? 0); [exact I|]|];
    repeat match goal with
           | |- context [if ?b then _ else _] => destruct b
           | |- context [tilde_key ?s] => destruct (tilde_key s)
           | |- context [letter_key ?s] => destruct (letter_key s)
           end; exact I.
Qed.

Lemma keypress_outcome (w : world) (e : editor) (inp : stdin) :
  good_buffer e -> 1 <= content_length e ->
  match editor_process_keypress w e inp with
  | Fault => False
  | Exit code => code = 0 \/ code = 2 \/ code = 134 /\ filename e = None
  | _ => True
  end.
Proof.
  intros Hg Hn.
  assert (Hload : exists c0,
            load (contents e) (editor_offset_at_cursor e) = Some c0).
  { destruct Hg as [Hlen Hni]. unfold length_ok in Hlen.
    pose proof (offset_at_cursor_in_buffer e Hni Hn) as Hoff.
    revert Hoff. generalize (editor_offset_at_cursor e) as off. intros off Hoff.
    rewrite load_in_range by lia.
    apply (lookup_lt_is_Some_2 (contents e) (Z.to_nat off)). lia. }
  destruct Hload as (c0 & Hload).
  assert (Hstore : forall v, exists q,
            store (contents e) (editor_offset_at_cursor e) v = Some q).
  { intros v. eexists. apply store_in_range. eapply load_Some. exact Hload. }
  assert (Hinc : forall a, exists e1, editor_increment_byte e a = Some e1).
  { intros a. eexists. eapply increment_byte_state. exact Hload. }
  assert (Hdel : exists e1, editor_delete_char_at_cursor w e = Some e1).
  { eexists. apply delete_state; assumption. }
  assert (Hrep : forall x, exists e1, editor_replace_byte e x = Some e1).
  { intros x. unfold editor_replace_byte. cbv zeta.
    destruct (Hstore x) as (q & ->). cbn [mbind option_bind]. eauto. }
  clear Hload Hstore.
  unfold editor_process_keypress.
  pose proof (read_key_outcome w inp) as Hk.
  destruct (read_key w inp) as [c rest| | |]; [|auto|exact I|exact Hk].
  clear Hk. destruct (c =? -1); [exact I|].
  unfold editor_dispatch.
  repeat (split_if; [first [exact I | left; reflexivity | idtac]|]).
  { unfold editor_writefile. destruct (filename e) as [name|]; [|auto].
    destruct (file_sink w name _ _); [exact I|].
    destruct (_ <=? 0); exact I. }
  destruct (mode e); [|exact I| |exact I].
  - unfold normal_command, checked.
    repeat (split_if;
            [cbv iota; try lazymatch goal with |- True => exact I end|]);
      [| | | |exact I].
    + destruct Hdel as (e1 & ->). exact I.
    + pose proof (read_key_outcome w rest) as Hk.
      destruct (read_key w rest) as [c1 rest1| | |];
        [destruct (c1 =? ch "g"); exact I|auto|exact I|exact Hk].
    + destruct (Hinc 1) as (e1 & ->). exact I.
    + destruct (Hinc (-1)) as (e1 & ->). exact I.
  - unfold replace_command.
    destruct (negb _); [exact I|].
    pose proof (read_key_outcome w rest) as Hk.
    destruct (read_key w rest) as [c1 rest1| | |]; [|auto|exact I|exact Hk].
    destruct (negb _); [exact I|]. cbv zeta.
    match goal with
    | |- context [editor_replace_byte e ?x] => destruct (Hrep x) as (e1 & ->)
    end.
    exact I.
Qed.

(** On a buffer that is not empty no key makes the editor read or write
    outside [e->contents]: a keypress returns, waits for the terminal, or
    ends the process, with status 0 (Ctrl-Q), 2 (a failed [read]) or by
    [abort] (Ctrl-S without a file name). *)
Theorem keypress_stays_in_buffer (w : world) (e : editor) (inp : stdin) :
  good_buffer e -> 1 <= content_length e ->
  match editor_process_keypress w e inp with
  | Fault => False
  | Exit code => code = 0 \/ code = 2 \/ code = 134 /\ filename e = None
  | _ => True
  end.
Proof. apply keypress_outcome. Qed.

Lemma keypress_stays_in_buffer_witness :
  let e := editor_at 16 24 [10; 20; 30] 700 9 5 MODE_NORMAL in
  match editor_process_keypress calm_world e [RByte 93] with
  | Fault => False
  | Exit code => code = 0 \/ code = 2 \/ code = 134 /\ filename e = None
  | _ => True
  end.
Proof.
  intros e. apply (keypress_stays_in_buffer calm_world e [RByte 93]).
  - split; [reflexivity|]. vm_compute. split; discriminate.
  - simpl. lia.
Defined.

(** ** Paging *)

Lemma set_line_same (e : editor) : set_line (line e) e = e.
Proof. destruct e. reflexivity. Qed.

Lemma neg_exact (a : Z) : CInt.in_int (- a) -> CInt.neg a = - a.
Proof. apply wrap_id. Qed.

(** A scroll and the opposite scroll, when neither is clamped. *)
Lemma scroll_there_and_back (e : editor) (units : Z) :
  0 <= content_length e -> CInt.in_int (content_length e) ->
  1 <= octets_per_line e -> 2 <= screen_rows e -> CInt.in_int (screen_rows e) ->
  CInt.in_int units ->
  0 <= line e <= content_length e / octets_per_line e - (screen_rows e - 2) ->
  0 <= line e + units
    <= content_length e / octets_per_line e - (screen_rows e - 2) ->
  line (editor_scroll e units) = line e + units /\
  editor_scroll (editor_scroll e units) (- units) = e.
Proof.
  intros Hn Hni Ho Hr Hri Hu Hl Hlu.
  pose proof (Z.div_pos (content_length e) (octets_per_line e) Hn ltac:(lia)).
  assert (content_length e / octets_per_line e <= content_length e)
    by (apply Z.div_le_upper_bound; nia).
  assert (H1 : line (editor_scroll e units) = line e + units).
  { rewrite scroll_line_exact; try assumption; int_bounds; lia. }
  split; [exact H1|].
  rewrite (scroll_as_set_line (editor_scroll e units) (- units)).
  assert (H2 : line (editor_scroll (editor_scroll e units) (- units)) = line e).
  { destruct (scroll_fields e units) as (Ho' & Hr' & _ & _ & _ & Hn' & _).
    cbv zeta in Ho', Hr', Hn'.
    rewrite scroll_line_exact; rewrite ?Ho', ?Hr', ?Hn', ?H1; try assumption;
      int_bounds; lia. }
  rewrite H2. clear H1 H2.
  pose proof (scroll_as_set_line e units) as Hs.
  revert Hs. generalize (line (editor_scroll e units)) as ln. intros ln Hs.
  rewrite Hs, set_line_twice. apply set_line_same.
Qed.

(** Page Down and then Page Up give the state back when a whole page lies
    below the screen, and so do Page Up and then Page Down when a whole
    page lies above it: the screen moves by [screen_rows - 2] lines each
    way. *)
Theorem page_down_then_page_up (w : world) (e : editor) (rest rest' : stdin) :
  0 <= content_length e -> CInt.in_int (content_length e) ->
  1 <= octets_per_line e -> 2 <= screen_rows e -> CInt.in_int (screen_rows e) ->
  0 <= line e <= content_length e / octets_per_line e - (screen_rows e - 2) ->
  (line e + (screen_rows e - 2)
     <= content_length e / octets_per_line e - (screen_rows e - 2) ->
   exists e1,
     editor_dispatch w e KEY_PAGEDOWN rest = Ret e1 rest /\
     line e1 = line e + (screen_rows e - 2) /\
     editor_dispatch w e1 KEY_PAGEUP rest' = Ret e rest') /\
  (screen_rows e - 2 <= line e ->
   exists e1,
     editor_dispatch w e KEY_PAGEUP rest = Ret e1 rest /\
     line e1 = line e - (screen_rows e - 2) /\
     editor_dispatch w e1 KEY_PAGEDOWN rest' = Ret e rest').
Proof.
  intros Hn Hni Ho Hr Hri Hl.
  assert (Hdown : forall e0 r,
            editor_dispatch w e0 KEY_PAGEDOWN r
              = Ret (editor_scroll e0 (screen_rows e0 -i 2)) r)
    by reflexivity.
  assert (Hup : forall e0 r,
            editor_dispatch w e0 KEY_PAGEUP r
              = Ret (editor_scroll e0 (CInt.neg (screen_rows e0) +i 2)) r)
    by reflexivity.
  assert (Hpage : screen_rows e -i 2 = screen_rows e - 2)
    by (apply sub_exact; int_bounds; lia).
  assert (Hback : CInt.neg (screen_rows e) +i 2 = - (screen_rows e - 2)).
  { rewrite neg_exact by (int_bounds; lia).
    rewrite add_exact by (int_bounds; lia). lia. }
  split; intros Hfit.
  - destruct (scroll_there_and_back e (screen_rows e - 2)) as [H1 H2];
      try assumption; try (int_bounds; lia).
    exists (editor_scroll e (screen_rows e - 2)).
    rewrite Hdown, Hup, Hpage. split; [reflexivity|]. split; [exact H1|].
    destruct (scroll_fields e (screen_rows e - 2)) as (_ & -> & _).
    rewrite Hback, H2. reflexivity.
  - destruct (scroll_there_and_back e (- (screen_rows e - 2))) as [H1 H2];
      try assumption; try (int_bounds; lia).
    exists (editor_scroll e (- (screen_rows e - 2))).
    rewrite Hdown, Hup, Hback. split; [reflexivity|]. split; [rewrite H1; lia|].
    destruct (scroll_fields e (- (screen_rows e - 2))) as (_ & -> & _).
    rewrite Hpage.
    rewrite Z.opp_involutive in H2. rewrite H2. reflexivity.
Qed.

Lemma page_down_then_page_up_witness :
  let e := editor_at 16 24 (replicate 4000 0) 30 1 1 MODE_NORMAL in
  exists e1,
    editor_dispatch calm_world e KEY_PAGEDOWN [] = Ret e1 [] /\
    line e1 = 52 /\
    editor_dispatch calm_world e1 KEY_PAGEUP [] = Ret e [].
Proof.
  intros e.
  apply (proj1 (page_down_then_page_up calm_world e [] []
                  ltac:(vm_compute; discriminate)
                  ltac:(vm_compute; split; discriminate)
                  ltac:(vm_compute; discriminate)
                  ltac:(vm_compute; discriminate)
                  ltac:(vm_compute; split; discriminate)
                  ltac:(vm_compute; split; discriminate))).
  vm_compute. discriminate.
Defined.

(** ** Jumps *)

Lemma last_byte_row (n opl : Z) :
  1 <= opl -> 1 <= n -> n / opl - 1 <= (n - 1) / opl <= n / opl.
Proof.
  intros Ho Hn.
  pose proof (Z.div_mod n opl ltac:(lia)).
  pose proof (Z.mod_pos_bound n opl ltac:(lia)).
  pose proof (Z.div_mod (n - 1) opl ltac:(lia)).
  pose proof (Z.mod_pos_bound (n - 1) opl ltac:(lia)).
  split; nia.
Qed.

(** [G] in Normal mode: the screen scrolls to its last line and the cursor
    goes to the last byte of the buffer, on the screen. *)
Theorem jump_to_last_byte (w : world) (e : editor) (rest : stdin) :
  mode e = MODE_NORMAL ->
  1 <= content_length e -> CInt.in_int (content_length e) ->
  1 <= octets_per_line e -> CInt.in_int (octets_per_line e) ->
  3 <= screen_rows e -> CInt.in_int (screen_rows e) ->
  0 <= line e -> CInt.in_int (line e + content_length e) ->
  exists e',
    editor_process_keypress w e (RByte (ch "G") :: rest) = Ret e' rest /\
    line e' = scroll_limit e /\
    raw_offset e' = content_length e - 1 /\
    editor_offset_at_cursor e' = content_length e - 1 /\
    cursor_in_bounds e' /\ same_buffer e e'.
Proof.
  intros Hm Hn Hni Ho Hoi Hr Hri Hl Hln.
  assert (Hkey : editor_process_keypress w e (RByte (ch "G") :: rest)
                 = Ret (cursor_to_offset (editor_scroll e (content_length e))
                          (content_length (editor_scroll e (content_length e))
                           -i 1)) rest).
  { unfold editor_process_keypress.
    rewrite read_key_plain by (ch_values; lia).
    replace (CChar.of_int (ch "G")) with (ch "G") by (vm_compute; reflexivity).
    change (ch "G" =? -1) with false. cbv iota.
    unfold editor_dispatch. rewrite Hm. reflexivity. }
  rewrite Hkey. clear Hkey. eexists. split; [reflexivity|].
  destruct (scroll_fields e (content_length e)) as (_ & _ & _ & _ & _ & -> & _).
  rewrite sub_exact by (int_bounds; lia).
  pose proof (Z.div_pos (content_length e) (octets_per_line e)
                ltac:(lia) ltac:(lia)) as Hq0.
  assert (Hq : content_length e / octets_per_line e <= content_length e)
    by (apply Z.div_le_upper_bound; nia).
  assert (Hline : line (editor_scroll e (content_length e)) = scroll_limit e).
  { rewrite scroll_line_exact; try assumption; try (int_bounds; lia).
    unfold scroll_limit. rewrite Z.quot_div_nonneg by lia. lia. }
  assert (Hlimit : scroll_limit e
                   = Z.max 0 (content_length e / octets_per_line e
                              - (screen_rows e - 2))).
  { unfold scroll_limit. rewrite Z.quot_div_nonneg by lia. reflexivity. }
  destruct (scroll_fields e (content_length e))
    as (Ho1 & Hr1 & _ & _ & Hc1 & Hn1 & Hm1).
  cbv zeta in Ho1, Hr1, Hc1, Hn1, Hm1.
  revert Hline Ho1 Hr1 Hc1 Hn1 Hm1.
  generalize (editor_scroll e (content_length e)) as e1.
  intros e1 Hline Ho1 Hr1 Hc1 Hn1 Hm1.
  unfold cursor_to_offset.
  rewrite cursor_at_offset_exact
    by (rewrite ?Ho1, ?Hline, ?Hlimit; int_bounds; lia).
  rewrite Ho1, Hline, Hlimit. rewrite Hlimit in Hline.
  pose proof (last_byte_row (content_length e) (octets_per_line e) Ho Hn) as Hrow.
  pose proof (Z.mod_pos_bound (content_length e - 1) (octets_per_line e)
                ltac:(lia)) as Hcol.
  pose proof (Z.div_mod (content_length e - 1) (octets_per_line e)
                ltac:(lia)) as Hdm.
  pose proof (Z.div_pos (content_length e - 1) (octets_per_line e)
                ltac:(lia) ltac:(lia)) as Hq1.
  clear Hq0 Hq.
  revert Hrow Hcol Hdm Hline Hq1.
  generalize ((content_length e - 1) / octets_per_line e) as q.
  generalize ((content_length e - 1) mod octets_per_line e) as r.
  generalize (content_length e / octets_per_line e) as q'.
  intros q' r q Hrow Hcol Hdm Hline Hq1.
  set (ln := Z.max 0 (q' - (screen_rows e - 2))) in *.
  assert (Hln' : 0 <= ln /\ q - (screen_rows e - 2) <= ln <= q)
    by (unfold ln; lia).
  clearbody ln.
  set (e' := set_cursor_y (q - ln + 1) (set_cursor_x (r + 1) e1)).
  assert (Hx : cursor_x e' = r + 1) by reflexivity.
  assert (Hy : cursor_y e' = q - ln + 1) by reflexivity.
  assert (Hl' : line e' = ln) by exact Hline.
  assert (Ho' : octets_per_line e' = octets_per_line e) by exact Ho1.
  assert (Hr' : screen_rows e' = screen_rows e) by exact Hr1.
  assert (Hc' : contents e' = contents e) by exact Hc1.
  assert (Hn' : content_length e' = content_length e) by exact Hn1.
  assert (Hm' : mode e' = mode e) by exact Hm1.
  clearbody e'.
  assert (Hraw : raw_offset e' = content_length e - 1).
  { unfold raw_offset. rewrite Hx, Hy, Hl', Ho'. clear - Hdm. lia. }
  assert (Hin : cursor_in_bounds e').
  { unfold cursor_in_bounds. rewrite Hx, Hy, Ho', Hr'. clear - Hcol Hln' Hr. lia. }
  split; [exact Hl'|]. split; [exact Hraw|].
  split; [|split; [exact Hin|repeat split; assumption]].
  rewrite <- Hraw. apply cursor_on_byte; rewrite ?Ho', ?Hn', ?Hl', ?Hraw;
    try assumption; lia.
Qed.

Lemma jump_to_last_byte_witness :
  let e := editor_at 16 24 (replicate 1000 7) 3 5 2 MODE_NORMAL in
  exists e',
    editor_process_keypress calm_world e [RByte (ch "G")] = Ret e' [] /\
    line e' = 40 /\ raw_offset e' = 999 /\
    editor_offset_at_cursor e' = 999 /\
    cursor_in_bounds e' /\ same_buffer e e'.
Proof.
  intros e.
  apply (jump_to_last_byte calm_world e []); vm_compute;
    first [reflexivity | discriminate | split; discriminate].
Defined.

(** [g] in Normal mode waits for a second key.  With a second [g] the
    screen goes to line 0 and the cursor to the first byte; any other byte
    is taken from the terminal as well and nothing changes. *)
Theorem jump_to_first_byte (w : world) (e : editor) (rest : stdin) :
  mode e = MODE_NORMAL ->
  1 <= octets_per_line e -> CInt.in_int (octets_per_line e) ->
  (exists e',
     editor_process_keypress w e (RByte (ch "g") :: RByte (ch "g") :: rest)
       = Ret e' rest /\
     line e' = 0 /\ cursor_x e' = 1 /\ cursor_y e' = 1 /\
     editor_offset_at_cursor e' = 0 /\ same_buffer e e') /\
  (forall b, 0 <= b < 256 -> b <> KEY_ESC -> b <> ch "g" ->
     editor_process_keypress w e (RByte (ch "g") :: RByte b :: rest)
       = Ret e rest).
Proof.
  intros Hm Ho Hoi.
  assert (Hkey : forall b, 0 <= b < 256 -> b <> KEY_ESC ->
            editor_process_keypress w e (RByte (ch "g") :: RByte b :: rest)
            = if CChar.of_int b =? ch "g"
              then Ret (cursor_to_offset (set_line 0 e) 0) rest
              else Ret e rest).
  { intros b Hb Hesc. unfold editor_process_keypress.
    rewrite read_key_plain by (ch_values; lia).
    replace (CChar.of_int (ch "g")) with (ch "g") by (vm_compute; reflexivity).
    change (ch "g" =? -1) with false. cbv iota.
    unfold editor_dispatch. rewrite Hm.
    change (normal_command w e (ch "g") (RByte b :: rest))
      with (match read_key w (RByte b :: rest) with
            | Ret c rest =>
                if c =? ch "g" then Ret (cursor_to_offset (set_line 0 e) 0) rest
                else Ret e rest
            | Exit code => Exit code
            | Blocked => Blocked
            | Fault => Fault
            end).
    rewrite read_key_plain by (unfold KEY_ESC in Hesc; lia).
    reflexivity. }
  split.
  - rewrite Hkey by (unfold KEY_ESC; ch_values; lia).
    replace (CChar.of_int (ch "g")) with (ch "g") by (vm_compute; reflexivity).
    change (ch "g" =? ch "g") with true. cbv iota.
    eexists. split; [reflexivity|].
    unfold cursor_to_offset.
    rewrite cursor_at_offset_exact
      by (fields; try assumption; int_bounds; lia).
    fields. rewrite Z.mod_0_l, Z.div_0_l by lia.
    split; [reflexivity|]. split; [reflexivity|]. split; [reflexivity|].
    split; [|repeat split; reflexivity].
    unfold editor_offset_at_cursor, cursor_offset. fields.
    replace (0 - 0 + 1 -i 1 +i 0) with 0 by (vm_compute; reflexivity).
    replace (0 + 1 -i 1) with 0 by (vm_compute; reflexivity).
    rewrite mul_exact by (int_bounds; lia).
    replace (0 * octets_per_line e +i 0) with 0 by (vm_compute; reflexivity).
    reflexivity.
  - intros b Hb Hesc Hg. rewrite Hkey by assumption.
    destruct (Z.eqb_spec (CChar.of_int b) (ch "g")) as [Heq|]; [|reflexivity].
    apply (of_int_byte_eq b (ch "g")) in Heq; [contradiction|lia|].
    ch_values. lia.
Qed.

Lemma jump_to_first_byte_witness :
  let e := editor_at 16 24 (replicate 1000 7) 3 5 2 MODE_NORMAL in
  exists e',
    editor_process_keypress calm_world e [RByte (ch "g"); RByte (ch "g")]
      = Ret e' [] /\
    line e' = 0 /\ cursor_x e' = 1 /\ cursor_y e' = 1 /\
    editor_offset_at_cursor e' = 0 /\ same_buffer e e'.
Proof.
  intros e.
  apply (proj1 (jump_to_first_byte calm_world e []
                  ltac:(reflexivity) ltac:(vm_compute; discriminate)
                  ltac:(vm_compute; split; discriminate))).
Defined.

(** ** Options *)

(** For limits that are not negative, as those of [main] are, the
    comparisons of [str2int], made on unsigned 64-bit values, select the
    numbers between [min] and [max]: the result is the number parsed when it
    lies between the limits and no range error was signalled, and [def] in
    every other case, a negative number included.  So the result is [def]
    or lies between the limits. *)
Theorem str2int_within_limits (parsed : Z) (erange : bool) (min max def : Z) :
  - 2 ^ 63 <= parsed < 2 ^ 63 ->
  0 <= min -> min <= max -> CInt.in_int max ->
  str2int parsed erange min max def
    = (if erange then def
       else if (min <=? parsed) && (parsed <=? max) then parsed else def) /\
  (str2int parsed erange min max def = def \/
   min <= str2int parsed erange min max def <= max).
Proof.
  intros Hp Hmin Hle Hmax.
  assert (H : str2int parsed erange min max def
              = (if erange then def
                 else if (min <=? parsed) && (parsed <=? max) then parsed
                      else def)).
  { unfold str2int. cbv zeta. destruct erange; [reflexivity|].
    change (2 ^ 63) with 9223372036854775808 in Hp.
    change (2 ^ 64) with 18446744073709551616.
    rewrite (Z.mod_small min), (Z.mod_small max) by (int_bounds; lia).
    destruct (Z.le_gt_cases 0 parsed) as [Hpos|Hneg].
    - rewrite (Z.mod_small parsed) by lia.
      rewrite Z.gtb_ltb.
      destruct (Z.ltb_spec parsed min), (Z.ltb_spec max parsed),
        (Z.leb_spec min parsed), (Z.leb_spec parsed max);
        cbn [andb orb]; try lia; try reflexivity.
      apply wrap_id. int_bounds. lia.
    - replace (parsed mod 18446744073709551616)
        with (parsed + 18446744073709551616).
      2: { symmetry. rewrite <- (Z.mod_add parsed 1) by lia.
           apply Z.mod_small. lia. }
      rewrite Z.gtb_ltb.
      destruct (Z.ltb_spec (parsed + 18446744073709551616) min),
        (Z.ltb_spec max (parsed + 18446744073709551616)),
        (Z.leb_spec min parsed), (Z.leb_spec parsed max);
        cbn [andb orb]; try reflexivity; int_bounds; lia. }
  split; [exact H|]. rewrite H.
  destruct erange; [left; reflexivity|].
  destruct (Z.leb_spec min parsed), (Z.leb_spec parsed max); cbn [andb];
    auto.
Qed.

Lemma str2int_within_limits_witness :
  str2int 32 false 16 64 16 = 32 /\ str2int (-32) false 16 64 16 = 16 /\
  str2int 65 false 16 64 16 = 16.
Proof.
  split; [|split].
  - apply (proj1 (str2int_within_limits 32 false 16 64 16
                    ltac:(split; [discriminate|reflexivity])
                    ltac:(discriminate) ltac:(discriminate)
                    ltac:(split; discriminate))).
  - apply (proj1 (str2int_within_limits (-32) false 16 64 16
                    ltac:(split; [discriminate|reflexivity])
                    ltac:(discriminate) ltac:(discriminate)
                    ltac:(split; discriminate))).
  - apply (proj1 (str2int_within_limits 65 false 16 64 16
                    ltac:(split; [discriminate|reflexivity])
                    ltac:(discriminate) ltac:(discriminate)
                    ltac:(split; discriminate))).
Defined.

(** ** Steps of the cursor *)

Lemma moved_only_refl (e : editor) : moved_only e e.
Proof. destruct e. reflexivity. Qed.

Lemma moved_only_trans (e1 e2 e3 : editor) :
  moved_only e1 e2 -> moved_only e2 e3 -> moved_only e1 e3.
Proof.
  unfold moved_only. intros H1 H2.
  revert H2. generalize (line e3), (cursor_y e3), (cursor_x e3).
  intros l3 y3 x3 ->. rewrite H1. reflexivity.
Qed.

Lemma moved_only_set_cursor_x (v : Z) (e : editor) :
  moved_only e (set_cursor_x v e).
Proof. destruct e. reflexivity. Qed.

Lemma moved_only_set_cursor_y (v : Z) (e : editor) :
  moved_only e (set_cursor_y v e).
Proof. destruct e. reflexivity. Qed.

Lemma moved_only_set_line (v : Z) (e : editor) : moved_only e (set_line v e).
Proof. destruct e. reflexivity. Qed.

Lemma moved_only_scroll (e : editor) (units : Z) :
  moved_only e (editor_scroll e units).
Proof. rewrite scroll_as_set_line. apply moved_only_set_line. Qed.

Lemma moved_only_cursor_to_offset (e : editor) (offset : Z) :
  moved_only e (cursor_to_offset e offset).
Proof.
  unfold cursor_to_offset.
  destruct (editor_cursor_at_offset e offset) as [x y].
  eapply moved_only_trans;
    [apply moved_only_set_cursor_x|apply moved_only_set_cursor_y].
Qed.

(** [editor_move_cursor] assigns the cursor and the line, and nothing
    else. *)
Lemma moved_only_move_cursor (e : editor) (dir amount : Z) :
  moved_only e (editor_move_cursor e dir amount).
Proof.
  unfold editor_move_cursor. cbv zeta.
  assert (H1 : moved_only e (step_cursor e dir amount)).
  { unfold step_cursor.
    repeat match goal with
           | |- context [if ?b then _ else _] => destruct b
           end;
      first [apply moved_only_set_cursor_x | apply moved_only_set_cursor_y
            | apply moved_only_refl]. }
  revert H1. generalize (step_cursor e dir amount) as e1. intros e1 H1.
  eapply moved_only_trans; [exact H1|]. clear H1.
  destruct (at_file_start e1).
  { eapply moved_only_trans;
      [apply moved_only_set_cursor_x|apply moved_only_set_cursor_y]. }
  assert (H2 : moved_only e1 (wrap_columns e1)).
  { unfold wrap_columns.
    repeat match goal with
           | |- context [if ?b then _ else _] => destruct b
           end;
      first [apply moved_only_refl
            | eapply moved_only_trans;
              [apply moved_only_set_cursor_y|apply moved_only_set_cursor_x] ]. }
  revert H2. generalize (wrap_columns e1) as e2. intros e2 H2.
  eapply moved_only_trans; [exact H2|]. clear H2.
  assert (H3 : moved_only e2 (stop_at_top e2)).
  { unfold stop_at_top.
    destruct (_ && _); [apply moved_only_set_cursor_y|apply moved_only_refl]. }
  revert H3. generalize (stop_at_top e2) as e3. intros e3 H3.
  eapply moved_only_trans; [exact H3|]. clear H3.
  assert (H4 : moved_only e3 (scroll_rows e3)).
  { unfold scroll_rows.
    destruct (_ >? _);
      [eapply moved_only_trans;
       [apply moved_only_set_cursor_y|apply moved_only_scroll]|].
    destruct (_ && _); [|apply moved_only_refl].
    eapply moved_only_trans;
      [apply moved_only_set_cursor_y|apply moved_only_scroll]. }
  revert H4. generalize (scroll_rows e3) as e4. intros e4 H4.
  eapply moved_only_trans; [exact H4|]. clear H4.
  unfold stop_at_end. cbv zeta.
  generalize (editor_offset_at_cursor e4) as off. intros off.
  destruct (_ >=? _);
    [apply moved_only_cursor_to_offset|apply moved_only_refl].
Qed.

Lemma moved_only_same_position (e e' : editor) :
  moved_only e e' -> cursor_x e' = cursor_x e -> cursor_y e' = cursor_y e ->
  line e' = line e -> e' = e.
Proof.
  unfold moved_only. intros H Hx Hy Hl. rewrite Hx, Hy, Hl in H. rewrite H.
  destruct e. reflexivity.
Qed.

(** A step left from a byte that is not the first of the screen: the
    cursor steps left within the screen, to the byte before. *)
Lemma move_left_on_byte (e : editor) :
  CInt.in_int (octets_per_line e) -> CInt.in_int (screen_rows e) ->
  CInt.in_int (content_length e) ->
  cursor_in_bounds e -> 0 <= line e ->
  1 <= raw_offset e <= content_length e - 1 ->
  1 < cursor_x e \/ 1 < cursor_y e ->
  let e' := editor_move_cursor e KEY_LEFT 1 in
  line e' = line e /\
  (1 < cursor_x e /\ cursor_x e' = cursor_x e - 1 /\ cursor_y e' = cursor_y e \/
   cursor_x e = 1 /\ cursor_x e' = octets_per_line e /\
     cursor_y e' = cursor_y e - 1).
Proof.
  intros Hoi Hri Hni [Hx Hy] Hl Hraw Hroom. cbv zeta.
  unfold raw_offset in Hraw.
  assert (Hrows : 2 <= screen_rows e) by lia.
  assert (Hopl : 1 <= octets_per_line e) by lia.
  assert (Hlb : line e <= content_length e - 1) by nia.
  assert (Hpos : 1 <= content_length e) by nia.
  int_bounds.
  pose proof (same_buffer_move_cursor e KEY_LEFT 1) as Hfinal.
  geometry Hfinal. clear Hn Ho Hr.
  unfold editor_move_cursor. cbv zeta.
  (* the switch *)
  assert (Hx1 : cursor_x (step_cursor e KEY_LEFT 1) = cursor_x e - 1)
    by (rewrite step_cursor_left by (int_bounds; lia); reflexivity).
  assert (Hy1 : cursor_y (step_cursor e KEY_LEFT 1) = cursor_y e)
    by (rewrite step_cursor_left by (int_bounds; lia); reflexivity).
  assert (Hl1 : line (step_cursor e KEY_LEFT 1) = line e)
    by (rewrite step_cursor_left by (int_bounds; lia); reflexivity).
  pose proof (same_buffer_step_cursor e KEY_LEFT 1) as Hb1. geometry Hb1.
  set (e1 := step_cursor e KEY_LEFT 1) in *. clearbody e1.
  destruct (at_file_start e1) eqn:Hstart; unfold at_file_start in Hstart.
  { rewrite !andb_true_iff, !Z.leb_le, Hx1, Hy1, Hl1 in Hstart. fields.
    rewrite Hl1. clear - Hstart Hx Hy Hl Hraw Hopl. nia. }
  rewrite !andb_false_iff, !Z.leb_gt, Hx1, Hy1, Hl1 in Hstart.
  (* the columns, the top, the rows *)
  destruct (wrap_columns_spec e1) as (Hl2 & Hc2);
    try (intros Hp; int_bounds; clear - Hp Hx1 Hy1 Hy Hri; lia).
  rewrite Hx1, Hy1, Ho in Hc2.
  pose proof (same_buffer_wrap_columns e1) as Hb2. geometry Hb2.
  set (e2 := wrap_columns e1) in *. clearbody e2.
  destruct (stop_at_top_spec e2) as (Hl3 & Hx3 & Hc3).
  pose proof (same_buffer_stop_at_top e2) as Hb3. geometry Hb3.
  set (e3 := stop_at_top e2) in *. clearbody e3.
  assert (He3 : content_length e3 = content_length e
                /\ octets_per_line e3 = octets_per_line e
                /\ screen_rows e3 = screen_rows e /\ line e3 = line e)
    by (clear - Hl1 Hl2 Hl3 Hn Hn0 Hn1 Ho Ho0 Ho1 Hr Hr0 Hr1; lia).
  destruct He3 as (En & Eo & Er & El).
  destruct (scroll_rows_spec e3) as (Hx4 & Hc4);
    try (rewrite ?En, ?Eo, ?Er, ?El; int_bounds;
         clear - Hpos Hni Hopl Hrows Hri Hl Hlb; lia).
  cbv zeta in Hc4. rewrite En, Eo, Er, El in Hc4.
  pose proof (same_buffer_scroll_rows e3) as Hb4. geometry Hb4.
  set (e4 := scroll_rows e3) in *. clearbody e4.
  assert (He4 : content_length e4 = content_length e
                /\ octets_per_line e4 = octets_per_line e
                /\ screen_rows e4 = screen_rows e)
    by (clear - En Eo Er Hn2 Ho2 Hr2; lia).
  destruct He4 as (En4 & Eo4 & Er4).
  (* where the cursor is before the last block *)
  assert (Hcase : 1 < cursor_x e \/ cursor_x e = 1 /\ 1 < cursor_y e)
    by (clear - Hroom Hx Hy; lia).
  assert (Hs4 :
      line e4 = line e /\
      (1 < cursor_x e /\ cursor_x e4 = cursor_x e - 1
         /\ cursor_y e4 = cursor_y e \/
       cursor_x e = 1 /\ cursor_x e4 = octets_per_line e
         /\ cursor_y e4 = cursor_y e - 1)).
  { destruct Hcase as [HA | HB].
    - assert (S2 : cursor_x e2 = cursor_x e - 1 /\ cursor_y e2 = cursor_y e)
        by (clear - Hc2 HA Hx; lia).
      assert (S3 : cursor_y e3 = cursor_y e)
        by (clear - Hc3 S2 Hy; lia).
      assert (S4 : cursor_y e4 = cursor_y e /\ line e4 = line e)
        by (clear - Hc4 S3 Hy; lia).
      split; [tauto|]. left. clear - HA S2 Hx3 Hx4 S4. lia.
    - assert (S2 : cursor_x e2 = octets_per_line e
                   /\ cursor_y e2 = cursor_y e - 1)
        by (clear - Hc2 HB Hopl; lia).
      assert (S3 : cursor_y e3 = cursor_y e - 1)
        by (clear - Hc3 S2 HB; lia).
      assert (S4 : cursor_y e4 = cursor_y e - 1 /\ line e4 = line e)
        by (clear - Hc4 S3 HB Hy; lia).
      split; [tauto|]. right. clear - HB S2 Hx3 Hx4 S4. lia. }
  clear Hstart Hc2 Hc3 Hc4.
  assert (Hon : 0 <= raw_offset e4 <= content_length e4 - 1).
  { unfold raw_offset. rewrite Eo4, En4.
    clear - Hs4 Hraw Hx Hy Hl Hopl. nia. }
  destruct (stop_at_end_on_byte e4) as (Fx & Fy & Fl).
  { rewrite Eo4. exact Hoi. }
  { rewrite En4. exact Hni. }
  { unfold cursor_in_bounds. rewrite Eo4, Er4.
    clear - Hs4 Hx Hy Hopl Hrows Hroom. lia. }
  { clear - Hs4 Hl. lia. }
  { exact Hon. }
  rewrite Fx, Fy, Fl. exact Hs4.
Qed.

(** A step right and then a step left, from a byte that is not the last
    one and not in the bottom right corner of the screen, give the state
    back; so do a step left and then a step right, from a byte that is not
    in the top left corner.  The first step moves the offset of the cursor
    by exactly one. *)
Theorem step_right_then_left (e : editor) :
  CInt.in_int (octets_per_line e) -> CInt.in_int (screen_rows e) ->
  CInt.in_int (content_length e) ->
  cursor_in_bounds e -> 0 <= line e ->
  (raw_offset e + 1 <= content_length e - 1 ->
   cursor_x e < octets_per_line e \/ cursor_y e < screen_rows e - 1 ->
   raw_offset (editor_move_cursor e KEY_RIGHT 1) = raw_offset e + 1 /\
   editor_move_cursor (editor_move_cursor e KEY_RIGHT 1) KEY_LEFT 1 = e) /\
  (1 <= raw_offset e <= content_length e - 1 ->
   1 < cursor_x e \/ 1 < cursor_y e ->
   raw_offset (editor_move_cursor e KEY_LEFT 1) = raw_offset e - 1 /\
   editor_move_cursor (editor_move_cursor e KEY_LEFT 1) KEY_RIGHT 1 = e).
Proof.
  intros Hoi Hri Hni Hin Hl. pose proof Hin as [Hx Hy].
  assert (Hopl : 1 <= octets_per_line e) by lia.
  split.
  - intros Hraw Hroom.
    destruct (move_right_on_byte e Hoi Hri Hni Hin Hl Hraw Hroom)
      as [Hstep Hnext].
    pose proof (same_buffer_move_cursor e KEY_RIGHT 1) as Hb. geometry Hb.
    pose proof (moved_only_move_cursor e KEY_RIGHT 1) as Hm.
    revert Hstep Hnext Hn Ho Hr Hm.
    generalize (editor_move_cursor e KEY_RIGHT 1) as e1.
    intros e1 (Hl1 & Hstep) Hnext Hn Ho Hr Hm.
    split; [exact Hnext|].
    assert (Hraw0 : 0 <= raw_offset e) by (unfold raw_offset; nia).
    destruct (move_left_on_byte e1) as (Hl2 & Hback).
    { rewrite Ho. exact Hoi. }
    { rewrite Hr. exact Hri. }
    { rewrite Hn. exact Hni. }
    { unfold cursor_in_bounds. rewrite Ho, Hr.
      clear - Hstep Hx Hy Hroom. lia. }
    { rewrite Hl1. exact Hl. }
    { rewrite Hnext, Hn. clear - Hraw Hraw0. lia. }
    { clear - Hstep Hx Hy. lia. }
    pose proof (moved_only_move_cursor e1 KEY_LEFT 1) as Hm2.
    revert Hl2 Hback Hm2. rewrite Ho.
    generalize (editor_move_cursor e1 KEY_LEFT 1) as e2.
    intros e2 Hl2 Hback Hm2.
    apply moved_only_same_position.
    + eapply moved_only_trans; eassumption.
    + clear - Hstep Hback Hx Hopl. lia.
    + clear - Hstep Hback Hx Hopl. lia.
    + congruence.
  - intros Hraw Hroom.
    destruct (move_left_on_byte e Hoi Hri Hni Hin Hl Hraw Hroom)
      as [Hl1 Hstep].
    pose proof (same_buffer_move_cursor e KEY_LEFT 1) as Hb. geometry Hb.
    pose proof (moved_only_move_cursor e KEY_LEFT 1) as Hm.
    revert Hstep Hl1 Hn Ho Hr Hm.
    generalize (editor_move_cursor e KEY_LEFT 1) as e1.
    intros e1 Hstep Hl1 Hn Ho Hr Hm.
    assert (Hprev : raw_offset e1 = raw_offset e - 1).
    { unfold raw_offset. rewrite Ho, Hl1.
      destruct Hstep as [(_ & -> & ->) | (Hc & -> & ->)]; [lia|].
      rewrite Hc. lia. }
    split; [exact Hprev|].
    destruct (move_right_on_byte e1) as ((Hl2 & Hback) & _).
    { rewrite Ho. exact Hoi. }
    { rewrite Hr. exact Hri. }
    { rewrite Hn. exact Hni. }
    { unfold cursor_in_bounds. rewrite Ho, Hr.
      clear - Hstep Hx Hy Hroom Hopl. lia. }
    { rewrite Hl1. exact Hl. }
    { rewrite Hprev, Hn. clear - Hraw. lia. }
    { rewrite Ho, Hr. clear - Hstep Hx Hy. lia. }
    pose proof (moved_only_move_cursor e1 KEY_RIGHT 1) as Hm2.
    revert Hl2 Hback Hm2. rewrite Ho.
    generalize (editor_move_cursor e1 KEY_RIGHT 1) as e2.
    intros e2 Hl2 Hback Hm2.
    apply moved_only_same_position.
    + eapply moved_only_trans; eassumption.
    + clear - Hstep Hback Hx Hopl. lia.
    + clear - Hstep Hback Hx Hopl. lia.
    + congruence.
Qed.

Lemma step_right_then_left_witness :
  let e := editor_at 16 24 (replicate 100 7) 0 16 2 MODE_NORMAL in
  raw_offset (editor_move_cursor e KEY_RIGHT 1) = 32 /\
  editor_move_cursor (editor_move_cursor e KEY_RIGHT 1) KEY_LEFT 1 = e.
Proof.
  intros e.
  apply (proj1 (step_right_then_left e
                  ltac:(vm_compute; split; discriminate)
                  ltac:(vm_compute; split; discriminate)
                  ltac:(vm_compute; split; discriminate)
                  ltac:(vm_compute; repeat split; discriminate)
                  ltac:(vm_compute; discriminate))).
  - vm_compute. discriminate.
  - right. vm_compute. reflexivity.
Defined.

(** ** The bytes of [seq] that no [read] has written *)

Lemma read_retry_no_error (inp : stdin) (r : read_result) (rest : stdin) :
  no_read_error inp = true -> read_retry inp = Some (r, rest) ->
  no_read_error rest = true /\ exists b, r = RByte b.
Proof.
  induction inp as [|[b| |eintr] inp IH]; cbn [read_retry no_read_error forallb].
  - discriminate.
  - intros Hn H. apply (inj Some) in H. apply pair_equal_spec in H.
    destruct H as [<- <-]. split; [exact Hn|]. exists b. reflexivity.
  - exact IH.
  - discriminate.
Qed.

Lemma read_into_no_error (old old' : Z) (inp : stdin) :
  no_read_error inp = true ->
  exists n s s' rest,
    read_into old inp = (n, s, rest) /\ read_into old' inp = (n, s', rest) /\
    no_read_error rest = true /\ (n = 0 \/ s = s').
Proof.
  destruct inp as [|[b| |eintr] inp]; cbn [read_into no_read_error forallb];
    intros Hn; try discriminate.
  - eexists _, _, _, _. split; [reflexivity|]. split; [reflexivity|]. auto.
  - eexists _, _, _, _. split; [reflexivity|]. split; [reflexivity|]. auto.
  - eexists _, _, _, _. split; [reflexivity|]. split; [reflexivity|]. auto.
Qed.

(** [read_key] looks at [seq\[0\]], [seq\[1\]] and [seq\[2\]] after calls
    of [read] it only tests for the result 0.  As long as no [read] fails
    the key does not depend on what the array held; after ESC and two
    interrupted calls of [read] it does: stale bytes are decoded as a
    key. *)
Theorem read_key_indeterminate_seq (w w' : world) (inp : stdin) :
  (no_read_error inp = true -> read_key w inp = read_key w' inp) /\
  read_key stale_world [RByte 27; RError true; RError true] = Ret KEY_UP [] /\
  read_key calm_world [RByte 27; RError true; RError true] = Ret KEY_ESC [].
Proof.
  split; [|split; reflexivity].
  intros Hn. unfold read_key.
  destruct (read_retry inp) as [[r rest]|] eqn:Hr; [|reflexivity].
  destruct (read_retry_no_error inp r rest Hn Hr) as (Hn0 & b & ->).
  cbv zeta. destruct (_ =? KEY_ESC); [|reflexivity].
  destruct (read_into_no_error (seq_uninit w 0) (seq_uninit w' 0) rest Hn0)
    as (n0 & s0 & s0' & inp1 & -> & -> & Hn1 & Hs0).
  destruct (Z.eqb_spec n0 0) as [|Hz0]; [reflexivity|].
  destruct Hs0 as [|<-]; [contradiction|].
  destruct (read_into_no_error (seq_uninit w 1) (seq_uninit w' 1) inp1 Hn1)
    as (n1 & s1 & s1' & inp2 & -> & -> & Hn2 & Hs1).
  destruct (Z.eqb_spec n1 0) as [|Hz1]; [reflexivity|].
  destruct Hs1 as [|<-]; [contradiction|].
  destruct (s0 =? ch "["); [|reflexivity].
  destruct (_ && _); [|reflexivity].
  destruct (read_into_no_error (seq_uninit w 2) (seq_uninit w' 2) inp2 Hn2)
    as (n2 & s2 & s2' & inp3 & -> & -> & Hn3 & Hs2).
  destruct (Z.eqb_spec n2 0) as [|Hz2]; [reflexivity|].
  destruct Hs2 as [|<-]; [contradiction|].
  reflexivity.
Qed.

Lemma read_key_indeterminate_seq_witness :
  read_key stale_world [RByte 27; RByte 91; RByte 67]
    = read_key calm_world [RByte 27; RByte 91; RByte 67].
Proof.
  apply (proj1 (read_key_indeterminate_seq stale_world calm_world
                  [RByte 27; RByte 91; RByte 67])).
  reflexivity.
Defined.

(** ** Drawing *)

Lemma rem_defined_exact (a b : Z) :
  0 <= a -> 1 <= b -> CInt.in_int b -> rem_defined a b = Drawn (a mod b).
Proof.
  intros Ha Hb Hi. unfold rem_defined.
  destruct (Z.eqb_spec b 0); [lia|]. destruct (Z.eqb_spec b (-1)); [lia|].
  rewrite andb_false_r. cbn [orb]. rewrite rem_exact by (assumption || lia).
  reflexivity.
Qed.

Lemma div_defined_exact (a b : Z) :
  0 <= a -> 1 <= b -> CInt.in_int a -> div_defined a b = Drawn (a / b).
Proof.
  intros Ha Hb Hi. unfold div_defined.
  destruct (Z.eqb_spec b 0); [lia|]. destruct (Z.eqb_spec b (-1)); [lia|].
  rewrite andb_false_r. cbn [orb]. rewrite div_exact by (assumption || lia).
  reflexivity.
Qed.

Lemma strlen_terminated (s : list Z) (i : nat) :
  s !! i = Some 0 ->
  exists n, strlen s = Some n /\ 0 <= n <= Z.of_nat i.
Proof.
  revert i. induction s as [|c s IH]; intros i H; [discriminate|].
  cbn [strlen]. destruct (Z.eqb_spec c 0); [exists 0; split; [reflexivity|lia]|].
  destruct i as [|i]; [cbn in H; congruence|].
  destruct (IH i H) as (m & -> & Hm). cbn [mbind option_bind].
  exists (m + 1). split; [reflexivity|lia].
Qed.

Lemma hex_chunks_app (a b : list chunk) :
  hex_chunks (a ++ b) = hex_chunks a ++ hex_chunks b.
Proof. apply omap_app. Qed.

Lemma hex_columns_from_app (col : Z) (a b : list chunk) :
  hex_columns_from col (a ++ b)
    = hex_columns_from col a ++ hex_columns_from (next_column col a) b.
Proof.
  revert col. induction a as [|c a IH]; intros col; [reflexivity|].
  cbn [app hex_columns_from next_column].
  destruct (is_address c); [apply IH|].
  destruct (hex_of c); rewrite IH; reflexivity.
Qed.

Lemma next_column_app (col : Z) (a b : list chunk) :
  next_column col (a ++ b) = next_column (next_column col a) b.
Proof.
  revert col. induction a as [|c a IH]; intros col; [reflexivity|].
  cbn [app next_column]. apply IH.
Qed.

Lemma plain_chunks (col : Z) (l : list chunk) :
  Forall plain l -> hex_chunks l = [] /\ hex_columns_from col l = [].
Proof.
  intros H. revert col. induction H as [|c l [Ha Hh] _ IH]; intros col.
  - split; reflexivity.
  - destruct (IH col) as [IH1 _]. split.
    + unfold hex_chunks in *. cbn [omap list_omap]. rewrite Hh. exact IH1.
    + cbn [hex_columns_from]. rewrite Ha, Hh. apply IH.
Qed.

Lemma ascii_cells_plain (e : editor) (s : list Z) (i : Z) :
  Forall plain (ascii_cells e s i).
Proof.
  revert i. induction s as [|x s IH]; intros i; cbn [ascii_cells].
  - constructor.
  - constructor; [destruct (_ =? _); split; reflexivity|].
    constructor; [split; reflexivity|]. apply IH.
Qed.

Lemma render_ascii_drawn (e : editor) (rownum : Z) (asc : list Z) :
  1 <= rownum -> asc !! 256%nat = Some 0 ->
  exists cells,
    editor_render_ascii e rownum asc = Drawn cells /\ Forall plain cells.
Proof.
  intros Hr Hz. unfold editor_render_ascii.
  destruct (Z.gtb_spec rownum 0); [|lia].
  destruct (strlen_terminated asc 256 Hz) as (n & -> & _).
  cbn [defined mbind drawn_bind].
  destruct (rownum =? cursor_y e).
  - eexists. split; [reflexivity|]. apply ascii_cells_plain.
  - eexists. split; [reflexivity|].
    repeat constructor.
Qed.

Lemma groups_below_step (e : editor) (x : Z) :
  1 <= grouping e ->
  groups_below e (x + 1)
    = groups_below e x + (if x mod grouping e =? 0 then 1 else 0).
Proof.
  intros Hg. unfold groups_below.
  pose proof (Z.div_mod x (grouping e) ltac:(lia)) as Hx.
  pose proof (Z.mod_pos_bound x (grouping e) ltac:(lia)) as Hr.
  revert Hx Hr. generalize (x / grouping e) as q, (x mod grouping e) as r.
  intros q r Hx Hr. subst x.
  destruct (Z.eqb_spec r 0) as [->|Hne].
  - replace (grouping e * q + 0 + 1 + grouping e - 1)
      with ((q + 1) * grouping e + 0) by lia.
    replace (grouping e * q + 0 + grouping e - 1)
      with (q * grouping e + (grouping e - 1)) by lia.
    rewrite !Z.div_add_l by lia.
    rewrite (Z.div_small (grouping e - 1)) by lia.
    rewrite Z.div_0_l by lia. lia.
  - replace (grouping e * q + r + 1 + grouping e - 1)
      with ((q + 1) * grouping e + r) by lia.
    replace (grouping e * q + r + grouping e - 1)
      with ((q + 1) * grouping e + (r - 1)) by lia.
    rewrite !Z.div_add_l by lia.
    rewrite !Z.div_small by lia. lia.
Qed.

Lemma bytes_between_step (e : editor) (from to c : Z) :
  0 <= from <= to -> contents e !! Z.to_nat to = Some c ->
  bytes_between e from (to + 1) = bytes_between e from to ++ [c].
Proof.
  intros H Hc. unfold bytes_between.
  replace (Z.to_nat (to + 1 - from)) with (S (Z.to_nat (to - from))) by lia.
  apply take_S_r. rewrite lookup_drop.
  replace (Z.to_nat from + Z.to_nat (to - from))%nat with (Z.to_nat to) by lia.
  exact Hc.
Qed.

Lemma drawable_window (e : editor) (offset : Z) :
  drawable e -> window_start e <= offset < window_end e ->
  0 <= window_start e /\ 0 <= offset < content_length e /\
  CInt.in_int offset /\ CInt.in_int (offset + 1) /\
  CInt.in_int (octets_per_line e) /\
  content_length e = Z.of_nat (length (contents e)).
Proof.
  intros ((Hlen & Hni) & Hn & Ho & Hg & Hgi & Hr & Hl & Htop & Hfit) Hoff.
  unfold window_start, window_end in *. unfold length_ok in Hlen.
  assert (0 <= line e * octets_per_line e) by nia.
  int_bounds. repeat split; lia.
Qed.

Lemma groups_below_bounds (e : editor) (a k : Z) :
  1 <= grouping e -> 0 <= a -> 0 <= k ->
  0 <= groups_below e (a + k) - groups_below e a
    <= (k + grouping e - 1) / grouping e /\
  (k + grouping e - 1) / grouping e <= k.
Proof.
  intros Hg Ha Hk. unfold groups_below.
  set (g := grouping e) in *.
  pose proof (Z.div_mod (a + g - 1) g ltac:(lia)) as H1.
  pose proof (Z.mod_pos_bound (a + g - 1) g ltac:(lia)) as H1'.
  pose proof (Z.div_mod (a + k + g - 1) g ltac:(lia)) as H2.
  pose proof (Z.mod_pos_bound (a + k + g - 1) g ltac:(lia)) as H2'.
  pose proof (Z.div_mod (k + g - 1) g ltac:(lia)) as H3.
  pose proof (Z.mod_pos_bound (k + g - 1) g ltac:(lia)) as H3'.
  revert H1 H1' H2 H2' H3 H3'.
  generalize ((a + g - 1) / g) as q1, ((a + g - 1) mod g) as r1,
    ((a + k + g - 1) / g) as q2, ((a + k + g - 1) mod g) as r2,
    ((k + g - 1) / g) as q3, ((k + g - 1) mod g) as r3.
  intros q1 r1 q2 r2 q3 r3 H1 H1' H2 H2' H3 H3'.
  clearbody g. repeat split; nia.
Qed.

Lemma address_chunk (col offset : Z) :
  let c := Append (Printed (esc ++ "[0;33m%09x" ++ esc ++ "[0m:")
                     [AInt offset]) Returned in
  hex_chunks [c] = [] /\ hex_columns_from col [c] = [] /\
  next_column col [c] = 11.
Proof. repeat split; reflexivity. Qed.

Lemma separator_chunk (col : Z) :
  let c := Append (Literal " ") (Len 1) in
  hex_chunks [c] = [] /\ hex_columns_from col [c] = [] /\
  next_column col [c] = col + 1.
Proof. repeat split; reflexivity. Qed.

Lemma hex_chunk (col v : Z) :
  let c := Append (Printed "%02x" [AInt v]) (Len 2) in
  hex_chunks [c] = [v] /\ hex_columns_from col [c] = [col] /\
  next_column col [c] = col + 2.
Proof. repeat split; reflexivity. Qed.

Lemma rows_below_step (e : editor) (x : Z) :
  1 <= octets_per_line e ->
  rows_below e (x + 1)
    = rows_below e x + (if x mod octets_per_line e =? 0 then 1 else 0).
Proof.
  intros Hg. unfold rows_below.
  pose proof (Z.div_mod x (octets_per_line e) ltac:(lia)) as Hx.
  pose proof (Z.mod_pos_bound x (octets_per_line e) ltac:(lia)) as Hr.
  revert Hx Hr.
  generalize (x / octets_per_line e) as q, (x mod octets_per_line e) as r.
  intros q r Hx Hr. subst x.
  destruct (Z.eqb_spec r 0) as [->|Hne].
  - replace (octets_per_line e * q + 0 + 1 + octets_per_line e - 1)
      with ((q + 1) * octets_per_line e + 0) by lia.
    replace (octets_per_line e * q + 0 + octets_per_line e - 1)
      with (q * octets_per_line e + (octets_per_line e - 1)) by lia.
    rewrite !Z.div_add_l by lia.
    rewrite (Z.div_small (octets_per_line e - 1)) by lia.
    rewrite Z.div_0_l by lia. lia.
  - replace (octets_per_line e * q + r + 1 + octets_per_line e - 1)
      with ((q + 1) * octets_per_line e + r) by lia.
    replace (octets_per_line e * q + r + octets_per_line e - 1)
      with ((q + 1) * octets_per_line e + (r - 1)) by lia.
    rewrite !Z.div_add_l by lia.
    rewrite !Z.div_small by lia. lia.
Qed.

Lemma bytes_between_app (e : editor) (a b c : Z) :
  0 <= a <= b -> b <= c ->
  bytes_between e a b ++ bytes_between e b c = bytes_between e a c.
Proof.
  intros Hab Hbc. unfold bytes_between.
  replace (Z.to_nat b) with (Z.to_nat a + Z.to_nat (b - a))%nat by lia.
  rewrite <- drop_drop.
  replace (Z.to_nat (c - a)) with (Z.to_nat (b - a) + Z.to_nat (c - b))%nat
    by lia.
  apply take_take_drop.
Qed.

Lemma bytes_between_length (e : editor) (a b : Z) :
  0 <= a <= b -> b <= Z.of_nat (length (contents e)) ->
  length (bytes_between e a b) = Z.to_nat (b - a).
Proof.
  intros Hab Hb. unfold bytes_between.
  rewrite length_take, length_drop. lia.
Qed.

Lemma ascii_chunks_app (a b : list chunk) :
  ascii_chunks (a ++ b) = ascii_chunks a ++ ascii_chunks b.
Proof. apply flat_map_app. Qed.

Lemma highlights_from_app (inverted : bool) (i : Z) (a b : list chunk) :
  highlights_from inverted i (a ++ b)
    = highlights_from inverted i a
      ++ highlights_from (ends_inverted inverted a)
           (i + Z.of_nat (length (ascii_chunks a))) b.
Proof.
  revert inverted i. induction a as [|c a IH]; intros inverted i.
  - cbn. rewrite Z.add_0_r. reflexivity.
  - cbn [app highlights_from ends_inverted ascii_chunks flat_map].
    fold (ascii_chunks a). unfold chars_in at 1.
    destruct (chunk_text c) as [s|fmt args|l|].
    + rewrite IH. reflexivity.
    + rewrite IH. reflexivity.
    + rewrite IH, length_app, <- app_assoc. do 3 f_equal. lia.
    + rewrite IH. reflexivity.
Qed.

Lemma ends_inverted_app (inverted : bool) (a b : list chunk) :
  ends_inverted inverted (a ++ b)
    = ends_inverted (ends_inverted inverted a) b.
Proof.
  revert inverted. induction a as [|c a IH]; intros inverted; [reflexivity|].
  cbn [app ends_inverted]. apply IH.
Qed.

Lemma quiet_chunks (inverted : bool) (i : Z) (l : list chunk) :
  Forall quiet l ->
  ascii_chunks l = [] /\ highlights_from inverted i l = [] /\
  ends_inverted false l = false.
Proof.
  intros H. revert inverted. induction H as [|c l Hq _ IH]; intros inverted.
  - repeat split; reflexivity.
  - unfold quiet in Hq.
    cbn [ascii_chunks flat_map highlights_from ends_inverted].
    fold (ascii_chunks l). unfold chars_in.
    destruct (chunk_text c) as [s|fmt args|l0|]; try contradiction;
      rewrite Hq; destruct (IH false) as (-> & -> & ->);
      repeat split; reflexivity.
Qed.

Lemma ascii_of_nonzero (isprint : Z -> bool) (c : Z) :
  isprint 0 = false -> ascii_of isprint c <> 0.
Proof.
  intros H0. unfold ascii_of. destruct (isprint c) eqn:Hc.
  - intros ->. congruence.
  - discriminate.
Qed.

Lemma strlen_shown (l l' : list Z) :
  Forall (fun x => x <> 0) l ->
  strlen (l ++ 0 :: l') = Some (Z.of_nat (length l)).
Proof.
  induction 1 as [|x l Hx _ IH]; [reflexivity|].
  cbn [app strlen length]. destruct (Z.eqb_spec x 0); [contradiction|].
  rewrite IH. cbn [mbind option_bind]. f_equal. lia.
Qed.

(** The cells of the cursor's row: the characters, and the one cell that is
    highlighted. *)
Lemma ascii_cells_spec (e : editor) (s : list Z) (j : Z) (inverted : bool)
    (i : Z) :
  0 <= j -> j + Z.of_nat (length s) <= 1000 ->
  ascii_chunks (ascii_cells e s j) = s /\
  highlights_from inverted i (ascii_cells e s j)
    = (if (j <? cursor_x e) && (cursor_x e <=? j + Z.of_nat (length s))
       then [i + (cursor_x e - 1 - j)] else []) /\
  ends_inverted false (ascii_cells e s j) = false /\
  Forall plain (ascii_cells e s j).
Proof.
  revert j inverted i. induction s as [|x s IH]; intros j inverted i Hj Hlen.
  - cbn [ascii_cells length]. repeat split; try reflexivity; [|constructor].
    cbn [highlights_from].
    destruct (Z.ltb_spec j (cursor_x e)),
      (Z.leb_spec (cursor_x e) (j + Z.of_nat 0));
      cbn [andb]; (reflexivity || lia).
  - cbn [length] in Hlen.
    destruct (IH (j + 1) false (i + 1) ltac:(lia) ltac:(lia))
      as (IH1 & IH2 & IH3 & IH4).
    cbn [ascii_cells]. rewrite (add_exact j 1) by (int_bounds; lia).
    split; [|split; [|split]].
    + destruct (j + 1 =? cursor_x e); cbn; fold (ascii_chunks (ascii_cells e s (j + 1)));
        rewrite IH1; reflexivity.
    + cbn [length].
      destruct (Z.eqb_spec (j + 1) (cursor_x e)) as [Heq|Hne].
      * change (highlights_from inverted i
                  (Append (Literal (esc ++ "[30;47m")) (Len 8)
                   :: Append (Chars [x]) (Len 1) :: ascii_cells e s (j + 1)))
          with ([i] ++ highlights_from false (i + 1)
                         (ascii_cells e s (j + 1))).
        rewrite IH2.
        destruct (Z.ltb_spec (j + 1) (cursor_x e)); [lia|]. cbn [andb app].
        destruct (Z.ltb_spec j (cursor_x e)); [|lia].
        destruct (Z.leb_spec (cursor_x e) (j + Z.of_nat (S (length s))));
          [|lia].
        cbn [andb]. f_equal. lia.
      * change (highlights_from inverted i
                  (Append (Literal (esc ++ "[32;40;1m")) (Len 10)
                   :: Append (Chars [x]) (Len 1) :: ascii_cells e s (j + 1)))
          with ([] ++ highlights_from false (i + 1)
                        (ascii_cells e s (j + 1))).
        rewrite IH2. cbn [app].
        destruct (Z.ltb_spec (j + 1) (cursor_x e)),
          (Z.leb_spec (cursor_x e) (j + 1 + Z.of_nat (length s))),
          (Z.ltb_spec j (cursor_x e)),
          (Z.leb_spec (cursor_x e) (j + Z.of_nat (S (length s))));
          cbn [andb]; try lia; try reflexivity.
        f_equal. lia.
    + destruct (j + 1 =? cursor_x e); exact IH3.
    + constructor; [destruct (_ =? _); split; reflexivity|].
      constructor; [split; reflexivity|]. exact IH4.
Qed.

(** [editor_render_ascii] on a row that has started: what it draws when
    [asc] holds the characters [shown] and its terminator. *)
Lemma render_ascii_spec (e : editor) (rownum : Z) (asc : list Z) :
  1 <= rownum -> asc !! 256%nat = Some 0 ->
  exists cells,
    editor_render_ascii e rownum asc = Drawn cells /\ Forall plain cells /\
    forall shown zeros i,
      asc = shown ++ 0 :: zeros -> Forall (fun x => x <> 0) shown ->
      Z.of_nat (length shown) <= 256 ->
      ascii_chunks cells = shown /\
      highlights_from false i cells
        = (if (rownum =? cursor_y e) && (1 <=? cursor_x e)
              && (cursor_x e <=? Z.of_nat (length shown))
           then [i + (cursor_x e - 1)] else []) /\
      ends_inverted false cells = false.
Proof.
  intros Hr Hz. unfold editor_render_ascii.
  destruct (Z.gtb_spec rownum 0); [|lia].
  destruct (strlen_terminated asc 256 Hz) as (n & Hn & Hn').
  rewrite Hn. cbn [defined mbind drawn_bind].
  destruct (Z.eqb_spec rownum (cursor_y e)) as [Hrow|Hrow].
  - eexists. split; [reflexivity|].
    assert (Hlen : Z.of_nat (length (take (Z.to_nat n) asc)) <= 256)
      by (rewrite length_take; lia).
    split; [apply (ascii_cells_spec e _ 0 false 0); lia|].
    intros shown zeros i -> Hnz Hl.
    rewrite strlen_shown in Hn by exact Hnz.
    apply (inj Some) in Hn. subst n.
    rewrite Nat2Z.id, take_app_length.
    destruct (ascii_cells_spec e shown 0 false i ltac:(lia) ltac:(lia))
      as (H1 & H2 & H3 & _).
    split; [exact H1|]. split; [|exact H3].
    rewrite H2. cbn [andb].
    replace (0 <? cursor_x e) with (1 <=? cursor_x e)
      by (destruct (Z.leb_spec 1 (cursor_x e)), (Z.ltb_spec 0 (cursor_x e));
          (reflexivity || lia)).
    replace (0 + Z.of_nat (length shown)) with (Z.of_nat (length shown)) by lia.
    replace (cursor_x e - 1 - 0) with (cursor_x e - 1) by lia.
    reflexivity.
  - eexists. split; [reflexivity|].
    split; [repeat (constructor; [split; reflexivity|]); constructor|].
    intros shown zeros i -> Hnz Hl.
    rewrite strlen_shown in Hn by exact Hnz.
    apply (inj Some) in Hn. subst n.
    rewrite Nat2Z.id, take_app_length.
    cbn [andb]. split; [apply app_nil_r|]. split; reflexivity.
Qed.

Ltac state_fields := cbn [r_row r_count r_asc r_out] in *.

Lemma next_offset_column (opl offset : Z) :
  1 <= opl -> 0 <= offset ->
  let k := offset mod opl in
  (k + 1 < opl /\ (offset + 1) mod opl = k + 1) \/
  (k + 1 = opl /\ (offset + 1) mod opl = 0).
Proof.
  intros Ho Hoff. cbv zeta.
  pose proof (Z.div_mod offset opl ltac:(lia)) as Hx.
  pose proof (Z.mod_pos_bound offset opl ltac:(lia)) as Hr.
  revert Hx Hr. generalize (offset / opl) as q, (offset mod opl) as r.
  intros q r Hx Hr. subst offset.
  destruct (Z.eq_dec (r + 1) opl) as [Heq|Hne].
  - right. split; [exact Heq|].
    replace (opl * q + r + 1) with ((q + 1) * opl + 0) by lia.
    rewrite Z.add_comm, Z.mod_add by lia. apply Z.mod_0_l. lia.
  - left. split; [lia|].
    replace (opl * q + r + 1) with (r + 1 + q * opl) by lia.
    rewrite Z.mod_add by lia. apply Z.mod_small. lia.
Qed.

Lemma rows_below_next (e : editor) (x : Z) :
  1 <= octets_per_line e ->
  rows_below e (x + 1) = x / octets_per_line e + 1.
Proof.
  intros Ho. unfold rows_below.
  replace (x + 1 + octets_per_line e - 1) with (x + 1 * octets_per_line e)
    by lia.
  apply Z.div_add. lia.
Qed.

Lemma rows_done (e : editor) (x : Z) :
  1 <= octets_per_line e ->
  (x - window_start e) / octets_per_line e = x / octets_per_line e - line e.
Proof.
  intros Ho. unfold window_start.
  replace (x - line e * octets_per_line e)
    with (x + (- line e) * octets_per_line e) by lia.
  rewrite Z.div_add by lia. lia.
Qed.

(** Chunks that are quiet, after chunks that do not end in the switch. *)
Lemma append_quiet (out l : list chunk) :
  Forall quiet l -> ends_inverted false out = false ->
  ascii_chunks (out ++ l) = ascii_chunks out /\
  highlights (out ++ l) = highlights out /\
  ends_inverted false (out ++ l) = false.
Proof.
  intros Hq He.
  destruct (quiet_chunks false (0 + Z.of_nat (length (ascii_chunks out))) l Hq)
    as (H1 & H2 & H3).
  rewrite ascii_chunks_app, ends_inverted_app. unfold highlights.
  rewrite highlights_from_app, He, H1, H2, H3, !app_nil_r.
  repeat split; reflexivity.
Qed.

Lemma highlight_in_step (e : editor) (rows : Z) :
  0 <= rows ->
  highlight_in e rows
  ++ (if (rows + 1 =? cursor_y e) && (1 <=? cursor_x e)
         && (cursor_x e <=? octets_per_line e)
      then [rows * octets_per_line e + (cursor_x e - 1)] else [])
  = highlight_in e (rows + 1).
Proof.
  intros Hrows. unfold highlight_in.
  destruct (Z.eqb_spec (rows + 1) (cursor_y e)) as [Heq|Hne],
    (Z.leb_spec 1 (cursor_y e)), (Z.leb_spec (cursor_y e) rows),
    (Z.leb_spec (cursor_y e) (rows + 1)), (Z.leb_spec 1 (cursor_x e)),
    (Z.leb_spec (cursor_x e) (octets_per_line e));
    cbn [andb app]; try lia; try reflexivity.
  rewrite <- Heq. do 2 f_equal. lia.
Qed.

Lemma asc_store (shown : list Z) (k : nat) (v : Z) :
  length shown = k -> (k <= 255)%nat ->
  <[k := v]> (shown ++ replicate (257 - k) 0)
    = (shown ++ [v]) ++ replicate (257 - S k) 0 /\
  (shown ++ [v]) ++ replicate (257 - S k) 0
    = (shown ++ [v]) ++ 0 :: replicate (255 - k) 0.
Proof.
  intros Hl Hk. split.
  - rewrite insert_app_r_alt by lia. rewrite Hl, Nat.sub_diag.
    replace (257 - k)%nat with (S (257 - S k)) by lia.
    cbn [replicate]. rewrite <- app_assoc. reflexivity.
  - replace (257 - S k)%nat with (S (255 - k)) by lia. reflexivity.
Qed.

Lemma address_quiet (offset : Z) :
  Forall quiet [Append (Printed (esc ++ "[0;33m%09x" ++ esc ++ "[0m:")
                          [AInt offset]) Returned].
Proof. repeat constructor. Qed.

Lemma separator_quiet : Forall quiet [Append (Literal " ") (Len 1)].
Proof. repeat constructor. Qed.

Lemma hex_quiet (v : Z) : Forall quiet [Append (Printed "%02x" [AInt v]) (Len 2)].
Proof. repeat constructor. Qed.

Lemma render_byte_spec (isprint : Z -> bool) (e : editor) (offset : Z)
    (st : render_state) :
  drawable e -> window_start e <= offset < window_end e ->
  drawing_at isprint e offset st ->
  exists st',
    render_byte isprint e offset st = Drawn st' /\
    drawing_at isprint e (offset + 1) st'.
Proof.
  intros Hd Hoff Hinv.
  destruct (drawable_window e offset Hd Hoff)
    as (Hs0 & Hoff0 & Hoi & Hoi1 & Hopli & Hlen).
  destruct Hd as (_ & Hn & Ho & Hg & Hgi & Hr & Hl & Htop & Hfit).
  destruct Hinv as (Hrow & Hhex & Hcol & Hmid & Hasc).
  cbv zeta in Hmid, Hasc.
  pose proof (Z.mod_pos_bound offset (octets_per_line e) ltac:(lia)) as Hk.
  pose proof (Z.mod_le offset (octets_per_line e) ltac:(lia) ltac:(lia)) as Hkle.
  pose proof (next_offset_column (octets_per_line e) offset ltac:(lia)
                ltac:(lia)) as Hnext.
  cbv zeta in Hnext.
  pose proof (groups_below_step e offset Hg) as Hgroup.
  pose proof (rows_below_step e offset ltac:(lia)) as Hrstep.
  pose proof (rows_below_next e offset ltac:(lia)) as Hrnext.
  pose proof (rows_done e offset ltac:(lia)) as Hdone.
  pose proof (rows_done e (offset + 1) ltac:(lia)) as Hdone1.
  pose proof (Z.div_pos offset (octets_per_line e) ltac:(lia) ltac:(lia))
    as Hq0.
  assert (Hrowstart : window_start e <= offset - offset mod octets_per_line e).
  { unfold window_start in *.
    pose proof (Z.div_mod offset (octets_per_line e) ltac:(lia)) as Hdm.
    assert (line e <= offset / octets_per_line e); [|nia].
    apply Z.div_le_lower_bound; lia. }
  assert (Hcb : 0 <= groups_below e offset
                     - groups_below e (offset - offset mod octets_per_line e)
                <= offset mod octets_per_line e).
  { destruct (groups_below_bounds e (offset - offset mod octets_per_line e)
                (offset mod octets_per_line e)) as [Hb1 Hb2]; try lia.
    rewrite Z.sub_add in Hb1. lia. }
  unfold render_byte.
  rewrite (add_exact offset 1) by exact Hoi1.
  rewrite (rem_defined_exact offset (octets_per_line e))
    by (assumption || lia).
  cbn [mbind drawn_bind].
  (* the start of a row *)
  set (st1 := if offset mod octets_per_line e =? 0 then _ else st).
  assert (H1 : 1 <= r_row st1 <= offset + 1 - window_start e /\
               length (r_asc st1) = 257%nat /\
               r_asc st1 !! 256%nat = Some 0 /\
               r_count st1
                 = 2 * (offset mod octets_per_line e)
                   + (groups_below e offset
                      - groups_below e (offset - offset mod octets_per_line e)) /\
               next_column 1 (r_out st1) = 11 + r_count st1 /\
               hex_chunks (r_out st1) = hex_chunks (r_out st) /\
               hex_columns (r_out st1) = hex_columns (r_out st) /\
               (isprint 0 = false ->
                r_row st1 = rows_below e (offset + 1) - line e /\
                r_asc st1
                  = map (ascii_of isprint)
                      (bytes_between e (offset - offset mod octets_per_line e)
                         offset)
                    ++ replicate (257 - Z.to_nat (offset mod octets_per_line e))
                         0 /\
                ascii_chunks (r_out st1) = ascii_chunks (r_out st) /\
                highlights (r_out st1) = highlights (r_out st) /\
                ends_inverted false (r_out st1) = false)).
  { unfold st1. destruct (Z.eqb_spec (offset mod octets_per_line e) 0) as [Hz|Hz].
    - state_fields. rewrite Hz.
      rewrite add_exact by (int_bounds; lia).
      split; [lia|]. split; [reflexivity|]. split; [reflexivity|].
      split; [rewrite Z.sub_0_r; lia|].
      rewrite next_column_app, hex_chunks_app.
      unfold hex_columns. rewrite hex_columns_from_app.
      destruct (address_chunk (next_column 1 (r_out st)) offset)
        as (-> & -> & ->).
      split; [reflexivity|]. split; [apply app_nil_r|].
      split; [apply app_nil_r|].
      intros Hp0. destruct (Hasc Hp0) as (Hrx & Hac & Hei & Hhl & _).
      destruct (append_quiet (r_out st) _ (address_quiet offset) Hei)
        as (Ha1 & Ha2 & Ha3).
      split; [rewrite Hrx, Hrstep; try rewrite Hz; cbn [Z.eqb]; lia|].
      split; [|auto].
      rewrite Z.sub_0_r. unfold bytes_between. rewrite Z.sub_diag.
      reflexivity.
    - destruct Hmid as (Hr1 & Hal & Haz & Hc & Hnc); [lia|].
      split; [lia|]. do 6 (split; [assumption || reflexivity|]).
      intros Hp0. destruct (Hasc Hp0) as (Hrx & Hac & Hei & Hhl & Hcontent).
      split.
      { rewrite Hrx, Hrstep.
        destruct (Z.eqb_spec (offset mod octets_per_line e) 0); lia. }
      split; [apply Hcontent; lia|]. auto. }
  clearbody st1.
  destruct H1 as (Hrow1 & Hal1 & Haz1 & Hc1 & Hnc1 & Hhex1 & Hcol1 & Hasc1).
  (* the byte *)
  assert (Hload : exists c, contents e !! Z.to_nat offset = Some c)
    by (apply lookup_lt_is_Some_2; lia).
  destruct Hload as (c & Hload).
  rewrite load_in_range by lia. rewrite Hload. cbn [defined mbind drawn_bind].
  rewrite store_in_range by lia. cbn [defined mbind drawn_bind].
  rewrite (rem_defined_exact offset (grouping e)) by (assumption || lia).
  cbn [mbind drawn_bind].
  fold (ascii_of isprint c).
  assert (Hbytes : bytes_between e (window_start e) (offset + 1)
                   = bytes_between e (window_start e) offset ++ [c])
    by (apply bytes_between_step; [lia|exact Hload]).
  assert (Hrowbytes :
            bytes_between e (offset - offset mod octets_per_line e) (offset + 1)
            = bytes_between e (offset - offset mod octets_per_line e) offset
              ++ [c])
    by (apply bytes_between_step; [lia|exact Hload]).
  assert (Hrowlen :
            length (bytes_between e (offset - offset mod octets_per_line e)
                      offset)
            = Z.to_nat (offset mod octets_per_line e)).
  { rewrite bytes_between_length by lia. f_equal. lia. }
  set (asc2 := <[Z.to_nat (offset mod octets_per_line e) := _]> (r_asc st1)).
  assert (Ha2 : length asc2 = 257%nat /\ asc2 !! 256%nat = Some 0 /\
                (isprint 0 = false ->
                 asc2 = map (ascii_of isprint)
                          (bytes_between e
                             (offset - offset mod octets_per_line e)
                             (offset + 1))
                        ++ replicate
                             (257 - S (Z.to_nat (offset mod octets_per_line e)))
                             0)).
  { unfold asc2. rewrite length_insert. split; [exact Hal1|].
    rewrite list_lookup_insert_ne by lia. split; [exact Haz1|].
    intros Hp0. destruct (Hasc1 Hp0) as (_ & -> & _).
    rewrite Hrowbytes, map_app. cbn [map].
    apply asc_store; [rewrite length_map; exact Hrowlen|lia]. }
  clearbody asc2. destruct Ha2 as (Hal2 & Haz2 & Hcontent2).
  (* the separator *)
  set (st2 := if offset mod grouping e =? 0 then _ else _).
  assert (H2 : r_row st2 = r_row st1 /\ r_asc st2 = asc2 /\
               r_count st2
                 = 2 * (offset mod octets_per_line e)
                   + (groups_below e (offset + 1)
                      - groups_below e (offset - offset mod octets_per_line e)) /\
               next_column 1 (r_out st2) = 11 + r_count st2 /\
               hex_chunks (r_out st2) = hex_chunks (r_out st) /\
               hex_columns (r_out st2) = hex_columns (r_out st) /\
               (isprint 0 = false ->
                ascii_chunks (r_out st2) = ascii_chunks (r_out st) /\
                highlights (r_out st2) = highlights (r_out st) /\
                ends_inverted false (r_out st2) = false)).
  { unfold st2. rewrite Hgroup.
    destruct (offset mod grouping e =? 0); state_fields.
    - rewrite add_exact by (int_bounds; lia).
      split; [reflexivity|]. split; [reflexivity|]. split; [lia|].
      rewrite next_column_app, hex_chunks_app.
      unfold hex_columns. rewrite hex_columns_from_app.
      destruct (separator_chunk (next_column 1 (r_out st1))) as (-> & -> & ->).
      rewrite !app_nil_r. split; [lia|]. split; [assumption|].
      split; [assumption|].
      intros Hp0. destruct (Hasc1 Hp0) as (_ & _ & Ha & Hh & He).
      destruct (append_quiet (r_out st1) _ separator_quiet He)
        as (-> & -> & ->). auto.
    - split; [reflexivity|]. split; [reflexivity|]. split; [lia|].
      split; [exact Hnc1|]. split; [assumption|]. split; [assumption|].
      intros Hp0. destruct (Hasc1 Hp0) as (_ & _ & Ha & Hh & He). auto. }
  clearbody st2.
  destruct H2 as (Hrow2 & Hasc2 & Hc2 & Hnc2 & Hhex2 & Hcol2 & Hquiet2).
  assert (Hc2b : 0 <= r_count st2 <= 3 * (offset mod octets_per_line e) + 1)
    by (rewrite Hc2, Hgroup; destruct (_ =? 0); lia).
  (* the digits *)
  rewrite (rem_defined_exact (offset + 1) (octets_per_line e))
    by (assumption || lia).
  cbn [mbind drawn_bind]. state_fields.
  rewrite Hrow2, Hasc2.
  rewrite (add_exact (r_count st2) 2) by (int_bounds; lia).
  set (out3 := r_out st2 ++ [_]).
  assert (H3 : next_column 1 out3 = 11 + (r_count st2 + 2) /\
               hex_chunks out3 = hex_chunks (r_out st) ++ [CChar.uchar c] /\
               hex_columns out3
                 = hex_columns (r_out st) ++ [byte_column e offset] /\
               (isprint 0 = false ->
                ascii_chunks out3 = ascii_chunks (r_out st) /\
                highlights out3 = highlights (r_out st) /\
                ends_inverted false out3 = false)).
  { unfold out3. rewrite next_column_app, hex_chunks_app.
    unfold hex_columns. rewrite hex_columns_from_app.
    destruct (hex_chunk (next_column 1 (r_out st2)) (CChar.uchar c))
      as (-> & -> & ->).
    fold (hex_columns (r_out st2)).
    rewrite Hnc2, Hhex2, Hcol2.
    split; [lia|]. split; [reflexivity|].
    split.
    { unfold byte_column. cbv zeta. rewrite Hc2. f_equal. f_equal. lia. }
    intros Hp0. destruct (Hquiet2 Hp0) as (Ha & Hh & He).
    destruct (append_quiet (r_out st2) _ (hex_quiet (CChar.uchar c)) He)
      as (-> & -> & ->). auto. }
  clearbody out3. destruct H3 as (Hnc3 & Hhex3 & Hcol3 & Hquiet3).
  assert (Hseq : map (fun i => byte_column e (window_start e + Z.of_nat i))
                   (seq 0 (Z.to_nat (offset + 1 - window_start e)))
                 = map (fun i => byte_column e (window_start e + Z.of_nat i))
                     (seq 0 (Z.to_nat (offset - window_start e)))
                   ++ [byte_column e offset]).
  { replace (Z.to_nat (offset + 1 - window_start e))
      with (S (Z.to_nat (offset - window_start e))) by lia.
    rewrite seq_S, map_app. cbn [map Nat.add]. do 3 f_equal. lia. }
  destruct Hnext as [[Hlt Hk1] | [Heq Hk1]]; rewrite Hk1.
  - destruct (Z.eqb_spec (offset mod octets_per_line e + 1) 0); [lia|].
    eexists. split; [reflexivity|].
    unfold drawing_at. cbv zeta. state_fields.
    rewrite Hhex3, Hcol3, Hbytes, Hseq, map_app, Hhex, Hcol, Hk1.
    split; [lia|]. split; [reflexivity|]. split; [reflexivity|].
    split.
    { intros _. split; [lia|]. split; [exact Hal2|]. split; [exact Haz2|].
      split; [|exact Hnc3].
      rewrite Hc2.
      replace (offset + 1 - (offset mod octets_per_line e + 1))
        with (offset - offset mod octets_per_line e) by lia.
      lia. }
    intros Hp0. destruct (Hasc Hp0) as (Hrx & Hac & Hei & Hhl & _).
    destruct (Hasc1 Hp0) as (Hrx1 & _).
    destruct (Hquiet3 Hp0) as (-> & -> & ->).
    replace (offset + 1 - (offset mod octets_per_line e + 1))
      with (offset - offset mod octets_per_line e) by lia.
    split; [exact Hrx1|]. split; [exact Hac|]. split; [reflexivity|].
    split.
    { rewrite Hhl. f_equal. rewrite Hdone, Hdone1.
      pose proof (Z.div_mod offset (octets_per_line e) ltac:(lia)) as Hdm.
      f_equal. apply Z.div_unique with (offset mod octets_per_line e + 1);
        lia. }
    intros _. rewrite (Hcontent2 Hp0). do 2 f_equal. lia.
  - cbn [Z.eqb].
    destruct (render_ascii_spec e (r_row st1) asc2 ltac:(lia) Haz2)
      as (cells & -> & Hplain & Hcells).
    cbn [mbind drawn_bind].
    eexists. split; [reflexivity|].
    unfold drawing_at. cbv zeta. state_fields.
    destruct (plain_chunks (next_column (next_column 1 out3)
                              [Append (Literal "  ") (Len 2)]) cells Hplain)
      as [Hp1 Hp2].
    rewrite !hex_chunks_app. unfold hex_columns.
    rewrite !hex_columns_from_app. rewrite Hp1, Hp2.
    cbn [hex_chunks omap list_omap hex_columns_from hex_of
         is_address chunk_text].
    rewrite !app_nil_r.
    fold (hex_columns out3).
    rewrite Hhex3, Hcol3, Hbytes, Hseq, map_app, Hhex, Hcol, Hk1.
    split; [lia|]. split; [reflexivity|]. split; [reflexivity|].
    split; [intros Hf; lia|].
    intros Hp0. destruct (Hasc Hp0) as (Hrx & Hac & Hei & Hhl & _).
    destruct (Hasc1 Hp0) as (Hrx1 & _).
    destruct (Hquiet3 Hp0) as (Ha3 & Hh3 & He3).
    rewrite Z.sub_0_r.
    set (shown := map (ascii_of isprint)
                    (bytes_between e (offset - offset mod octets_per_line e)
                       (offset + 1))).
    assert (Hshown : length shown = Z.to_nat (octets_per_line e)).
    { unfold shown. rewrite length_map, Hrowbytes, length_app, Hrowlen.
      cbn [length]. lia. }
    destruct (Hcells shown
                (replicate (255 - Z.to_nat (offset mod octets_per_line e)) 0)
                (Z.of_nat (length (ascii_chunks out3))))
      as (Hc1' & Hc2' & Hc3').
    { rewrite (Hcontent2 Hp0). fold shown.
      replace (257 - S (Z.to_nat (offset mod octets_per_line e)))%nat
        with (S (255 - Z.to_nat (offset mod octets_per_line e))) by lia.
      reflexivity. }
    { unfold shown. apply Forall_forall. intros x Hx.
      apply list_elem_of_In in Hx. apply in_map_iff in Hx.
      destruct Hx as (y & <- & _). apply ascii_of_nonzero. exact Hp0. }
    { lia. }
    destruct (append_quiet out3 [Append (Literal "  ") (Len 2)]
                ltac:(repeat constructor) He3) as (Hq1 & Hq2 & Hq3).
    split; [exact Hrx1|].
    assert (Hall : bytes_between e (window_start e)
                     (offset - offset mod octets_per_line e)
                   ++ bytes_between e (offset - offset mod octets_per_line e)
                        (offset + 1)
                   = bytes_between e (window_start e) (offset + 1)).
    { apply bytes_between_app; lia. }
    split.
    { rewrite !app_assoc, ascii_chunks_app, ascii_chunks_app, Hq1, Hc1', Ha3,
        Hac.
      cbn [ascii_chunks flat_map chars_in chunk_text]. rewrite app_nil_r.
      unfold shown. rewrite <- map_app, Hall. reflexivity. }
    split.
    { rewrite !app_assoc, ends_inverted_app. reflexivity. }
    split; [|intros Hf; lia].
    rewrite (app_assoc out3), app_assoc. unfold highlights.
    rewrite highlights_from_app, highlights_from_app.
    fold (highlights (out3 ++ [Append (Literal "  ") (Len 2)])).
    rewrite Hq2, Hq3, Hq1, Hh3, Hhl, Z.add_0_l, Hc2'.
    rewrite ends_inverted_app, Hq3, Hc3'.
    cbn [highlights_from chunk_text is_inverted]. rewrite app_nil_r.
    rewrite Hdone, Hdone1.
    assert (Hq1' : (offset + 1) / octets_per_line e
                   = offset / octets_per_line e + 1).
    { pose proof (Z.div_mod offset (octets_per_line e) ltac:(lia)) as Hdm.
      symmetry. apply Z.div_unique with 0; lia. }
    rewrite Hq1'.
    replace (offset / octets_per_line e + 1 - line e)
      with (offset / octets_per_line e - line e + 1) by lia.
    rewrite <- highlight_in_step.
    2: { assert (line e <= offset / octets_per_line e); [|lia].
         apply Z.div_le_lower_bound; unfold window_start in *; lia. }
    f_equal. rewrite Hrx1, Hrnext, Hshown, Ha3, Hac, length_map.
    rewrite bytes_between_length by lia.
    replace (offset / octets_per_line e + 1 - line e)
      with (offset / octets_per_line e - line e + 1) by lia.
    replace (Z.of_nat (Z.to_nat (octets_per_line e)))
      with (octets_per_line e) by lia.
    destruct ((offset / octets_per_line e - line e + 1 =? cursor_y e)
              && (1 <=? cursor_x e) && (cursor_x e <=? octets_per_line e));
      [|reflexivity].
    do 2 f_equal.
    pose proof (Z.div_mod offset (octets_per_line e) ltac:(lia)) as Hdm.
    unfold window_start in *. nia.
Qed.

Lemma render_loop_spec (isprint : Z -> bool) (e : editor) (n : nat)
    (offset : Z) (st : render_state) :
  drawable e -> window_start e <= offset ->
  offset + Z.of_nat n <= window_end e ->
  drawing_at isprint e offset st ->
  exists st',
    render_loop isprint e n offset st = Drawn (offset + Z.of_nat n, st') /\
    drawing_at isprint e (offset + Z.of_nat n) st'.
Proof.
  intros Hd. revert offset st. induction n as [|n IH]; intros offset st Hs He Hi.
  - cbn [render_loop]. exists st. rewrite Z.add_0_r. split; [reflexivity|exact Hi].
  - cbn [render_loop].
    destruct (render_byte_spec isprint e offset st Hd ltac:(lia) Hi)
      as (st1 & -> & Hi1).
    cbn [mbind drawn_bind].
    destruct (drawable_window e offset Hd ltac:(lia)) as (_ & _ & _ & Hoi1 & _).
    rewrite add_exact by exact Hoi1.
    destruct (IH (offset + 1) st1 ltac:(lia) ltac:(lia) Hi1) as (st' & -> & Hi').
    exists st'. replace (offset + Z.of_nat (S n)) with (offset + 1 + Z.of_nat n) by lia.
    split; [reflexivity|exact Hi'].
Qed.

Lemma render_offsets_exact (e : editor) :
  drawable e ->
  render_start_offset e = window_start e /\
  render_end_offset e = window_end e /\
  0 <= window_start e <= window_end e /\
  window_end e <= content_length e /\
  window_start e mod octets_per_line e = 0.
Proof.
  intros ((Hlen & Hni) & Hn & Ho & Hg & Hgi & Hr & Hl & Htop & Hfit).
  unfold offsets_fit in Hfit. unfold window_start, window_end.
  assert (H0 : 0 <= line e * octets_per_line e) by nia.
  assert (H1 : 0 <= screen_rows e * octets_per_line e) by nia.
  assert (H2 : screen_rows e * octets_per_line e + line e * octets_per_line e
               <= CInt.INT_MAX) by lia.
  assert (H3 : octets_per_line e
               <= screen_rows e * octets_per_line e) by nia.
  assert (Hs : render_start_offset e = line e * octets_per_line e).
  { unfold render_start_offset. cbv zeta.
    rewrite mul_exact by (int_bounds; lia).
    destruct (Z.geb_spec (line e * octets_per_line e) (content_length e));
      [lia|reflexivity]. }
  split; [exact Hs|]. split.
  { unfold render_end_offset. cbv zeta. rewrite Hs.
    rewrite mul_exact by (int_bounds; lia).
    rewrite add_exact by (int_bounds; lia).
    rewrite sub_exact by (int_bounds; lia).
    replace (screen_rows e * octets_per_line e + line e * octets_per_line e
             - octets_per_line e)
      with ((line e + screen_rows e - 1) * octets_per_line e) by lia.
    rewrite Z.gtb_ltb.
    destruct (Z.ltb_spec (content_length e)
                ((line e + screen_rows e - 1) * octets_per_line e)); lia. }
  split; [|split; [lia|apply Z.mod_mul; lia]].
  assert (line e * octets_per_line e
          <= (line e + screen_rows e - 1) * octets_per_line e) by nia.
  lia.
Qed.

Lemma debug_drawn (e : editor) (a b : Z) :
  drawable e ->
  exists debug,
    render_debug e a b = Drawn debug /\ Forall plain debug /\
    Forall quiet debug.
Proof.
  intros ((Hlen & Hni) & Hn & _). unfold length_ok in Hlen.
  unfold render_debug. cbv zeta.
  pose proof (offset_at_cursor_in_buffer e Hni Hn) as Hoff.
  revert Hoff. generalize (editor_offset_at_cursor e) as off. intros off Hoff.
  rewrite load_in_range by lia.
  destruct (lookup_lt_is_Some_2 (contents e) (Z.to_nat off)) as [c ->]; [lia|].
  cbn [defined mbind drawn_bind].
  destruct (editor_cursor_at_offset e off) as [xx yy].
  eexists. split; [reflexivity|]. split.
  - repeat (constructor; [split; reflexivity|]). constructor.
  - repeat (constructor; [reflexivity|]). constructor.
Qed.

(** The cursor on a byte is on a byte of the screen. *)
Lemma cursor_in_window (e : editor) :
  drawable e -> cursor_in_bounds e -> raw_offset e <= content_length e - 1 ->
  window_start e <= raw_offset e < window_end e /\
  raw_offset e - window_start e
    = (cursor_y e - 1) * octets_per_line e + (cursor_x e - 1).
Proof.
  intros (_ & Hn & Ho & Hg & Hgi & Hr & Hl & Htop & Hfit) [Hx Hy] Hraw.
  unfold raw_offset, window_start, window_end in *.
  assert (0 <= (cursor_y e - 1) * octets_per_line e) by nia.
  assert ((cursor_y e - 1 + line e) * octets_per_line e + (cursor_x e - 1)
          < (line e + screen_rows e - 1) * octets_per_line e) by nia.
  lia.
Qed.

(** What [editor_render_contents] draws, for a state that can be drawn. *)
Lemma render_contents_spec (isprint : Z -> bool) (asc_uninit : nat -> Z)
    (e : editor) :
  drawable e ->
  exists out,
    editor_render_contents isprint asc_uninit e = Drawn out /\
    hex_chunks out
      = map CChar.uchar (bytes_between e (window_start e) (window_end e)) /\
    hex_columns out
      = map (fun i => byte_column e (window_start e + Z.of_nat i))
            (seq 0 (Z.to_nat (window_end e - window_start e))) /\
    (isprint 0 = false ->
     ascii_chunks out
       = map (ascii_of isprint)
           (bytes_between e (window_start e) (window_end e)) /\
     (cursor_in_bounds e -> raw_offset e <= content_length e - 1 ->
      highlights out = [raw_offset e - window_start e])).
Proof.
  intros Hd.
  destruct (render_offsets_exact e Hd) as (Hs & He & Hse & Hen & Hm).
  destruct (debug_drawn e (window_start e) (window_end e) Hd)
    as (debug & Hdebug & Hpd & Hqd).
  pose proof Hd as ((Hlen & Hni) & Hn & Ho & Hg & Hgi & Hr & Hl & Htop & Hfit).
  unfold length_ok in Hlen.
  unfold editor_render_contents. cbv zeta.
  destruct (Z.leb_spec (content_length e) 0); [lia|].
  rewrite Hs, He, Hdebug.
  set (st0 := {| r_row := 0; r_count := 0;
                 r_asc := map asc_uninit (seq 0 257); r_out := [] |}).
  assert (Hi0 : drawing_at isprint e (window_start e) st0).
  { unfold drawing_at. cbv zeta. rewrite Hm, Z.sub_diag, Z.sub_0_r.
    unfold bytes_between. rewrite Z.sub_diag. cbn [Z.to_nat take map seq].
    unfold st0. cbn [r_row r_count r_asc r_out].
    split; [lia|]. split; [reflexivity|]. split; [reflexivity|].
    split; [lia|]. intros _.
    split.
    { unfold rows_below, window_start.
      replace (line e * octets_per_line e + octets_per_line e - 1)
        with (line e * octets_per_line e + (octets_per_line e - 1)) by lia.
      rewrite Z.div_add_l by lia. rewrite Z.div_small by lia. lia. }
    split; [reflexivity|]. split; [reflexivity|].
    split; [|lia].
    rewrite Z.div_0_l by lia. unfold highlights, highlight_in.
    destruct (Z.leb_spec 1 (cursor_y e)), (Z.leb_spec (cursor_y e) 0);
      cbn [andb highlights_from]; (reflexivity || lia). }
  destruct (render_loop_spec isprint e
              (Z.to_nat (window_end e - window_start e)) (window_start e) st0
              Hd ltac:(lia) ltac:(lia) Hi0) as (st & Hloop & Hi).
  replace (window_start e + Z.of_nat (Z.to_nat (window_end e - window_start e)))
    with (window_end e) in * by lia.
  rewrite Hloop. cbn [mbind drawn_bind].
  destruct Hi as (Hrow & Hhex & Hcol & Hmid & Hasc). cbv zeta in Hmid, Hasc.
  rewrite rem_defined_exact by (int_bounds; lia).
  cbn [mbind drawn_bind].
  pose proof (Z.mod_pos_bound (window_end e) (octets_per_line e) ltac:(lia))
    as Hk.
  pose proof (Z.mod_le (window_end e) (octets_per_line e) ltac:(lia)
                ltac:(lia)) as Hle.
  pose proof (Z.div_mod (window_end e) (octets_per_line e) ltac:(lia)) as Hdm.
  pose proof (rows_done e (window_end e) ltac:(lia)) as Hdone.
  assert (Hrowstart : window_start e
                      <= window_end e - window_end e mod octets_per_line e).
  { unfold window_start in *.
    assert (line e <= window_end e / octets_per_line e); [|nia].
    apply Z.div_le_lower_bound; lia. }
  rewrite Z.gtb_ltb.
  destruct (Z.ltb_spec 0 (window_end e mod octets_per_line e)) as [Hpos|Hz].
  - destruct (Hmid Hpos) as (Hr1 & Hal & Haz & Hc & Hnc).
    rewrite div_defined_exact by (int_bounds; lia).
    cbn [mbind drawn_bind].
    destruct (groups_below_bounds e
                (window_end e - window_end e mod octets_per_line e)
                (window_end e mod octets_per_line e)) as [Hb1 Hb2]; try lia.
    rewrite Z.sub_add in Hb1.
    assert (Hq : (window_end e mod octets_per_line e + grouping e - 1)
                   / grouping e
                 <= octets_per_line e / grouping e + 1).
    { replace (octets_per_line e / grouping e + 1)
        with ((octets_per_line e + 1 * grouping e) / grouping e)
        by (rewrite Z.div_add by lia; reflexivity).
      apply Z.div_le_mono; lia. }
    pose proof (Z.div_pos (octets_per_line e) (grouping e) ltac:(lia)
                  ltac:(lia)) as Hq0.
    assert (Hq1 : octets_per_line e / grouping e <= octets_per_line e)
      by (apply Z.div_le_upper_bound; nia).
    rewrite mul_exact by (int_bounds; lia).
    rewrite add_exact by (int_bounds; lia).
    rewrite sub_exact by (int_bounds; lia).
    destruct (Z.ltb_spec (octets_per_line e * 2 + octets_per_line e / grouping e
                          - r_count st) 0); [lia|].
    destruct (render_ascii_spec e (r_row st) (r_asc st) Hr1 Haz)
      as (cells & -> & Hpc & Hcells).
    cbn [mbind drawn_bind].
    eexists. split; [reflexivity|].
    set (pad := [Append Blanks
                   (Len (octets_per_line e * 2 + octets_per_line e / grouping e
                         - r_count st));
                 Append (Literal (esc ++ "[0m  ")) (Len 6)]).
    set (tail := [Append (Literal (esc ++ "[0J")) (Len 4)] ++ debug).
    assert (Hppad : Forall plain pad)
      by (repeat (constructor; [split; reflexivity|]); constructor).
    assert (Hqpad : Forall quiet pad)
      by (repeat (constructor; [reflexivity|]); constructor).
    assert (Hptail : Forall plain tail).
    { apply Forall_app. split; [|exact Hpd].
      repeat (constructor; [split; reflexivity|]). constructor. }
    assert (Hqtail : Forall quiet tail).
    { apply Forall_app. split; [|exact Hqd].
      repeat (constructor; [reflexivity|]). constructor. }
    assert (Hplain : Forall plain (pad ++ cells ++ tail)).
    { apply Forall_app. split; [exact Hppad|].
      apply Forall_app. split; [exact Hpc|exact Hptail]. }
    rewrite <- !app_assoc.
    destruct (plain_chunks (next_column 1 (r_out st)) _ Hplain) as [Hp1 Hp2].
    rewrite hex_chunks_app. unfold hex_columns. rewrite hex_columns_from_app.
    rewrite Hp1, Hp2, !app_nil_r. split; [exact Hhex|]. split; [exact Hcol|].
    intros Hp0. destruct (Hasc Hp0) as (Hrx & Hac & Hei & Hhl & Hcontent).
    specialize (Hcontent Hpos).
    set (shown := map (ascii_of isprint)
                    (bytes_between e
                       (window_end e - window_end e mod octets_per_line e)
                       (window_end e))) in *.
    assert (Hshown : Z.of_nat (length shown)
                     = window_end e mod octets_per_line e).
    { unfold shown. rewrite length_map, bytes_between_length by lia. lia. }
    destruct (append_quiet (r_out st) pad Hqpad Hei) as (Hq1' & Hq2' & Hq3').
    destruct (Hcells shown
                (replicate
                   (256 - Z.to_nat (window_end e mod octets_per_line e)) 0)
                (Z.of_nat (length (ascii_chunks (r_out st ++ pad)))))
      as (Hc1' & Hc2' & Hc3').
    { rewrite Hcontent.
      replace (257 - Z.to_nat (window_end e mod octets_per_line e))%nat
        with (S (256 - Z.to_nat (window_end e mod octets_per_line e))) by lia.
      reflexivity. }
    { unfold shown. apply Forall_forall. intros x Hx.
      apply list_elem_of_In in Hx. apply in_map_iff in Hx.
      destruct Hx as (y & <- & _). apply ascii_of_nonzero. exact Hp0. }
    { lia. }
    destruct (quiet_chunks
                (ends_inverted false ((r_out st ++ pad) ++ cells))
                (0 + Z.of_nat (length (ascii_chunks ((r_out st ++ pad) ++ cells))))
                tail Hqtail) as (Ht1 & Ht2 & Ht3).
    rewrite (app_assoc (r_out st)), app_assoc.
    split.
    { rewrite !ascii_chunks_app, Ht1, Hc1', app_nil_r.
      rewrite <- ascii_chunks_app, Hq1', Hac. unfold shown.
      rewrite <- map_app, bytes_between_app by lia. reflexivity. }
    intros Hin Hraw.
    destruct (cursor_in_window e Hd Hin Hraw) as (Hwin & Hidx).
    destruct Hin as [Hx Hy].
    unfold highlights. rewrite highlights_from_app, highlights_from_app.
    fold (highlights (r_out st ++ pad)).
    rewrite Ht2, app_nil_r, Hq2', Hq3', Hhl, Z.add_0_l, Hc2', Hq1', Hac,
      length_map, Hshown, Hrx, Hdone.
    rewrite bytes_between_length by lia.
    assert (Hrows : rows_below e (window_end e)
                    = window_end e / octets_per_line e + 1).
    { unfold rows_below.
      replace (window_end e + octets_per_line e - 1)
        with ((window_end e / octets_per_line e + 1) * octets_per_line e
              + (window_end e mod octets_per_line e - 1)) by lia.
      rewrite Z.div_add_l by lia.
      rewrite (Z.div_small (window_end e mod octets_per_line e - 1)) by lia.
      lia. }
    rewrite Hrows, Hidx. unfold highlight_in.
    unfold window_start, raw_offset in *.
    set (q := window_end e / octets_per_line e) in *.
    set (k := window_end e mod octets_per_line e) in *.
    assert (Hcy : cursor_y e - 1 <= q - line e)
      by (clear - Hwin Hdm Hk Hx Ho; nia).
    destruct (Z.eqb_spec (q + 1 - line e) (cursor_y e)) as [Hlast|Hlast].
    + assert (Hcx : cursor_x e <= k) by (clear - Hwin Hdm Hlast; nia).
      destruct (Z.leb_spec 1 (cursor_y e)), (Z.leb_spec (cursor_y e) (q - line e)),
        (Z.leb_spec 1 (cursor_x e)), (Z.leb_spec (cursor_x e) k),
        (Z.leb_spec (cursor_x e) (octets_per_line e));
        cbn [andb app]; try lia.
      all: do 2 f_equal; rewrite Z2Nat.id by (clear - Hrowstart; lia);
        clear - Hdm Hlast; nia.
    + destruct (Z.leb_spec 1 (cursor_y e)), (Z.leb_spec (cursor_y e) (q - line e)),
        (Z.leb_spec 1 (cursor_x e)),
        (Z.leb_spec (cursor_x e) (octets_per_line e));
        cbn [andb app]; try lia.
      reflexivity.
  - eexists. split; [reflexivity|].
    set (tail := [Append (Literal (esc ++ "[0J")) (Len 4)] ++ debug).
    assert (Hptail : Forall plain tail).
    { apply Forall_app. split; [|exact Hpd].
      repeat (constructor; [split; reflexivity|]). constructor. }
    assert (Hqtail : Forall quiet tail).
    { apply Forall_app. split; [|exact Hqd].
      repeat (constructor; [reflexivity|]). constructor. }
    destruct (plain_chunks (next_column 1 (r_out st)) _ Hptail) as [Hp1 Hp2].
    rewrite hex_chunks_app. unfold hex_columns. rewrite hex_columns_from_app.
    rewrite Hp1, Hp2, !app_nil_r. split; [exact Hhex|]. split; [exact Hcol|].
    intros Hp0. destruct (Hasc Hp0) as (Hrx & Hac & Hei & Hhl & _).
    destruct (append_quiet (r_out st) tail Hqtail Hei) as (-> & -> & _).
    assert (Hk0 : window_end e mod octets_per_line e = 0) by lia.
    rewrite Hk0, Z.sub_0_r in Hac. split; [exact Hac|].
    intros Hin Hraw.
    destruct (cursor_in_window e Hd Hin Hraw) as (Hwin & Hidx).
    destruct Hin as [Hx Hy].
    rewrite Hhl, Hdone, Hidx. unfold highlight_in.
    unfold window_start, raw_offset in *.
    set (q := window_end e / octets_per_line e) in *.
    assert (Hcy : cursor_y e <= q - line e)
      by (clear - Hwin Hdm Hk0 Hx Ho; nia).
    destruct (Z.leb_spec 1 (cursor_y e)), (Z.leb_spec (cursor_y e) (q - line e)),
      (Z.leb_spec 1 (cursor_x e)), (Z.leb_spec (cursor_x e) (octets_per_line e));
      cbn [andb]; try lia.
    reflexivity.
Qed.

(** The visible part of the buffer is drawn, byte for byte: a state that
    can be drawn is drawn without a failed [assert] and without an access
    outside [e->contents], [asc] or the padding, and the bytes shown in
    hexadecimal are, in order, the bytes of the buffer from offset
    [line * octets_per_line] to the end of the buffer or of the screen
    ([screen_rows - 1] rows), whichever comes first. *)
Theorem render_contents_window (isprint : Z -> bool) (asc_uninit : nat -> Z)
    (e : editor) :
  drawable e ->
  exists out,
    editor_render_contents isprint asc_uninit e = Drawn out /\
    hex_chunks out
      = map CChar.uchar (bytes_between e (window_start e) (window_end e)).
Proof.
  intros Hd.
  destruct (render_contents_spec isprint asc_uninit e Hd) as (out & H1 & H2 & _ & _).
  exists out. split; assumption.
Qed.

Lemma render_contents_window_witness :
  let e := editor_at 4 3 [65; 66; 0; 255; 68; 69; 70; 71; 72; 73] 1 2 1
             MODE_NORMAL in
  exists out,
    editor_render_contents (fun c => (32 <=? c) && (c <=? 126)) (fun _ => 7) e
      = Drawn out /\
    hex_chunks out = [68; 69; 70; 71; 72; 73].
Proof.
  intros e.
  apply (render_contents_window (fun c => (32 <=? c) && (c <=? 126))
           (fun _ => 7) e).
  vm_compute. repeat split; first [reflexivity | discriminate].
Defined.

Lemma cursor_column_exact (e : editor) :
  1 <= cursor_x e <= octets_per_line e -> octets_per_line e <= 256 ->
  1 <= grouping e <= 256 ->
  refresh_cursor_column e
    = 12 + 2 * (cursor_x e - 1) + (cursor_x e - 1) / grouping e.
Proof.
  intros Hx Ho Hg. unfold refresh_cursor_column. cbv zeta.
  rewrite (sub_exact (cursor_x e) 1) by (int_bounds; lia).
  rewrite (mul_exact (cursor_x e - 1) 2) by (int_bounds; lia).
  rewrite (mul_exact (grouping e) 2) by (int_bounds; lia).
  rewrite div_exact by (int_bounds; lia).
  replace ((cursor_x e - 1) * 2) with (2 * (cursor_x e - 1)) by lia.
  replace (grouping e * 2) with (2 * grouping e) by lia.
  rewrite Z.div_mul_cancel_l by lia.
  pose proof (Z.div_pos (cursor_x e - 1) (grouping e) ltac:(lia) ltac:(lia)).
  assert ((cursor_x e - 1) / grouping e <= cursor_x e - 1)
    by (apply Z.div_le_upper_bound; nia).
  rewrite (add_exact (2 * (cursor_x e - 1))) by (int_bounds; lia).
  rewrite add_exact by (int_bounds; lia). lia.
Qed.

Lemma byte_column_exact (e : editor) (r k : Z) :
  1 <= octets_per_line e -> 1 <= grouping e ->
  octets_per_line e mod grouping e = 0 ->
  0 <= r -> 0 <= k < octets_per_line e ->
  byte_column e (r * octets_per_line e + k) = 12 + 2 * k + k / grouping e.
Proof.
  intros Ho Hg Hdiv Hr Hk. unfold byte_column. cbv zeta.
  destruct (row_col_of_offset r (octets_per_line e) k Hk) as [_ ->].
  replace (r * octets_per_line e + k - k) with (r * octets_per_line e) by lia.
  unfold groups_below.
  apply Z.mod_divide in Hdiv; [|lia]. destruct Hdiv as [q Hq].
  rewrite Hq.
  replace (r * (q * grouping e) + k + 1 + grouping e - 1)
    with ((r * q + 1) * grouping e + k) by lia.
  replace (r * (q * grouping e) + grouping e - 1)
    with (r * q * grouping e + (grouping e - 1)) by lia.
  rewrite !Z.div_add_l by lia.
  rewrite (Z.div_small (grouping e - 1)) by lia. lia.
Qed.

(** The cursor of the terminal is put on the byte under the cursor of the
    editor: when the grouping divides the number of octets per line and the
    cursor is on a byte, the column [editor_refresh_screen] computes for the
    cursor is the column in which [editor_render_contents] has drawn the first
    hexadecimal digit of that byte. *)
Theorem refresh_cursor_on_byte (isprint : Z -> bool) (asc_uninit : nat -> Z)
    (e : editor) :
  drawable e -> cursor_in_bounds e ->
  raw_offset e <= content_length e - 1 ->
  octets_per_line e mod grouping e = 0 ->
  exists out,
    editor_render_contents isprint asc_uninit e = Drawn out /\
    hex_columns out !! Z.to_nat (raw_offset e - window_start e)
      = Some (refresh_cursor_column e).
Proof.
  intros Hd [Hx Hy] Hraw Hdiv.
  destruct (render_contents_spec isprint asc_uninit e Hd) as (out & H1 & _ & H2 & _).
  exists out. split; [exact H1|]. rewrite H2. clear H1 H2.
  destruct Hd as (_ & Hn & Ho & Hg & Hgi & Hr & Hl & Htop & Hfit).
  assert (Hgo : grouping e <= octets_per_line e).
  { apply Z.mod_divide in Hdiv; [|lia]. destruct Hdiv as [q Hq].
    clear - Hq Ho Hg. assert (1 <= q) by nia. nia. }
  unfold raw_offset, window_start, window_end in *.
  assert (Hrow : 0 <= (cursor_y e - 1) * octets_per_line e) by nia.
  assert (Hlast : (cursor_y e - 1 + line e) * octets_per_line e
                    + (cursor_x e - 1)
                  < (line e + screen_rows e - 1) * octets_per_line e) by nia.
  assert (Hfirst : line e * octets_per_line e
                   <= (cursor_y e - 1 + line e) * octets_per_line e) by nia.
  rewrite list_lookup_fmap.
  rewrite lookup_seq_lt by lia. cbn [fmap option_fmap option_map Nat.add].
  f_equal.
  replace (line e * octets_per_line e
           + Z.of_nat (Z.to_nat ((cursor_y e - 1 + line e) * octets_per_line e
                                 + (cursor_x e - 1)
                                 - line e * octets_per_line e)))
    with ((cursor_y e - 1 + line e) * octets_per_line e + (cursor_x e - 1))
    by lia.
  rewrite byte_column_exact by lia.
  rewrite cursor_column_exact by lia. reflexivity.
Qed.

Lemma refresh_cursor_on_byte_witness :
  let e := editor_at 16 24 (replicate 100 65) 1 7 3 MODE_NORMAL in
  exists out,
    editor_render_contents (fun c => (32 <=? c) && (c <=? 126)) (fun _ => 7) e
      = Drawn out /\
    hex_columns out !! 38%nat = Some 25.
Proof.
  intros e.
  apply (refresh_cursor_on_byte (fun c => (32 <=? c) && (c <=? 126))
           (fun _ => 7) e).
  - vm_compute. repeat split; first [reflexivity | discriminate].
  - vm_compute. repeat split; discriminate.
  - vm_compute. discriminate.
  - reflexivity.
Defined.



(** The ASCII column shows the bytes on the screen, each as itself when
    [isprint] accepts it and as a dot otherwise, in the order of the buffer
    ([isprint] rejecting the null character, as the C library's does); and
    when the cursor is on a byte, the one cell drawn in the colours of the
    highlight is the cell of that byte. *)
Theorem render_ascii_column (isprint : Z -> bool) (asc_uninit : nat -> Z)
    (e : editor) :
  drawable e -> isprint 0 = false ->
  exists out,
    editor_render_contents isprint asc_uninit e = Drawn out /\
    ascii_chunks out
      = map (ascii_of isprint)
          (bytes_between e (window_start e) (window_end e)) /\
    (cursor_in_bounds e -> raw_offset e <= content_length e - 1 ->
     highlights out = [raw_offset e - window_start e]).
Proof.
  intros Hd Hp0.
  destruct (render_contents_spec isprint asc_uninit e Hd)
    as (out & H1 & _ & _ & H2).
  exists out. split; [exact H1|]. exact (H2 Hp0).
Qed.

Lemma render_ascii_column_witness :
  let e := editor_at 4 3 [65; 66; 0; 255; 68; 0; 70; 71; 72; 73] 1 2 1
             MODE_NORMAL in
  exists out,
    editor_render_contents (fun c => (32 <=? c) && (c <=? 126)) (fun _ => 7) e
      = Drawn out /\
    ascii_chunks out = [68; 46; 70; 71; 72; 73] /\
    highlights out = [1].
Proof.
  intros e.
  destruct (render_ascii_column (fun c => (32 <=? c) && (c <=? 126))
              (fun _ => 7) e) as (out & H1 & H2 & H3).
  - vm_compute. repeat split; first [reflexivity | discriminate].
  - reflexivity.
  - exists out. split; [exact H1|]. split; [exact H2|].
    apply H3.
    + vm_compute. repeat split; discriminate.
    + vm_compute. discriminate.
Defined.

(** ** Steps up and down *)

Lemma step_cursor_down (e : editor) :
  CInt.in_int (cursor_y e + 1) ->
  step_cursor e KEY_DOWN 1 = set_cursor_y (cursor_y e + 1) e.
Proof.
  intros H. unfold step_cursor.
  cbn [Z.eqb Pos.eqb KEY_RIGHT KEY_LEFT KEY_UP KEY_DOWN].
  rewrite add_exact by exact H. reflexivity.
Qed.

Lemma step_cursor_up (e : editor) :
  CInt.in_int (cursor_y e - 1) ->
  step_cursor e KEY_UP 1 = set_cursor_y (cursor_y e - 1) e.
Proof.
  intros H. unfold step_cursor.
  cbn [Z.eqb Pos.eqb KEY_RIGHT KEY_LEFT KEY_UP KEY_DOWN].
  rewrite sub_exact by exact H. reflexivity.
Qed.

(** The blocks of [editor_move_cursor] after the [switch], for a cursor
    that the [switch] has left on a byte of the screen: nothing moves. *)
Lemma settle_on_byte (e1 : editor) :
  CInt.in_int (octets_per_line e1) -> CInt.in_int (screen_rows e1) ->
  CInt.in_int (content_length e1) ->
  cursor_in_bounds e1 -> 0 <= line e1 ->
  0 <= raw_offset e1 <= content_length e1 - 1 ->
  let e' := if at_file_start e1 then set_cursor_y 1 (set_cursor_x 1 e1)
            else stop_at_end (scroll_rows (stop_at_top (wrap_columns e1))) in
  cursor_x e' = cursor_x e1 /\ cursor_y e' = cursor_y e1 /\ line e' = line e1.
Proof.
  intros Hoi Hri Hni [Hx Hy] Hl Hraw. cbv zeta.
  unfold raw_offset in Hraw.
  assert (Hopl : 1 <= octets_per_line e1) by lia.
  assert (Hrows : 2 <= screen_rows e1) by lia.
  assert (Hrow : 0 <= (cursor_y e1 - 1 + line e1) * octets_per_line e1) by nia.
  assert (Hlb : line e1 <= (cursor_y e1 - 1 + line e1) * octets_per_line e1)
    by nia.
  destruct (at_file_start e1) eqn:Hstart; unfold at_file_start in Hstart.
  { rewrite !andb_true_iff, !Z.leb_le in Hstart. fields.
    clear - Hstart Hx Hy Hl. lia. }
  clear Hstart.
  destruct (wrap_columns_spec e1) as (Hl2 & Hc2);
    try (intros Hp; int_bounds; clear - Hp Hx Hy Hri; lia).
  pose proof (same_buffer_wrap_columns e1) as Hb2. geometry Hb2.
  set (e2 := wrap_columns e1) in *. clearbody e2.
  destruct (stop_at_top_spec e2) as (Hl3 & Hx3 & Hc3).
  pose proof (same_buffer_stop_at_top e2) as Hb3. geometry Hb3.
  set (e3 := stop_at_top e2) in *. clearbody e3.
  assert (He3 : content_length e3 = content_length e1
                /\ octets_per_line e3 = octets_per_line e1
                /\ screen_rows e3 = screen_rows e1 /\ line e3 = line e1)
    by (clear - Hl2 Hl3 Hn Hn0 Ho Ho0 Hr Hr0; lia).
  destruct He3 as (En & Eo & Er & El).
  destruct (scroll_rows_spec e3) as (Hx4 & Hc4);
    try (rewrite ?En, ?Eo, ?Er, ?El; int_bounds;
         clear - Hni Hopl Hrows Hri Hl Hlb Hraw Hx; lia).
  cbv zeta in Hc4. rewrite En, Eo, Er, El in Hc4.
  pose proof (same_buffer_scroll_rows e3) as Hb4. geometry Hb4.
  set (e4 := scroll_rows e3) in *. clearbody e4.
  assert (He4 : content_length e4 = content_length e1
                /\ octets_per_line e4 = octets_per_line e1
                /\ screen_rows e4 = screen_rows e1)
    by (clear - En Eo Er Hn1 Ho1 Hr1; lia).
  destruct He4 as (En4 & Eo4 & Er4).
  assert (S2 : cursor_x e2 = cursor_x e1 /\ cursor_y e2 = cursor_y e1)
    by (clear - Hc2 Hx; lia).
  assert (S3 : cursor_y e3 = cursor_y e1) by (clear - Hc3 S2 Hy; lia).
  assert (S4 : cursor_y e4 = cursor_y e1 /\ line e4 = line e1)
    by (clear - Hc4 S3 Hy; lia).
  assert (Sx : cursor_x e4 = cursor_x e1) by (clear - S2 Hx3 Hx4; lia).
  clear Hc2 Hc3 Hc4.
  destruct (stop_at_end_on_byte e4) as (Fx & Fy & Fl).
  { rewrite Eo4. exact Hoi. }
  { rewrite En4. exact Hni. }
  { unfold cursor_in_bounds. rewrite Eo4, Er4.
    clear - S4 Sx Hx Hy. lia. }
  { clear - S4 Hl. lia. }
  { unfold raw_offset. rewrite Eo4, En4.
    destruct S4 as [-> ->]. rewrite Sx. exact Hraw. }
  rewrite Fx, Fy, Fl. clear - S4 Sx. lia.
Qed.

(** A step down or up within the screen, to a byte of the buffer. *)
Lemma move_vertical_on_byte (e : editor) (dir d : Z) :
  dir = KEY_DOWN /\ d = 1 \/ dir = KEY_UP /\ d = -1 ->
  CInt.in_int (octets_per_line e) -> CInt.in_int (screen_rows e) ->
  CInt.in_int (content_length e) ->
  cursor_in_bounds e -> 0 <= line e ->
  1 <= cursor_y e + d <= screen_rows e - 1 ->
  raw_offset e + d * octets_per_line e <= content_length e - 1 ->
  let e' := editor_move_cursor e dir 1 in
  cursor_x e' = cursor_x e /\ cursor_y e' = cursor_y e + d /\
  line e' = line e /\
  raw_offset e' = raw_offset e + d * octets_per_line e.
Proof.
  intros Hdir Hoi Hri Hni [Hx Hy] Hl Hy' Hraw. cbv zeta.
  assert (Hstep : step_cursor e dir 1 = set_cursor_y (cursor_y e + d) e).
  { destruct Hdir as [[-> ->]|[-> ->]].
    - apply step_cursor_down. int_bounds. lia.
    - rewrite step_cursor_up by (int_bounds; lia). reflexivity. }
  pose proof (same_buffer_move_cursor e dir 1) as Hb. geometry Hb.
  unfold raw_offset at 1. rewrite Ho. clear Hn Ho Hr.
  unfold editor_move_cursor. cbv zeta. rewrite Hstep.
  unfold raw_offset in Hraw.
  destruct (settle_on_byte (set_cursor_y (cursor_y e + d) e))
    as (Fx & Fy & Fl); fields; try assumption.
  - split; fields; lia.
  - unfold raw_offset. fields.
    assert (0 <= (cursor_y e + d - 1 + line e) * octets_per_line e) by nia.
    lia.
  - cbv zeta in Fx, Fy, Fl. fields. rewrite Fx, Fy, Fl.
    repeat split; try reflexivity. unfold raw_offset. lia.
Qed.

(** A step down and then a step up, within the screen and to a byte of the
    buffer, give the state back, and so do a step up and then a step down;
    the first step keeps the column and the line, moves the cursor by one
    row of the screen, and moves its offset by exactly one row of bytes. *)
Theorem step_down_then_up (e : editor) :
  CInt.in_int (octets_per_line e) -> CInt.in_int (screen_rows e) ->
  CInt.in_int (content_length e) ->
  cursor_in_bounds e -> 0 <= line e ->
  (cursor_y e < screen_rows e - 1 ->
   raw_offset e + octets_per_line e <= content_length e - 1 ->
   cursor_x (editor_move_cursor e KEY_DOWN 1) = cursor_x e /\
   cursor_y (editor_move_cursor e KEY_DOWN 1) = cursor_y e + 1 /\
   line (editor_move_cursor e KEY_DOWN 1) = line e /\
   raw_offset (editor_move_cursor e KEY_DOWN 1)
     = raw_offset e + octets_per_line e /\
   editor_move_cursor (editor_move_cursor e KEY_DOWN 1) KEY_UP 1 = e) /\
  (1 < cursor_y e -> raw_offset e <= content_length e - 1 ->
   cursor_x (editor_move_cursor e KEY_UP 1) = cursor_x e /\
   cursor_y (editor_move_cursor e KEY_UP 1) = cursor_y e - 1 /\
   line (editor_move_cursor e KEY_UP 1) = line e /\
   raw_offset (editor_move_cursor e KEY_UP 1)
     = raw_offset e - octets_per_line e /\
   editor_move_cursor (editor_move_cursor e KEY_UP 1) KEY_DOWN 1 = e).
Proof.
  intros Hoi Hri Hni Hin Hl. pose proof Hin as [Hx Hy].
  assert (Hopl : 1 <= octets_per_line e) by lia.
  assert (Hround : forall dir d dir',
            dir = KEY_DOWN /\ d = 1 /\ dir' = KEY_UP
            \/ dir = KEY_UP /\ d = -1 /\ dir' = KEY_DOWN ->
            1 <= cursor_y e + d <= screen_rows e - 1 ->
            raw_offset e <= content_length e - 1 ->
            raw_offset e + d * octets_per_line e <= content_length e - 1 ->
            (cursor_x (editor_move_cursor e dir 1) = cursor_x e /\
             cursor_y (editor_move_cursor e dir 1) = cursor_y e + d /\
             line (editor_move_cursor e dir 1) = line e /\
             raw_offset (editor_move_cursor e dir 1)
               = raw_offset e + d * octets_per_line e) /\
            editor_move_cursor (editor_move_cursor e dir 1) dir' 1 = e).
  { intros dir d dir' Hdir Hy' Hraw Hraw'.
    assert (Hd : dir = KEY_DOWN /\ d = 1 \/ dir = KEY_UP /\ d = -1)
      by (clear - Hdir; tauto).
    assert (Hd' : dir' = KEY_DOWN /\ - d = 1 \/ dir' = KEY_UP /\ - d = -1)
      by (clear - Hdir; lia).
    destruct (move_vertical_on_byte e dir d Hd Hoi Hri Hni Hin Hl Hy' Hraw')
      as (Fx & Fy & Fl & Fr).
    pose proof (same_buffer_move_cursor e dir 1) as Hb. geometry Hb.
    pose proof (moved_only_move_cursor e dir 1) as Hm.
    revert Fx Fy Fl Fr Hn Ho Hr Hm.
    generalize (editor_move_cursor e dir 1) as e1.
    intros e1 Fx Fy Fl Fr Hn Ho Hr Hm.
    split; [exact (conj Fx (conj Fy (conj Fl Fr)))|].
    destruct (move_vertical_on_byte e1 dir' (- d) Hd') as (Gx & Gy & Gl & _).
    { rewrite Ho. exact Hoi. }
    { rewrite Hr. exact Hri. }
    { rewrite Hn. exact Hni. }
    { unfold cursor_in_bounds. rewrite Ho, Hr, Fx, Fy. clear - Hx Hy'. lia. }
    { rewrite Fl. exact Hl. }
    { rewrite Fy, Hr. clear - Hy. lia. }
    { rewrite Fr, Ho, Hn. clear - Hraw. lia. }
    pose proof (moved_only_move_cursor e1 dir' 1) as Hm2.
    revert Gx Gy Gl Hm2. generalize (editor_move_cursor e1 dir' 1) as e2.
    intros e2 Gx Gy Gl Hm2.
    apply moved_only_same_position.
    - eapply moved_only_trans; eassumption.
    - congruence.
    - rewrite Gy, Fy. clear. lia.
    - congruence. }
  split.
  - intros Hy' Hraw.
    assert (Hraw0 : 0 <= raw_offset e) by (unfold raw_offset; nia).
    destruct (Hround KEY_DOWN 1 KEY_UP) as [(H1 & H2 & H3 & H4) H5];
      [tauto|lia|lia|lia|].
    repeat (split; [first [assumption | rewrite H4; lia]|]). exact H5.
  - intros Hy' Hraw.
    destruct (Hround KEY_UP (-1) KEY_DOWN) as [(H1 & H2 & H3 & H4) H5];
      [tauto|lia|lia|lia|].
    split; [exact H1|]. split; [rewrite H2; lia|]. split; [exact H3|].
    split; [rewrite H4; lia|exact H5].
Qed.

Lemma step_down_then_up_witness :
  let e := editor_at 16 24 (replicate 100 7) 0 5 2 MODE_NORMAL in
  cursor_x (editor_move_cursor e KEY_DOWN 1) = 5 /\
  cursor_y (editor_move_cursor e KEY_DOWN 1) = 3 /\
  line (editor_move_cursor e KEY_DOWN 1) = 0 /\
  raw_offset (editor_move_cursor e KEY_DOWN 1) = 36 /\
  editor_move_cursor (editor_move_cursor e KEY_DOWN 1) KEY_UP 1 = e.
Proof.
  intros e.
  apply (proj1 (step_down_then_up e
                  ltac:(vm_compute; split; discriminate)
                  ltac:(vm_compute; split; discriminate)
                  ltac:(vm_compute; split; discriminate)
                  ltac:(vm_compute; repeat split; discriminate)
                  ltac:(vm_compute; discriminate))).
  - vm_compute. reflexivity.
  - vm_compute. discriminate.
Defined.

(** At the edge of the screen a step scrolls: a step down from the last
    row, to a byte of the buffer, moves the screen one line down, and a step
    up from the first row moves it one line up (from a line that
    [editor_scroll] accepts); the cursor keeps its place on the screen and
    its offset moves by exactly one row. *)
Theorem step_scrolls_at_edge (e : editor) :
  CInt.in_int (octets_per_line e) -> CInt.in_int (screen_rows e) ->
  CInt.in_int (content_length e) ->
  cursor_in_bounds e -> 0 <= line e ->
  raw_offset e <= content_length e - 1 ->
  (cursor_y e = screen_rows e - 1 ->
   raw_offset e + octets_per_line e <= content_length e - 1 ->
   let e' := editor_move_cursor e KEY_DOWN 1 in
   line e' = line e + 1 /\ cursor_x e' = cursor_x e /\
   cursor_y e' = cursor_y e /\
   raw_offset e' = raw_offset e + octets_per_line e) /\
  (cursor_y e = 1 -> 1 <= line e ->
   line e - 1 <= content_length e / octets_per_line e - (screen_rows e - 2) ->
   let e' := editor_move_cursor e KEY_UP 1 in
   line e' = line e - 1 /\ cursor_x e' = cursor_x e /\
   cursor_y e' = cursor_y e /\
   raw_offset e' = raw_offset e - octets_per_line e).
Proof.
  intros Hoi Hri Hni [Hx Hy] Hl Hraw.
  assert (Hopl : 1 <= octets_per_line e) by lia.
  assert (Hrows : 2 <= screen_rows e) by lia.
  unfold raw_offset in Hraw.
  assert (Hrow : 0 <= (cursor_y e - 1) * octets_per_line e) by nia.
  assert (Hline : 0 <= line e * octets_per_line e) by nia.
  split.
  - intros Hy1 Hdown. cbv zeta.
    pose proof (same_buffer_move_cursor e KEY_DOWN 1) as Hb. geometry Hb.
    unfold raw_offset. rewrite Ho. clear Hn Ho Hr.
    unfold editor_move_cursor. cbv zeta.
    rewrite step_cursor_down by (int_bounds; lia).
    unfold raw_offset in Hdown.
    destruct (settle_off_screen (set_cursor_y (cursor_y e + 1) e) 1)
      as (Fx & Fy & Fl); fields; try assumption; lia.
  - intros Hy1 Hl1 Hlim. cbv zeta.
    pose proof (same_buffer_move_cursor e KEY_UP 1) as Hb. geometry Hb.
    unfold raw_offset. rewrite Ho. clear Hn Ho Hr.
    unfold editor_move_cursor. cbv zeta.
    rewrite step_cursor_up by (int_bounds; lia).
    destruct (settle_off_screen (set_cursor_y (cursor_y e - 1) e) (-1))
      as (Fx & Fy & Fl); fields; try assumption; try lia.
    split; [|lia].
    assert (0 <= (line e - 1) * octets_per_line e) by nia. lia.
Qed.

Lemma step_scrolls_at_edge_witness :
  let e := editor_at 16 4 (replicate 100 7) 1 5 3 MODE_NORMAL in
  let e' := editor_move_cursor e KEY_DOWN 1 in
  line e' = 2 /\ cursor_x e' = 5 /\ cursor_y e' = 3 /\ raw_offset e' = 68.
Proof.
  intros e.
  apply (proj1 (step_scrolls_at_edge e
                  ltac:(vm_compute; split; discriminate)
                  ltac:(vm_compute; split; discriminate)
                  ltac:(vm_compute; split; discriminate)
                  ltac:(vm_compute; repeat split; discriminate)
                  ltac:(vm_compute; discriminate)
                  ltac:(vm_compute; discriminate))).
  - reflexivity.
  - vm_compute. discriminate.
Defined.

(** ** The loop of [main] *)

(** [settled] reads the size of the buffer, the geometry and the line. *)
Lemma settled_frame (e e' : editor) :
  settled e ->
  length (contents e') = length (contents e) ->
  content_length e' = content_length e ->
  octets_per_line e' = octets_per_line e -> grouping e' = grouping e ->
  screen_rows e' = screen_rows e ->
  0 <= line e' -> line e' * octets_per_line e < content_length e ->
  settled e'.
Proof.
  unfold settled, drawable, good_buffer, length_ok, offsets_fit.
  intros (((Hlen & Hni) & Hn & Ho & Hg & Hgi & Hr & Hl & Htop & Hfit)
          & Hrows & Hmax) Hc Hcl Hopl Hgr Hsr Hl' Htop'.
  rewrite Hc, Hcl, Hopl, Hgr, Hsr. int_bounds.
  repeat split; try assumption; try lia.
Qed.

Lemma settled_moved (e e' : editor) :
  settled e -> moved_only e e' ->
  0 <= line e' -> line e' * octets_per_line e < content_length e ->
  settled e'.
Proof.
  intros Hs Hm Hl Htop. unfold moved_only in Hm.
  apply (settled_frame e e' Hs); try assumption; rewrite Hm; reflexivity.
Qed.

(** The cursor is no part of it. *)
Lemma settled_cursor (e e' : editor) :
  settled e -> moved_only e e' -> line e' = line e -> settled e'.
Proof.
  intros Hs Hm Hl. pose proof Hs as ((_ & _ & _ & _ & _ & _ & H0 & Htop & _) & _).
  apply (settled_moved e e' Hs Hm); rewrite Hl; assumption.
Qed.

(** After [editor_scroll] the top row of the screen starts inside the
    buffer, whatever the line and the units were. *)
Lemma scroll_in_window (e : editor) (units : Z) :
  settled e ->
  0 <= line (editor_scroll e units) /\
  line (editor_scroll e units) * octets_per_line e < content_length e.
Proof.
  unfold settled, drawable, good_buffer, length_ok, offsets_fit.
  intros (((Hlen & Hni) & Hn & Ho & Hg & Hgi & Hr & Hl & Htop & Hfit)
          & Hrows & Hmax).
  rewrite scroll_line. cbv zeta.
  rewrite div_exact by (assumption || lia).
  assert (Hri : CInt.in_int (screen_rows e - 2))
    by (int_bounds; clear - Hrows Hmax Ho Hn; nia).
  rewrite (sub_exact (screen_rows e)) by exact Hri.
  pose proof (Z.div_pos (content_length e) (octets_per_line e) ltac:(lia)
                ltac:(lia)) as Hq0.
  assert (Hq1 : content_length e / octets_per_line e <= content_length e)
    by (apply Z.div_le_upper_bound; nia).
  rewrite sub_exact by (int_bounds; clear - Hq0 Hq1 Hri Hni Hrows; lia).
  pose proof (Z.mul_div_le (content_length e) (octets_per_line e)
                ltac:(lia)) as Hd.
  generalize (line e +i units) as l. intros l.
  split; [lia|].
  destruct (Z.max_spec 0 (Z.min (content_length e / octets_per_line e
                                 - (screen_rows e - 2)) l))
    as [[_ ->] | [_ ->]]; [|lia].
  assert (Z.min (content_length e / octets_per_line e - (screen_rows e - 2)) l
          <= content_length e / octets_per_line e - 1) by lia.
  clear - H Hd Ho. nia.
Qed.

Lemma settled_scroll (e : editor) (units : Z) :
  settled e -> settled (editor_scroll e units).
Proof.
  intros Hs. destruct (scroll_in_window e units Hs) as [H0 Htop].
  exact (settled_moved e _ Hs (moved_only_scroll e units) H0 Htop).
Qed.

(** The first line of the buffer can always be the top row. *)
Lemma settled_first_line (e : editor) : settled e -> settled (set_line 0 e).
Proof.
  intros Hs. pose proof Hs as ((_ & Hlen & _) & _).
  apply (settled_moved e _ Hs (moved_only_set_line 0 e));
    cbn [line set_line]; lia.
Qed.

Lemma settled_set_cursor_x (v : Z) (e : editor) :
  settled e -> settled (set_cursor_x v e).
Proof.
  intros Hs.
  exact (settled_cursor e _ Hs (moved_only_set_cursor_x v e) eq_refl).
Qed.

Lemma settled_set_cursor_y (v : Z) (e : editor) :
  settled e -> settled (set_cursor_y v e).
Proof.
  intros Hs.
  exact (settled_cursor e _ Hs (moved_only_set_cursor_y v e) eq_refl).
Qed.

Lemma settled_cursor_to_offset (e : editor) (offset : Z) :
  settled e -> settled (cursor_to_offset e offset).
Proof.
  intros Hs. unfold cursor_to_offset.
  destruct (editor_cursor_at_offset e offset) as [x y].
  apply settled_set_cursor_y, settled_set_cursor_x, Hs.
Qed.

(** [editor_move_cursor] changes the line through [editor_scroll] only. *)
Lemma settled_move_cursor (e : editor) (dir amount : Z) :
  settled e -> settled (editor_move_cursor e dir amount).
Proof.
  intros Hs. unfold editor_move_cursor. cbv zeta.
  assert (H1 : settled (step_cursor e dir amount)).
  { unfold step_cursor.
    repeat match goal with
           | |- context [if ?b then _ else _] => destruct b
           end;
      first [apply settled_set_cursor_x, Hs | apply settled_set_cursor_y, Hs
            | exact Hs]. }
  revert H1. generalize (step_cursor e dir amount) as e1. clear Hs.
  intros e1 H1.
  destruct (at_file_start e1).
  { apply settled_set_cursor_y, settled_set_cursor_x, H1. }
  assert (H2 : settled (wrap_columns e1)).
  { unfold wrap_columns.
    repeat match goal with
           | |- context [if ?b then _ else _] => destruct b
           end;
      first [apply settled_set_cursor_x, settled_set_cursor_y, H1 | exact H1]. }
  revert H2. generalize (wrap_columns e1) as e2. clear H1. intros e2 H2.
  assert (H3 : settled (stop_at_top e2)).
  { unfold stop_at_top. destruct (_ && _);
      [apply settled_set_cursor_y, H2|exact H2]. }
  revert H3. generalize (stop_at_top e2) as e3. clear H2. intros e3 H3.
  assert (H4 : settled (scroll_rows e3)).
  { unfold scroll_rows. destruct (_ >? _).
    - apply settled_scroll, settled_set_cursor_y, H3.
    - destruct (_ && _); [|exact H3].
      apply settled_scroll, settled_set_cursor_y, H3. }
  revert H4. generalize (scroll_rows e3) as e4. clear H3. intros e4 H4.
  unfold stop_at_end. cbv zeta.
  generalize (editor_offset_at_cursor e4) as off. intros off.
  destruct (_ >=? _); [apply settled_cursor_to_offset, H4|exact H4].
Qed.

Lemma settled_set_status (s : status_severity) (m : message) (e : editor) :
  settled e -> settled (set_status s m e).
Proof.
  intros Hs. pose proof Hs as ((_ & _ & _ & _ & _ & _ & H0 & Htop & _) & _).
  apply (settled_frame e _ Hs); try reflexivity; assumption.
Qed.

Lemma settled_setmode (e : editor) (m : editor_mode) :
  settled e -> settled (editor_setmode e m).
Proof.
  intros Hs. pose proof Hs as ((_ & _ & _ & _ & _ & _ & H0 & Htop & _) & _).
  apply (settled_frame e _ Hs); destruct m; try reflexivity; assumption.
Qed.

Lemma settled_writefile (w : world) (e e' : editor) :
  settled e -> editor_writefile w e = Some e' -> settled e'.
Proof.
  intros Hs. unfold editor_writefile. intros H.
  repeat case_key H; try discriminate H;
    apply (inj Some) in H; rewrite <- H; apply settled_set_status, Hs.
Qed.

Lemma settled_set_contents (p : list Z) (e : editor) :
  settled e -> length p = length (contents e) -> settled (set_contents p e).
Proof.
  intros Hs Hp. pose proof Hs as ((_ & _ & _ & _ & _ & _ & H0 & Htop & _) & _).
  apply (settled_frame e _ Hs); try reflexivity; assumption.
Qed.

Lemma settled_increment (e e' : editor) (amount : Z) :
  settled e -> editor_increment_byte e amount = Some e' -> settled e'.
Proof.
  intros Hs. unfold editor_increment_byte. cbv zeta.
  generalize (editor_offset_at_cursor e) as off. intros off H.
  destruct (load _ _) as [c|]; [|discriminate H].
  cbn [mbind option_bind] in H.
  destruct (store _ _ _) as [q|] eqn:Hq; [|discriminate H].
  cbn [mbind option_bind] in H. apply (inj Some) in H. rewrite <- H.
  apply store_length in Hq. apply settled_set_contents; assumption.
Qed.

Lemma settled_replace_byte (e e' : editor) (x : Z) :
  settled e -> editor_replace_byte e x = Some e' -> settled e'.
Proof.
  intros Hs. unfold editor_replace_byte. cbv zeta.
  generalize (editor_offset_at_cursor e) as off. intros off H.
  destruct (store _ _ _) as [q|] eqn:Hq; [|discriminate H].
  cbn [mbind option_bind] in H. apply (inj Some) in H. rewrite <- H.
  apply store_length in Hq.
  apply settled_move_cursor, settled_set_contents; assumption.
Qed.

Lemma read_retry_no_delete (inp : stdin) (r : read_result) (rest : stdin) :
  no_delete_key inp = true -> read_retry inp = Some (r, rest) ->
  no_delete_key rest = true /\
  forall b, r = RByte b -> CChar.of_int b <> ch "x".
Proof.
  induction inp as [|[b| |eintr] inp IH];
    cbn [read_retry no_delete_key forallb].
  - discriminate.
  - intros Hn H. apply (inj Some) in H. apply pair_equal_spec in H.
    destruct H as [<- <-]. apply andb_true_iff in Hn. destruct Hn as [Hb Hn].
    split; [exact Hn|]. intros b' Hb'. injection Hb' as <-.
    apply negb_true_iff, Z.eqb_neq in Hb. exact Hb.
  - exact IH.
  - intros Hn H. apply (inj Some) in H. apply pair_equal_spec in H.
    destruct H as [<- <-]. split; [exact Hn|]. discriminate.
Qed.

Lemma read_into_no_delete (old : Z) (inp : stdin) :
  no_delete_key inp = true ->
  no_delete_key (read_into old inp).2 = true.
Proof.
  destruct inp as [|[b| |eintr] inp]; cbn [read_into no_delete_key forallb snd];
    intros Hn; try reflexivity; try exact Hn.
  apply andb_true_iff in Hn. apply Hn.
Qed.

(** A key that [read_key] returns is [x] only if [x] was typed, and what
    is left of the terminal is part of what there was. *)
Lemma read_key_no_delete (w : world) (inp : stdin) (c : Z) (rest : stdin) :
  no_delete_key inp = true -> read_key w inp = Ret c rest ->
  c <> ch "x" /\ no_delete_key rest = true.
Proof.
  intros Hn. unfold read_key.
  destruct (read_retry inp) as [[r rest0]|] eqn:Hr; [|discriminate].
  destruct (read_retry_no_delete inp r rest0 Hn Hr) as [Hn0 Hb].
  destruct r as [b| |[|]]; try discriminate.
  2: { intros H. apply Ret_inv in H. destruct H as [<- <-].
       split; [discriminate|exact Hn0]. }
  specialize (Hb b eq_refl). cbv zeta.
  revert Hb. generalize (CChar.of_int b) as c0. intros c0 Hb.
  destruct (Z.eqb_spec c0 KEY_ESC) as [Hesc|Hesc].
  2: { intros H. apply Ret_inv in H. destruct H as [<- <-]. auto. }
  assert (Hkey : forall k, k = c0 \/ k = KEY_ESC
                           \/ KEY_UP <= k <= KEY_PAGEDOWN -> k <> ch "x").
  { intros k [->|[->|Hk]]; [exact Hb|discriminate|].
    intros ->. revert Hk. vm_compute. intros [Hk _]. apply Hk. reflexivity. }
  assert (Hl : forall s, match letter_key s with
                         | Some k => KEY_UP <= k <= KEY_PAGEDOWN
                         | None => True end).
  { intros s. unfold letter_key.
    repeat match goal with |- context [if ?b then _ else _] => destruct b end;
      (exact I || (vm_compute; split; discriminate)). }
  assert (Ht : forall s, match tilde_key s with
                         | Some k => KEY_UP <= k <= KEY_PAGEDOWN
                         | None => True end).
  { intros s. unfold tilde_key.
    repeat match goal with |- context [if ?b then _ else _] => destruct b end;
      (exact I || (vm_compute; split; discriminate)). }
  pose proof (read_into_no_delete (seq_uninit w 0) rest0 Hn0) as Hn1.
  destruct (read_into (seq_uninit w 0) rest0) as [[n0 s0] inp1].
  cbn [snd] in Hn1.
  destruct (n0 =? 0).
  { intros H. apply Ret_inv in H. destruct H as [<- <-]. auto. }
  pose proof (read_into_no_delete (seq_uninit w 1) inp1 Hn1) as Hn2.
  destruct (read_into (seq_uninit w 1) inp1) as [[n1 s1] inp2].
  cbn [snd] in Hn2.
  destruct (n1 =? 0).
  { intros H. apply Ret_inv in H. destruct H as [<- <-]. auto. }
  destruct (s0 =? ch "[").
  2: { intros H. apply Ret_inv in H. destruct H as [<- <-]. auto. }
  specialize (Hl s1). specialize (Ht s1).
  pose proof (read_into_no_delete (seq_uninit w 2) inp2 Hn2) as Hn3.
  destruct (read_into (seq_uninit w 2) inp2) as [[n2 s2] inp3].
  cbn [snd] in Hn3.
  destruct ((ch "0" <=? s1) && (s1 <=? ch "9")).
  - destruct (n2 =? 0).
    { intros H. apply Ret_inv in H. destruct H as [<- <-]. auto. }
    destruct (s2 =? ch "~").
    + destruct (tilde_key s1).
      { intros H. apply Ret_inv in H. destruct H as [<- <-]. auto. }
      destruct (letter_key s1);
        intros H; apply Ret_inv in H; destruct H as [<- <-]; auto.
    + destruct (letter_key s1);
        intros H; apply Ret_inv in H; destruct H as [<- <-]; auto.
  - destruct (letter_key s1);
      intros H; apply Ret_inv in H; destruct H as [<- <-]; auto.
Qed.

(** A key other than [x] leaves a state that can be drawn. *)
Lemma dispatch_settled (w : world) (e : editor) (c : Z) (rest : stdin)
    (e' : editor) (rest' : stdin) :
  settled e -> c <> ch "x" -> no_delete_key rest = true ->
  editor_dispatch w e c rest = Ret e' rest' ->
  settled e' /\ no_delete_key rest' = true.
Proof.
  intros Hs Hc Hn. unfold editor_dispatch. intros H.
  assert (Hdone : forall e0, settled e0 -> Ret e0 rest = Ret e' rest' ->
                             settled e' /\ no_delete_key rest' = true).
  { intros e0 H0 Heq. apply Ret_inv in Heq. destruct Heq as [<- <-]. auto. }
  case_key H. { apply (Hdone _ (settled_setmode e _ Hs) H). }
  case_key H. { discriminate H. }
  case_key H.
  { case_key H; [|discriminate H].
    eapply Hdone; [|exact H]. eapply settled_writefile; eassumption. }
  case_key H. { apply (Hdone _ (settled_move_cursor e _ _ Hs) H). }
  case_key H. { apply (Hdone _ (settled_set_cursor_x _ e Hs) H). }
  case_key H. { apply (Hdone _ (settled_set_cursor_x _ e Hs) H). }
  case_key H. { apply (Hdone _ (settled_scroll e _ Hs) H). }
  case_key H. { apply (Hdone _ (settled_scroll e _ Hs) H). }
  case_key H.
  - unfold normal_command, checked in H.
    do 4 (case_key H; [apply (Hdone _ (settled_move_cursor e _ _ Hs) H)|]).
    case_key H. { exfalso. apply Hc. key_is. }
    do 2 (case_key H; [apply (Hdone _ (settled_setmode e _ Hs) H)|]).
    do 2 (case_key H; [apply (Hdone _ (settled_move_cursor e _ _ Hs) H)|]).
    case_key H.
    { apply (Hdone _ (settled_cursor_to_offset _ _ (settled_scroll e _ Hs)) H). }
    case_key H.
    { destruct (read_key w rest) as [c1 rest1| | |] eqn:Hk; try discriminate H.
      destruct (read_key_no_delete w rest c1 rest1 Hn Hk) as [_ Hn1].
      case_key H; apply Ret_inv in H; destruct H as [<- <-];
        (split; [|exact Hn1]); [|exact Hs].
      apply settled_cursor_to_offset, settled_first_line, Hs. }
    case_key H.
    { case_key H; [|discriminate H].
      eapply Hdone; [|exact H]. eapply settled_increment; eassumption. }
    case_key H.
    { case_key H; [|discriminate H].
      eapply Hdone; [|exact H]. eapply settled_increment; eassumption. }
    apply (Hdone _ Hs H).
  - apply (Hdone _ Hs H).
  - unfold replace_command in H.
    case_key H. { apply (Hdone _ (settled_set_status _ _ e Hs) H). }
    destruct (read_key w rest) as [c1 rest1| | |] eqn:Hk; try discriminate H.
    destruct (read_key_no_delete w rest c1 rest1 Hn Hk) as [_ Hn1].
    case_key H.
    { apply Ret_inv in H. destruct H as [<- <-].
      split; [apply settled_set_status, Hs|exact Hn1]. }
    case_key H; [|discriminate H].
    apply Ret_inv in H. destruct H as [<- <-].
    split; [|exact Hn1]. apply settled_set_status.
    eapply settled_replace_byte; eassumption.
  - apply (Hdone _ Hs H).
Qed.

Lemma keypress_settled (w : world) (e : editor) (inp : stdin)
    (e' : editor) (rest : stdin) :
  settled e -> no_delete_key inp = true ->
  editor_process_keypress w e inp = Ret e' rest ->
  settled e' /\ no_delete_key rest = true.
Proof.
  intros Hs Hn. unfold editor_process_keypress.
  destruct (read_key w inp) as [c rest0| | |] eqn:Hk; try discriminate.
  destruct (read_key_no_delete w inp c rest0 Hn Hk) as [Hc Hn0].
  destruct (c =? -1).
  - intros H. apply Ret_inv in H. destruct H as [<- <-]. auto.
  - apply dispatch_settled; assumption.
Qed.

(** A state that can be drawn is drawn: [editor_refresh_screen] returns. *)
Lemma refresh_drawn (w : world) (e : editor) :
  drawable e -> exists out, editor_refresh_screen w e = Drawn out.
Proof.
  intros Hd. unfold editor_refresh_screen.
  destruct (render_contents_spec (ctype_isprint w) (stack_fill w) e Hd)
    as (shown & -> & _).
  cbn [mbind drawn_bind].
  destruct Hd as ((Hlen & Hni) & Hn & Ho & Hg & Hgi & _).
  unfold length_ok in Hlen.
  unfold editor_render_ruler.
  destruct (Z.leb_spec (content_length e) 0); [lia|]. cbv zeta.
  pose proof (offset_at_cursor_in_buffer e Hni Hn) as Hoff.
  revert Hoff. generalize (editor_offset_at_cursor e) as off. intros off Hoff.
  rewrite load_in_range by lia.
  destruct (lookup_lt_is_Some_2 (contents e) (Z.to_nat off)) as [c ->]; [lia|].
  cbn [defined mbind drawn_bind].
  unfold div_defined.
  assert (Hdiv : grouping e *i 2 <> 0 /\ grouping e *i 2 <> -1).
  { unfold CInt.mul, CInt.wrap.
    change (2 ^ 31) with 2147483648. change (2 ^ 32) with 4294967296.
    int_bounds. clear - Hg Hgi.
    pose proof (Z.mod_pos_bound (grouping e * 2 + 2147483648) 4294967296
                  eq_refl).
    pose proof (Z.div_mod (grouping e * 2 + 2147483648) 4294967296
                  ltac:(lia)).
    split; lia. }
  destruct Hdiv as [H0 H1].
  destruct (Z.eqb_spec (grouping e *i 2) 0); [contradiction|].
  destruct (Z.eqb_spec (grouping e *i 2) (-1)); [contradiction|].
  rewrite andb_false_r. cbn [orb mbind drawn_bind]. eauto.
Qed.



(** The redraw of a buffer shorter than a row under a screen that is
    scrolled down, the state deletions can leave: [editor_render_contents]
    takes [content_length - octets_per_line], a negative offset, for the
    first offset to draw, and reads [e->contents] there, before the
    buffer. *)
Theorem refresh_before_buffer (w : world) (e : editor) :
  1 <= content_length e < octets_per_line e ->
  1 <= line e -> 2 <= screen_rows e -> offsets_fit e ->
  render_start_offset e = content_length e - octets_per_line e /\
  render_start_offset e < 0 /\
  load (contents e) (render_start_offset e) = None /\
  editor_refresh_screen w e = Undefined.
Proof.
  intros Hn Hl Hr Hfit. unfold offsets_fit in Hfit.
  assert (Ho : 1 <= octets_per_line e) by lia.
  assert (Hlo : octets_per_line e <= line e * octets_per_line e) by nia.
  assert (Hro : 2 * octets_per_line e <= screen_rows e * octets_per_line e)
    by nia.
  assert (Hsum : (screen_rows e + line e) * octets_per_line e
                 = screen_rows e * octets_per_line e
                   + line e * octets_per_line e) by lia.
  assert (Hstart : render_start_offset e
                   = content_length e - octets_per_line e).
  { unfold render_start_offset. cbv zeta.
    rewrite mul_exact by (int_bounds; lia).
    destruct (Z.geb_spec (line e * octets_per_line e) (content_length e));
      [|lia].
    apply sub_exact. int_bounds. lia. }
  assert (Hend : render_end_offset e = content_length e).
  { unfold render_end_offset. cbv zeta. rewrite Hstart.
    rewrite mul_exact by (int_bounds; lia).
    rewrite add_exact by (int_bounds; lia).
    rewrite sub_exact by (int_bounds; lia).
    rewrite Z.gtb_ltb.
    destruct (Z.ltb_spec (content_length e)
                (screen_rows e * octets_per_line e
                 + (content_length e - octets_per_line e)
                 - octets_per_line e)); [reflexivity|lia]. }
  assert (Hload : load (contents e) (content_length e - octets_per_line e)
                  = None).
  { unfold load.
    destruct (Z.leb_spec 0 (content_length e - octets_per_line e)); [lia|].
    reflexivity. }
  split; [exact Hstart|]. rewrite Hstart.
  split; [lia|]. split; [exact Hload|].
  unfold editor_refresh_screen, editor_render_contents. cbv zeta.
  destruct (Z.leb_spec (content_length e) 0); [lia|].
  rewrite Hstart, Hend.
  replace (content_length e - (content_length e - octets_per_line e))
    with (octets_per_line e) by lia.
  destruct (Z.to_nat (octets_per_line e)) as [|k] eqn:Hk; [lia|].
  cbn [render_loop]. unfold render_byte.
  assert (Hrem : rem_defined (content_length e - octets_per_line e)
                   (octets_per_line e)
                 = Drawn (content_length e - octets_per_line e)).
  { unfold rem_defined.
    destruct (Z.eqb_spec (octets_per_line e) 0); [lia|].
    destruct (Z.eqb_spec (octets_per_line e) (-1)); [lia|].
    rewrite andb_false_r. cbn [orb]. f_equal.
    unfold CInt.rem.
    replace (content_length e - octets_per_line e)
      with (- (octets_per_line e - content_length e)) by lia.
    rewrite Z.rem_opp_l by lia. rewrite Z.rem_small by lia.
    apply wrap_id. int_bounds. lia. }
  rewrite Hrem. cbn [mbind drawn_bind].
  assert (Hz : (content_length e - octets_per_line e =? 0) = false)
    by (apply Z.eqb_neq; lia).
  rewrite Hz, Hload. reflexivity.
Qed.

Lemma refresh_before_buffer_witness :
  let keys :=
    [RByte 27; RByte 91; RByte 54; RByte 126] ++ replicate 63 (RByte 120)
    ++ [RByte 27; RByte 91; RByte 52; RByte 126; RByte 120;
        RByte 27; RByte 91; RByte 49; RByte 126; RByte 120] in
  let e0 := editor_at 16 6 (replicate 80 7) 0 1 1 MODE_NORMAL in
  editor_refresh_screen calm_world
    (editor_at 16 24 (replicate 15 7) 1 1 0 MODE_NORMAL) = Undefined /\
  match editor_loop calm_world 68 e0 keys with
  | Ret e _ => content_length e = 15 /\ line e = 1
  | _ => False
  end /\
  editor_loop calm_world 69 e0 keys = Fault.
Proof.
  intros keys e0. split; [|split].
  - apply (refresh_before_buffer calm_world
             (editor_at 16 24 (replicate 15 7) 1 1 0 MODE_NORMAL)).
    + simpl. lia.
    + simpl. lia.
    + simpl. lia.
    + vm_compute. discriminate.
  - vm_compute. split; reflexivity.
  - vm_compute. reflexivity.
Defined.
